(** * ffmpeg-banner-api: banner geometry, resilient download and batch endpoint

    A shallow embedding of the three revisions of the service found in the
    repository:

    - [V1]: [src/index.js] (fixed geometry, download without retry);
    - [V2]: first revision of the unnamed source (percent configuration
      merged with defaults, download with retry);
    - [V3]: second revision of the unnamed source (percent or pixel
      configuration, glyph-padding compensation, two traversals).

    JavaScript numbers are modelled as exact rationals extended with the
    two infinities and NaN, so that a division by zero is visible.  Binary64
    rounding, overflow and the sign of zero are not modelled; where a
    property turns on them, the computation is carried out on binary64
    numbers in [B64]. *)

From Stdlib Require Import PrimFloat.
From Stdlib Require Import ZArith QArith Qround Qminmax Lia Lqa.
From Stdlib Require Import Bool List String Ascii.
Import ListNotations.

Open Scope Q_scope.

(* ================================================================== *)
(** ** JavaScript numbers *)

Module JS.

Inductive num : Type :=
| Fin (q : Q)
| PosInf
| NegInf
| NaN.

Definition ofZ (z : Z) : num := Fin (inject_Z z).
Definition ofNat (n : nat) : num := Fin (inject_Z (Z.of_nat n)).

Definition finite (x : num) : Prop :=
  match x with Fin _ => True | _ => False end.

(** [0 < x], false for NaN. *)
Definition positive (x : num) : Prop :=
  match x with
  | Fin q => 0 < q
  | PosInf => True
  | _ => False
  end.


(** Sign of a rational as a comparison with zero. *)
Definition sgn (q : Q) : comparison := 0 ?= q.

(** [a * b] *)
Definition mul (a b : num) : num :=
  match a, b with
  | NaN, _ | _, NaN => NaN
  | Fin x, Fin y => Fin (x * y)
  | Fin x, PosInf | PosInf, Fin x =>
      match sgn x with Lt => PosInf | Gt => NegInf | Eq => NaN end
  | Fin x, NegInf | NegInf, Fin x =>
      match sgn x with Lt => NegInf | Gt => PosInf | Eq => NaN end
  | PosInf, PosInf | NegInf, NegInf => PosInf
  | PosInf, NegInf | NegInf, PosInf => NegInf
  end.

(** [a + b] *)
Definition add (a b : num) : num :=
  match a, b with
  | NaN, _ | _, NaN => NaN
  | Fin x, Fin y => Fin (x + y)
  | PosInf, NegInf | NegInf, PosInf => NaN
  | PosInf, _ | _, PosInf => PosInf
  | NegInf, _ | _, NegInf => NegInf
  end.

(** [a / b]: a finite non-zero value divided by zero is an infinity,
    zero divided by zero is NaN. *)
Definition div (a b : num) : num :=
  match a, b with
  | NaN, _ | _, NaN => NaN
  | Fin x, Fin y =>
      match sgn y with
      | Eq => match sgn x with Lt => PosInf | Gt => NegInf | Eq => NaN end
      | _ => Fin (x / y)
      end
  | Fin _, PosInf | Fin _, NegInf => Fin 0
  | PosInf, Fin y => match sgn y with Gt => NegInf | _ => PosInf end
  | NegInf, Fin y => match sgn y with Gt => PosInf | _ => NegInf end
  | _, _ => NaN
  end.

(** [a < b], false as soon as one side is NaN. *)
Definition ltb (a b : num) : bool :=
  match a, b with
  | NaN, _ | _, NaN => false
  | Fin x, Fin y => match x ?= y with Lt => true | _ => false end
  | NegInf, NegInf => false
  | NegInf, _ => true
  | _, PosInf => match a with PosInf => false | _ => true end
  | _, _ => false
  end.

(** [Math.min(a, b)] *)
Definition min (a b : num) : num :=
  match a, b with
  | NaN, _ | _, NaN => NaN
  | _, _ => if ltb b a then b else a
  end.

(** [Math.round(x)]: the nearest integer, ties towards +infinity. *)
Definition round (x : num) : num :=
  match x with
  | Fin q => Fin (inject_Z (Qfloor (q + (1 # 2))))
  | _ => x
  end.

(** [Math.pow(2, n)] for a natural exponent. *)
Definition pow2 (n : nat) : num := Fin (inject_Z (2 ^ Z.of_nat n)).

(** Truthiness of a number: [0] and [NaN] are falsy. *)
Definition truthy (x : num) : bool :=
  match x with
  | NaN => false
  | Fin q => negb (Qeq_bool q 0)
  | _ => true
  end.

(** A possibly [undefined] number used in arithmetic. *)
Definition toNumber (x : option num) : num :=
  match x with Some v => v | None => NaN end.

(** [a || b] on possibly undefined numbers. *)
Definition or_else (a b : option num) : option num :=
  match a with
  | Some v => if truthy v then a else b
  | None => b
  end.

(** Truthiness of a possibly undefined string: [undefined] and the empty
    string are falsy. *)
Definition truthy_str (s : option string) : bool :=
  match s with
  | Some EmptyString | None => false
  | Some _ => true
  end.

(** Same value up to the representation of the rational. *)
Definition eqv (a b : num) : Prop :=
  match a, b with
  | Fin x, Fin y => x == y
  | PosInf, PosInf | NegInf, NegInf | NaN, NaN => True
  | _, _ => False
  end.

End JS.

Declare Scope js_scope.
Delimit Scope js_scope with js.
Infix "*" := JS.mul : js_scope.
Infix "+" := JS.add : js_scope.
Infix "/" := JS.div : js_scope.

(* ================================================================== *)
(** ** Strings *)

Open Scope string_scope.

(** [c.toUpperCase()] on one ASCII character. *)
Definition upper_ascii (c : ascii) : ascii :=
  let n := nat_of_ascii c in
  if andb (Nat.leb 97 n) (Nat.leb n 122) then ascii_of_nat (n - 32) else c.

(** [s.toUpperCase()] *)
Fixpoint toUpperCase (s : string) : string :=
  match s with
  | EmptyString => EmptyString
  | String c s' => String (upper_ascii c) (toUpperCase s')
  end.

(** [s] without its first [n] characters. *)
Fixpoint drop (n : nat) (s : string) : string :=
  match n, s with
  | O, _ => s
  | S _, EmptyString => EmptyString
  | S n', String _ s' => drop n' s'
  end.

(** [s.replace(pat, rep)] with a string pattern: only the first (leftmost)
    occurrence of [pat] is replaced. *)
Fixpoint replace (s pat rep : string) : string :=
  if String.prefix pat s then rep ++ drop (String.length pat) s
  else match s with
       | EmptyString => EmptyString
       | String c s' => String c (replace s' pat rep)
       end.

(** Does the character occur in the string? *)
Fixpoint mem_ascii (c : ascii) (s : string) : bool :=
  match s with
  | EmptyString => false
  | String d s' => if Ascii.eqb c d then true else mem_ascii c s'
  end.

(** The template literal
    [`Ask for ${avatarName} and mention you saw this on ${platform}!`]. *)
Definition bannerText (avatarName platform : string) : string :=
  "Ask for " ++ avatarName ++ " and mention you saw this on " ++ platform ++ "!".

(* ================================================================== *)
(** ** Errors and configuration objects *)

Inductive Error : Type :=
| HttpError (status : option Z) (message : string)
| TypeError (message : string)
| Failure (message : string).

Definition message (e : Error) : string :=
  match e with
  | HttpError _ m | TypeError m | Failure m => m
  end.

(** The [banner_config] object of a request, as parsed from a JSON body:
    a key is either absent ([None], read as [undefined]) or holds a value
    of its intended type. *)
Record BannerConfig : Type := mkConfig {
  y_percent : option JS.num;
  y : option JS.num;
  font_size_percent : option JS.num;
  font_size : option JS.num;
  template_height : option JS.num;
  show_background : option bool;
  text_color : option string;
  fill_color : option string;
  bg_color : option string
}.

(** The empty object [{}]. *)
Definition empty_config : BannerConfig :=
  mkConfig None None None None None None None None None.

Definition DEFAULT_BANNER_CONFIG : BannerConfig :=
  {| y_percent := Some (JS.Fin (159 # 1000));
     y := None;
     font_size_percent := Some (JS.Fin (4 # 100));
     font_size := None;
     template_height := None;
     show_background := Some false;
     text_color := Some "#feb628";
     fill_color := None;
     bg_color := Some "#1a325b" |}.

(** One key of an object spread [{ ...d, ...b }]. *)
Definition spread_key {A} (d b : option A) : option A :=
  match b with Some _ => b | None => d end.

(** [{ ...d, ...b }] *)
Definition spread (d b : BannerConfig) : BannerConfig :=
  {| y_percent := spread_key (y_percent d) (y_percent b);
     y := spread_key (y d) (y b);
     font_size_percent := spread_key (font_size_percent d) (font_size_percent b);
     font_size := spread_key (font_size d) (font_size b);
     template_height := spread_key (template_height d) (template_height b);
     show_background := spread_key (show_background d) (show_background b);
     text_color := spread_key (text_color d) (text_color b);
     fill_color := spread_key (fill_color d) (fill_color b);
     bg_color := spread_key (bg_color d) (bg_color b) |}.

(** The [drawtext] filter options handed to the renderer.  The [x]
    expression [w-mod(t*SPEED\,w+tw+100)] is kept as its one parameter,
    the scroll speed. *)
Record DrawtextOptions : Type := mkDrawtext {
  dt_text : string;
  dt_fontfile : string;
  dt_fontsize : JS.num;
  dt_fontcolor : string;
  dt_x_speed : JS.num;
  dt_y : JS.num;
  dt_box : option JS.num;
  dt_boxcolor : option string;
  dt_boxborderw : option JS.num
}.

Definition fontfile : string :=
  "/usr/share/fonts/truetype/dejavu/DejaVuSans-Bold.ttf".

(** [s.replace('0x', '#')] on a possibly undefined value: reading a
    property of [undefined] throws. *)
Definition replace_0x (s : option string) : Error + string :=
  match s with
  | Some v => inr (replace v "0x" "#")
  | None => inl (TypeError "Cannot read properties of undefined (reading 'replace')")
  end.

(** The renderer's [x] expression at time [t], for a frame of width [w]
    and a rendered text of width [tw]: [w - mod(t*speed, w+tw+100)], where
    [mod] is the remainder of the truncated division. *)
Definition fmod (a b : Q) : Q :=
  let k := a / b in
  let tr := if Qle_bool 0 k then Qfloor k else Qceiling k in
  (a - b * inject_Z tr)%Q.

Definition x_at (speed w tw t : Q) : Q :=
  (w - fmod (t * speed) (w + tw + 100))%Q.

(** The period in [t] of the [x] expression. *)
Definition scrollPeriod (speed w tw : JS.num) : JS.num :=
  ((w + tw + JS.ofZ 100) / speed)%js.

(* ================================================================== *)
(** ** Banner geometry, revision by revision

    Each module holds the synchronous part of [addScrollingBanner] between
    the probe and the renderer call, one definition per local constant of
    the source. *)

Definition or_num (a : option JS.num) (b : JS.num) : JS.num :=
  match a with
  | Some v => if JS.truthy v then v else b
  | None => b
  end.

(** [a || b] on possibly undefined strings. *)
Definition or_str (a b : option string) : option string :=
  if JS.truthy_str a then a else b.

(** [src/index.js] *)
Module V1.

Definition PLATFORM_COLORS (platform : string) : option (string * string) :=
  if String.eqb platform "YOUTUBE" then Some ("0x1a325b", "0xfeb628")
  else if String.eqb platform "TIKTOK" then Some ("0x1a325b", "0xfeb628")
  else if String.eqb platform "FACEBOOK" then Some ("0x1a325b", "0xfeb628")
  else if String.eqb platform "INSTAGRAM" then Some ("0x1a325b", "0xfeb628")
  else None.

Definition colors (platform : string) : string * string :=
  match PLATFORM_COLORS platform with
  | Some c => c
  | None => ("0x1a325b", "0xfeb628")
  end.

Definition fontSize (width height : JS.num) : JS.num :=
  JS.round (JS.min width height * JS.Fin (4 # 100))%js.

Definition bannerY (height : JS.num) : JS.num :=
  JS.round (height * JS.Fin (159 # 1000))%js.

Definition estimatedTextWidth (fontSize : JS.num) (text : string) : JS.num :=
  (fontSize * JS.ofNat (String.length text) * JS.Fin (6 # 10))%js.

Definition totalScrollDistance (estimated width : JS.num) : JS.num :=
  ((estimated + width) * JS.ofZ 3)%js.

Definition scrollSpeed (total : JS.num) (duration : option JS.num) : JS.num :=
  (total / JS.toNumber duration)%js.

Definition drawtextOptions (platform : string) (width height : JS.num)
    (text : string) (duration : option JS.num) : DrawtextOptions :=
  let c := colors platform in
  let fs := fontSize width height in
  let speed :=
    scrollSpeed (totalScrollDistance (estimatedTextWidth fs text) width) duration in
  {| dt_text := text;
     dt_fontfile := fontfile;
     dt_fontsize := fs;
     dt_fontcolor := replace (snd c) "0x" "#";
     dt_x_speed := speed;
     dt_y := bannerY height;
     dt_box := Some (JS.ofZ 1);
     dt_boxcolor := Some (replace (fst c) "0x" "#");
     dt_boxborderw := Some (JS.round (fs * JS.Fin (3 # 10))%js) |}.

End V1.

(** First revision of the unnamed source (lines 80-139). *)
Module V2.

Definition fontSize (config : BannerConfig) (width height : JS.num) : JS.num :=
  JS.round (JS.min width height * JS.toNumber (font_size_percent config))%js.

Definition bannerY (config : BannerConfig) (height : JS.num) : JS.num :=
  JS.round (height * JS.toNumber (y_percent config))%js.

Definition drawtextOptions (bannerConfig : BannerConfig) (width height : JS.num)
    (text : string) (duration : option JS.num) : Error + DrawtextOptions :=
  let config := spread DEFAULT_BANNER_CONFIG bannerConfig in
  let fs := fontSize config width height in
  let by_ := bannerY config height in
  match replace_0x (text_color config) with
  | inl e => inl e
  | inr textColor =>
    match replace_0x (bg_color config) with
    | inl e => inl e
    | inr bgColor =>
      let speed :=
        V1.scrollSpeed
          (V1.totalScrollDistance (V1.estimatedTextWidth fs text) width) duration in
      let bg := match show_background config with Some true => true | _ => false end in
      inr {| dt_text := text;
             dt_fontfile := fontfile;
             dt_fontsize := fs;
             dt_fontcolor := textColor;
             dt_x_speed := speed;
             dt_y := by_;
             dt_box := if bg then Some (JS.ofZ 1) else None;
             dt_boxcolor := if bg then Some bgColor else None;
             dt_boxborderw :=
               if bg then Some (JS.round (fs * JS.Fin (3 # 10))%js) else None |}
    end
  end.

End V2.

(** Second revision of the unnamed source (lines 383-477). *)
Module V3.

Definition inferTemplateHeight (width height : JS.num) : JS.num :=
  let aspectRatio := (width / height)%js in
  if JS.ltb aspectRatio (JS.Fin (7 # 10)) then JS.ofZ 1280
  else if JS.ltb aspectRatio (JS.Fin (9 # 10)) then JS.ofZ 1350
  else if JS.ltb aspectRatio (JS.Fin (11 # 10)) then JS.ofZ 1080
  else JS.ofZ 720.

(** The branch converting a pixel [font_size] (lines 408-411). *)
Definition fontSize_from_pixels (config : BannerConfig) (fs width height : JS.num)
    : JS.num :=
  let templateHeight :=
    or_num (template_height config) (inferTemplateHeight width height) in
  let fontSizePercent :=
    (fs / JS.min templateHeight (templateHeight * (width / height)))%js in
  JS.round (JS.min width height * fontSizePercent)%js.

Definition fontSize (config : BannerConfig) (width height : JS.num) : JS.num :=
  match font_size_percent config with
  | Some p => JS.round (JS.min width height * p)%js
  | None =>
    match font_size config with
    | Some fs => fontSize_from_pixels config fs width height
    | None =>
      JS.round (JS.min width height
                * JS.toNumber (font_size_percent DEFAULT_BANNER_CONFIG))%js
    end
  end.

Definition yPercent (config : BannerConfig) (width height : JS.num) : JS.num :=
  match y_percent config with
  | Some p => p
  | None =>
    match y config with
    | Some yv =>
      let templateHeight :=
        or_num (template_height config) (inferTemplateHeight width height) in
      (yv / templateHeight)%js
    | None => JS.toNumber (y_percent DEFAULT_BANNER_CONFIG)
    end
  end.

Definition bannerY (height yPercent fontSize : JS.num) : JS.num :=
  JS.round (height * yPercent + fontSize * JS.Fin (3 # 10))%js.

Definition textColor (config : BannerConfig) : Error + string :=
  replace_0x
    (or_str (or_str (text_color config) (fill_color config))
            (text_color DEFAULT_BANNER_CONFIG)).

Definition bgColor (config : BannerConfig) : Error + string :=
  replace_0x (bg_color config).

Definition estimatedTextWidth (fontSize : JS.num) (text : string) : JS.num :=
  (fontSize * JS.ofNat (String.length text) * JS.Fin (6 # 10))%js.

Definition totalScrollDistance (estimated width : JS.num) : JS.num :=
  ((estimated + width) * JS.ofZ 2)%js.

Definition scrollSpeed (total : JS.num) (duration : option JS.num) : JS.num :=
  (total / JS.toNumber duration)%js.

(** The options computed from an already merged configuration. *)
Definition options_of_config (config : BannerConfig) (width height : JS.num)
    (text : string) (duration : option JS.num) : Error + DrawtextOptions :=
  let fs := fontSize config width height in
  let yp := yPercent config width height in
  let by_ := bannerY height yp fs in
  match textColor config with
  | inl e => inl e
  | inr tc =>
    match bgColor config with
    | inl e => inl e
    | inr bc =>
      let speed :=
        scrollSpeed (totalScrollDistance (estimatedTextWidth fs text) width) duration in
      let bg := match show_background config with Some true => true | _ => false end in
      inr {| dt_text := text;
             dt_fontfile := fontfile;
             dt_fontsize := fs;
             dt_fontcolor := tc;
             dt_x_speed := speed;
             dt_y := by_;
             dt_box := if bg then Some (JS.ofZ 1) else None;
             dt_boxcolor := if bg then Some bc else None;
             dt_boxborderw :=
               if bg then Some (JS.round (fs * JS.Fin (3 # 10))%js) else None |}
    end
  end.

(** Line 401 followed by lines 403-457. *)
Definition drawtextOptions (bannerConfig : BannerConfig) (width height : JS.num)
    (text : string) (duration : option JS.num) : Error + DrawtextOptions :=
  options_of_config (spread DEFAULT_BANNER_CONFIG bannerConfig)
                    width height text duration.

End V3.

(* ================================================================== *)
(** ** The world: scratch files, a log of the calls made, and the
    outside services as oracles *)

Inductive Event : Type :=
| EvDownload (url path : string)
| EvGet (attempt : nat) (url : string)
| EvSleep (ms : JS.num)
| EvProbe (path : string)
| EvRender (input output : string) (options : DrawtextOptions)
| EvUpload (path : string)
| EvExists (path : string)
| EvUnlink (path : string).

Record World : Type := mkWorld {
  files : list string;
  log : list Event
}.

Definition emit (e : Event) (w : World) : World :=
  {| files := files w; log := log w ++ [e] |}.

Definition existsb_file (p : string) (w : World) : bool :=
  if in_dec string_dec p (files w) then true else false.

Definition create_file (p : string) (w : World) : World :=
  {| files := if existsb_file p w then files w else p :: files w;
     log := log w |}.

Definition remove_file (p : string) (w : World) : World :=
  {| files := List.remove string_dec p (files w); log := log w |}.

Inductive StreamOutcome : Type :=
| StreamFinish
| StreamError (e : Error) (created : bool).

Inductive AxiosOutcome : Type :=
| AxiosResponse (body : StreamOutcome)
| AxiosError (e : Error).

Record Stream : Type := mkStream {
  codec_type : string;
  s_width : JS.num;
  s_height : JS.num
}.

Record Metadata : Type := mkMetadata {
  streams : list Stream;
  format_duration : option JS.num
}.

Inductive ProbeOutcome : Type :=
| ProbeErr (e : Error)
| ProbeMeta (m : Metadata).

Inductive RenderOutcome : Type :=
| RenderEnd
| RenderError (e : Error) (partial : bool).

Inductive UploadOutcome : Type :=
| UploadOk (secure_url : string)
| UploadError (e : Error).

(** The outside services.  Each answer may depend on everything that
    happened so far. *)
Record Env : Type := mkEnv {
  axios : World -> string -> AxiosOutcome;
  ffprobe : World -> string -> ProbeOutcome;
  ffmpeg_save : World -> string -> string -> DrawtextOptions -> RenderOutcome;
  cloudinary_upload : World -> string -> UploadOutcome
}.

(** How a call ends: with a value, with a rejection or exception that a
    [try]/[catch] around it sees, or with an exception thrown inside a
    library callback, which no [catch] of the program sees. *)
Inductive Outcome (A : Type) : Type :=
| Ok (a : A)
| Throw (e : Error)
| Crash (e : Error).
Arguments Ok {A} a.
Arguments Throw {A} e.
Arguments Crash {A} e.

Definition M (A : Type) : Type := World -> Outcome A * World.

Definition ret {A} (a : A) : M A := fun w => (Ok a, w).

Definition throw {A} (e : Error) : M A := fun w => (Throw e, w).

Definition bind {A B} (m : M A) (k : A -> M B) : M B :=
  fun w =>
    match m w with
    | (Ok a, w') => k a w'
    | (Throw e, w') => (Throw e, w')
    | (Crash e, w') => (Crash e, w')
    end.

Notation "x <- c ;; k" := (bind c (fun x => k))
  (at level 61, c at next level, right associativity).
Notation "c ;;; k" := (bind c (fun _ => k))
  (at level 61, right associativity).

Definition tell (e : Event) : M unit := fun w => (Ok tt, emit e w).

(** [fs.existsSync(p)] *)
Definition existsSync (p : string) : M bool :=
  fun w => (Ok (existsb_file p w), emit (EvExists p) w).

(** [fs.unlinkSync(p)]: throws when the file is not there. *)
Definition unlinkSync (p : string) : M unit :=
  fun w =>
    if existsb_file p w
    then (Ok tt, remove_file p (emit (EvUnlink p) w))
    else (Throw (Failure "ENOENT: no such file or directory, unlink"),
          emit (EvUnlink p) w).

Definition TEMP_DIR : string := "/tmp".

(** [path.join(dir, name)] for a [name] without [.] or [..] segments. *)
Definition path_join (dir name : string) : string := dir ++ "/" ++ name.

(** [error.response?.status] *)
Definition status_of (e : Error) : option Z :=
  match e with
  | HttpError s _ => s
  | _ => None
  end.

(** [status === 404 || status >= 500] *)
Definition retryable_status (status : option Z) : bool :=
  match status with
  | Some s => orb (Z.eqb s 404) (Z.leb 500 s)
  | None => false
  end.

Record VideoInfo : Type := mkInfo {
  width : JS.num;
  height : JS.num;
  vduration : option JS.num
}.

Record BannerOptions : Type := mkOptions {
  avatarName : string;
  platform : string;
  oduration : option JS.num;
  bannerConfig : option BannerConfig
}.

Inductive Response : Type :=
| Json200 (avatar : string) (results : list (string * string))
| Json400 (error : string)
| Json500 (error details : string)
| NoResponse.

(** The [results] member of a response body, empty when there is none. *)
Definition results_of (r : Response) : list (string * string) :=
  match r with
  | Json200 _ rs => rs
  | _ => []
  end.

Record BatchRequest : Type := mkRequest {
  video_url : option string;
  avatar_name : option string;
  platforms : option (list string);
  duration : option JS.num;
  banner_config : option BannerConfig
}.

Section Service.

Variable env : Env.

(** Body of the [Promise] returned after a response arrived: the stream
    is piped into a write stream on [outputPath]. *)
Definition pipe_to_file (body : StreamOutcome) (outputPath : string) : M unit :=
  fun w =>
    match body with
    | StreamFinish => (Ok tt, create_file outputPath w)
    | StreamError e created =>
        (Throw e, if created then create_file outputPath w else w)
    end.

(** [downloadVideo] of [src/index.js]: one request, no retry. *)
Definition downloadVideo_v1 (url outputPath : string) : M unit :=
  tell (EvDownload url outputPath) ;;;
  tell (EvGet 1 url) ;;;
  fun w =>
    match axios env w url with
    | AxiosResponse body => pipe_to_file body outputPath w
    | AxiosError e => (Throw e, w)
    end.

(** The [for] loop of [downloadVideo] (both revisions of the unnamed
    source).  [remaining] counts the iterations left, that is
    [maxRetries - attempt + 1]; when it is [0] the loop condition
    [attempt <= maxRetries] is false and the function returns. *)
Fixpoint download_loop (remaining attempt maxRetries : nat)
    (initialDelay : JS.num) (url outputPath : string) : M unit :=
  match remaining with
  | O => ret tt
  | S remaining' =>
    tell (EvGet attempt url) ;;;
    fun w =>
      match axios env w url with
      | AxiosResponse body => pipe_to_file body outputPath w
      | AxiosError e =>
        if andb (retryable_status (status_of e)) (Nat.ltb attempt maxRetries)
        then
          (tell (EvSleep (initialDelay * JS.pow2 (attempt - 1))%js) ;;;
           download_loop remaining' (S attempt) maxRetries
                         initialDelay url outputPath) w
        else (Throw e, w)
      end
  end.

Definition downloadVideo (url outputPath : string) (maxRetries : nat)
    (initialDelay : JS.num) : M unit :=
  tell (EvDownload url outputPath) ;;;
  download_loop maxRetries 1 maxRetries initialDelay url outputPath.

(** [metadata.streams.find(s => s.codec_type === 'video')] *)
Definition find_video (m : Metadata) : option Stream :=
  List.find (fun s => String.eqb (codec_type s) "video") (streams m).

(** [getVideoDimensions]: the callback given to [ffprobe] rejects on an
    error; otherwise it reads [video.width], which throws inside the
    callback when [find] returned [undefined]. *)
Definition getVideoDimensions (videoPath : string) : M VideoInfo :=
  tell (EvProbe videoPath) ;;;
  fun w =>
    match ffprobe env w videoPath with
    | ProbeErr e => (Throw e, w)
    | ProbeMeta m =>
      match find_video m with
      | Some video =>
          (Ok {| width := s_width video;
                 height := s_height video;
                 vduration := format_duration m |}, w)
      | None =>
          (Crash (TypeError "Cannot read properties of undefined (reading 'width')"), w)
      end
    end.

(** The renderer call at the end of [addScrollingBanner]. *)
Definition render (inputPath outputPath : string) (o : DrawtextOptions) : M string :=
  tell (EvRender inputPath outputPath o) ;;;
  fun w =>
    match ffmpeg_save env w inputPath outputPath o with
    | RenderEnd => (Ok outputPath, create_file outputPath w)
    | RenderError e partial =>
        (Throw e, if partial then create_file outputPath w else w)
    end.

Definition config_or_empty (c : option BannerConfig) : BannerConfig :=
  match c with Some b => b | None => empty_config end.

(** [addScrollingBanner] of the second revision of the unnamed source. *)
Definition addScrollingBanner (inputPath outputPath : string)
    (options : BannerOptions) : M string :=
  let text := bannerText (avatarName options) (platform options) in
  info <- getVideoDimensions inputPath ;;
  match V3.drawtextOptions (config_or_empty (bannerConfig options))
                           (width info) (height info) text (oduration options) with
  | inl e => throw e
  | inr o => render inputPath outputPath o
  end.

Definition uploadToCloudinary (filePath : string) : M string :=
  tell (EvUpload filePath) ;;;
  fun w =>
    match cloudinary_upload env w filePath with
    | UploadOk url => (Ok url, w)
    | UploadError e => (Throw e, w)
    end.

Definition inputPath_of (jobId : string) : string :=
  path_join TEMP_DIR ("input-" ++ jobId ++ ".mp4").

Definition outputPath_of (jobId platform : string) : string :=
  path_join TEMP_DIR ("output-" ++ jobId ++ "-" ++ platform ++ ".mp4").

(** The [for (const platform of platforms)] loop of the batch handler. *)
Fixpoint process_platforms (jobId avatar : string) (videoDuration : option JS.num)
    (cfg : option BannerConfig) (todo : list string)
    (results : list (string * string)) : M (list (string * string)) :=
  match todo with
  | [] => ret results
  | p :: rest =>
    let outputPath := outputPath_of jobId p in
    addScrollingBanner (inputPath_of jobId) outputPath
      {| avatarName := avatar;
         platform := toUpperCase p;
         oduration := videoDuration;
         bannerConfig := cfg |} ;;;
    outputUrl <- uploadToCloudinary outputPath ;;
    unlinkSync outputPath ;;;
    process_platforms jobId avatar videoDuration cfg rest
                      (results ++ [(toUpperCase p, outputUrl)])
  end.

(** The [try] block of the batch handler, up to [res.json]. *)
Definition batch_try (jobId url avatar : string) (tags : list string)
    (req : BatchRequest) : M (list (string * string)) :=
  downloadVideo url (inputPath_of jobId) 5 (JS.ofZ 2000) ;;;
  info <- getVideoDimensions (inputPath_of jobId) ;;
  let videoDuration := JS.or_else (duration req) (vduration info) in
  results <- process_platforms jobId avatar videoDuration (banner_config req) tags [] ;;
  unlinkSync (inputPath_of jobId) ;;;
  ret results.

(** The [catch] block of the batch handler. *)
Definition batch_catch (jobId : string) (e : Error) : M Response :=
  there <- existsSync (inputPath_of jobId) ;;
  (if there then unlinkSync (inputPath_of jobId) else ret tt) ;;;
  ret (Json500 "Failed to process videos" (message e)).

(** [app.post('/add-banners-batch', ...)] *)
Definition add_banners_batch (jobId : string) (req : BatchRequest) (w : World)
    : Response * World :=
  match video_url req, avatar_name req, platforms req with
  | Some url, Some avatar, Some tags =>
    if andb (JS.truthy_str (Some url)) (JS.truthy_str (Some avatar)) then
      match batch_try jobId url avatar tags req w with
      | (Ok results, w1) => (Json200 avatar results, w1)
      | (Throw e, w1) =>
        match batch_catch jobId e w1 with
        | (Ok r, w2) => (r, w2)
        | (_, w2) => (NoResponse, w2)
        end
      | (Crash _, w1) => (NoResponse, w1)
      end
    else
      (Json400 "Missing required fields: video_url, avatar_name, platforms (array)", w)
  | _, _, _ =>
      (Json400 "Missing required fields: video_url, avatar_name, platforms (array)", w)
  end.

End Service.

(* ================================================================== *)
(** ** Observations on a run, used in the statements *)

(** Number of events of the log satisfying a test. *)
Definition count_events (f : Event -> bool) (w : World) : nat :=
  List.length (List.filter f (log w)).

Definition is_download (e : Event) : bool :=
  match e with EvDownload _ _ => true | _ => false end.

Definition is_get (e : Event) : bool :=
  match e with EvGet _ _ => true | _ => false end.

Definition is_probe (e : Event) : bool :=
  match e with EvProbe _ => true | _ => false end.

Definition is_sleep (e : Event) : bool :=
  match e with EvSleep _ => true | _ => false end.

Definition empty_world : World := {| files := []; log := [] |}.

(** A hexadecimal digit, in either case. *)
Definition is_hex_digit (c : ascii) : bool :=
  let n := nat_of_ascii c in
  orb (andb (Nat.leb 48 n) (Nat.leb n 57))
      (orb (andb (Nat.leb 97 n) (Nat.leb n 102))
           (andb (Nat.leb 65 n) (Nat.leb n 70))).

Fixpoint forallb_string (f : ascii -> bool) (s : string) : bool :=
  match s with
  | EmptyString => true
  | String c s' => andb (f c) (forallb_string f s')
  end.

(** The failures the retry policy is stated for: the error carries HTTP
    status 404 or a 5xx status. *)
Definition retryable_failure (e : Error) : Prop :=
  match status_of e with
  | Some s => s = 404%Z \/ (500 <= s <= 599)%Z
  | None => False
  end.

(** Every outside service answers with a success, whatever happened
    before: requests get a complete body, probes find a video stream,
    renders end, uploads return a URL. *)
Definition all_succeed (env : Env) : Prop :=
  (forall w u, axios env w u = AxiosResponse StreamFinish)
  /\ (forall w p, exists m v, ffprobe env w p = ProbeMeta m /\ find_video m = Some v)
  /\ (forall w i o opts, ffmpeg_save env w i o opts = RenderEnd)
  /\ (forall w p, exists u, cloudinary_upload env w p = UploadOk u).


(* ================================================================== *)
(** ** Concrete scenarios *)

(** A 1080x1920 source of ten seconds with an audio and a video stream. *)
Definition portrait_meta : Metadata :=
  {| streams := [ {| codec_type := "audio"; s_width := JS.NaN; s_height := JS.NaN |};
                  {| codec_type := "video";
                     s_width := JS.ofZ 1080; s_height := JS.ofZ 1920 |} ];
     format_duration := Some (JS.ofZ 10) |}.

(** A source with an audio stream only. *)
Definition audio_meta : Metadata :=
  {| streams := [ {| codec_type := "audio"; s_width := JS.NaN; s_height := JS.NaN |} ];
     format_duration := Some (JS.ofZ 10) |}.

Definition ok_env : Env :=
  {| axios := fun _ _ => AxiosResponse StreamFinish;
     ffprobe := fun _ _ => ProbeMeta portrait_meta;
     ffmpeg_save := fun _ _ _ _ => RenderEnd;
     cloudinary_upload := fun _ p => UploadOk ("https://cdn.example" ++ p) |}.

(** The renderer fails on the second tag and leaves nothing behind. *)
Definition render_fails_env : Env :=
  {| axios := fun _ _ => AxiosResponse StreamFinish;
     ffprobe := fun _ _ => ProbeMeta portrait_meta;
     ffmpeg_save := fun _ _ o _ =>
       if String.eqb o "/tmp/output-J-tiktok.mp4"
       then RenderError (Failure "ffmpeg exited with code 1") false
       else RenderEnd;
     cloudinary_upload := fun _ p => UploadOk ("https://cdn.example" ++ p) |}.

(** The upload fails on the second tag. *)
Definition upload_fails_env : Env :=
  {| axios := fun _ _ => AxiosResponse StreamFinish;
     ffprobe := fun _ _ => ProbeMeta portrait_meta;
     ffmpeg_save := fun _ _ _ _ => RenderEnd;
     cloudinary_upload := fun _ p =>
       if String.eqb p "/tmp/output-J-tiktok.mp4"
       then UploadError (Failure "upload rejected")
       else UploadOk ("https://cdn.example" ++ p) |}.

(** The downloaded file has no video stream. *)
Definition audio_only_env : Env :=
  {| axios := fun _ _ => AxiosResponse StreamFinish;
     ffprobe := fun _ _ => ProbeMeta audio_meta;
     ffmpeg_save := fun _ _ _ _ => RenderEnd;
     cloudinary_upload := fun _ p => UploadOk ("https://cdn.example" ++ p) |}.

(** The CDN answers every request with the given status. *)
Definition status_env (s : Z) : Env :=
  {| axios := fun _ _ => AxiosError (HttpError (Some s) "Request failed");
     ffprobe := fun _ _ => ProbeMeta portrait_meta;
     ffmpeg_save := fun _ _ _ _ => RenderEnd;
     cloudinary_upload := fun _ p => UploadOk ("https://cdn.example" ++ p) |}.

Definition two_tags (d : option JS.num) (c : option BannerConfig) : BatchRequest :=
  {| video_url := Some "https://v.example/a.mp4";
     avatar_name := Some "Kelly";
     platforms := Some ["youtube"; "tiktok"];
     duration := d;
     banner_config := c |}.

(** [{ font_size: 40, template_height: 1080 }] *)
Definition pixel_font_config : BannerConfig :=
  mkConfig None None None (Some (JS.ofZ 40)) (Some (JS.ofZ 1080)) None None None None.

(** [{ fill_color: '0xff0000' }] *)
Definition fill_config : BannerConfig :=
  mkConfig None None None None None None None (Some "0xff0000") None.


(** [{ template_height: 1920 }] *)
Definition template_1920_config : BannerConfig :=
  mkConfig None None None None (Some (JS.Fin 1920)) None None None None.

(** The first non-empty string among [a], [b] and [c]. *)
Definition first_truthy (a b : option string) (c : string) : string :=
  match a with
  | Some (String x s) => String x s
  | _ => match b with
         | Some (String x s) => String x s
         | _ => c
         end
  end.

(* ================================================================== *)
(** ** The single-video endpoint and further observations *)

(** Body of a [POST /add-banner] request. *)
Record SingleRequest : Type := mkSingle {
  sr_video_url : option string;
  sr_avatar_name : option string;
  sr_platform : option string;
  sr_duration : option JS.num;
  sr_banner_config : option BannerConfig
}.

Inductive SingleResponse : Type :=
| Single200 (video_url platform avatar_name : string)
| Single400 (error : string)
| Single500 (error details : string)
| SingleNoResponse.

(** [path.join(TEMP_DIR, `output-${jobId}.mp4`)] *)
Definition single_outputPath_of (jobId : string) : string :=
  path_join TEMP_DIR ("output-" ++ jobId ++ ".mp4").

(** [!x] on a possibly undefined number. *)
Definition falsy_num (x : option JS.num) : bool :=
  match x with
  | Some v => negb (JS.truthy v)
  | None => true
  end.

Section SingleEndpoint.

Variable env : Env.

(** The [try] block of the single-video handler (lines 508-549 of the
    unnamed source), up to [res.json]. *)
Definition single_try (jobId url avatar platform : string) (req : SingleRequest)
    : M string :=
  downloadVideo env url (inputPath_of jobId) 5 (JS.ofZ 2000) ;;;
  videoDuration <-
    (if falsy_num (sr_duration req)
     then info <- getVideoDimensions env (inputPath_of jobId) ;; ret (vduration info)
     else ret (sr_duration req)) ;;
  addScrollingBanner env (inputPath_of jobId) (single_outputPath_of jobId)
    {| avatarName := avatar;
       platform := toUpperCase platform;
       oduration := videoDuration;
       bannerConfig := sr_banner_config req |} ;;;
  outputUrl <- uploadToCloudinary env (single_outputPath_of jobId) ;;
  unlinkSync (inputPath_of jobId) ;;;
  unlinkSync (single_outputPath_of jobId) ;;;
  ret outputUrl.

(** The [catch] block of the single-video handler (lines 551-562). *)
Definition single_catch (jobId : string) (e : Error) : M SingleResponse :=
  thereIn <- existsSync (inputPath_of jobId) ;;
  (if thereIn then unlinkSync (inputPath_of jobId) else ret tt) ;;;
  thereOut <- existsSync (single_outputPath_of jobId) ;;
  (if thereOut then unlinkSync (single_outputPath_of jobId) else ret tt) ;;;
  ret (Single500 "Failed to process video" (message e)).

(** [app.post('/add-banner', ...)] *)
Definition add_banner (jobId : string) (req : SingleRequest) (w : World)
    : SingleResponse * World :=
  match sr_video_url req, sr_avatar_name req, sr_platform req with
  | Some url, Some avatar, Some platform =>
    if andb (JS.truthy_str (Some url))
            (andb (JS.truthy_str (Some avatar)) (JS.truthy_str (Some platform))) then
      match single_try jobId url avatar platform req w with
      | (Ok outputUrl, w1) => (Single200 outputUrl (toUpperCase platform) avatar, w1)
      | (Throw e, w1) =>
        match single_catch jobId e w1 with
        | (Ok r, w2) => (r, w2)
        | (_, w2) => (SingleNoResponse, w2)
        end
      | (Crash _, w1) => (SingleNoResponse, w1)
      end
    else
      (Single400 "Missing required fields: video_url, avatar_name, platform", w)
  | _, _, _ =>
      (Single400 "Missing required fields: video_url, avatar_name, platform", w)
  end.

End SingleEndpoint.

(** The requests and pauses of [n] attempts in a row starting with attempt
    number [k]: every attempt but the last is followed by its pause. *)
Fixpoint attempt_trace (k n : nat) (initialDelay : JS.num) (url : string)
    : list Event :=
  match n with
  | O => []
  | S n' =>
    match n' with
    | O => [EvGet k url]
    | S _ =>
      EvGet k url :: EvSleep (initialDelay * JS.pow2 (k - 1))%js
      :: attempt_trace (S k) n' initialDelay url
    end
  end.

(** Sum of the pauses of a log, in milliseconds. *)
Fixpoint total_sleep (l : list Event) : JS.num :=
  match l with
  | [] => JS.Fin 0
  | EvSleep ms :: l' => (ms + total_sleep l')%js
  | _ :: l' => total_sleep l'
  end.

Definition is_render (e : Event) : bool :=
  match e with EvRender _ _ _ => true | _ => false end.

Definition is_upload (e : Event) : bool :=
  match e with EvUpload _ => true | _ => false end.

(** Two worlds hold the same files, except possibly those satisfying [P]. *)
Definition same_files_except (P : string -> Prop) (w w' : World) : Prop :=
  forall q, ~ P q -> (In q (files w') <-> In q (files w)).

(** The scratch paths a batch job may touch. *)
Definition batch_path (jobId : string) (tags : list string) (q : string) : Prop :=
  q = inputPath_of jobId \/ exists t, In t tags /\ q = outputPath_of jobId t.

(** The scratch paths a single-video job may touch. *)
Definition single_path (jobId : string) (q : string) : Prop :=
  q = inputPath_of jobId \/ q = single_outputPath_of jobId.

(** A request configuration without the keys [y], [font_size] and
    [template_height]. *)
Definition without_pixel_keys (c : BannerConfig) : BannerConfig :=
  {| y_percent := y_percent c;
     y := None;
     font_size_percent := font_size_percent c;
     font_size := None;
     template_height := None;
     show_background := show_background c;
     text_color := text_color c;
     fill_color := fill_color c;
     bg_color := bg_color c |}.

(** [{ show_background: true }] *)
Definition background_config : BannerConfig :=
  mkConfig None None None None None (Some true) None None None.

(** The first of two probes finds a video stream, later ones do not. *)
Definition second_probe_fails_env : Env :=
  {| axios := fun _ _ => AxiosResponse StreamFinish;
     ffprobe := fun w _ =>
       if Nat.leb (count_events is_probe w) 1
       then ProbeMeta portrait_meta
       else ProbeErr (Failure "ffprobe exited with code 1");
     ffmpeg_save := fun _ _ _ _ => RenderEnd;
     cloudinary_upload := fun _ p => UploadOk ("https://cdn.example" ++ p) |}.

Definition single_request (d : option JS.num) (c : option BannerConfig) : SingleRequest :=
  {| sr_video_url := Some "https://v.example/a.mp4";
     sr_avatar_name := Some "Kelly";
     sr_platform := Some "youtube";
     sr_duration := d;
     sr_banner_config := c |}.

(** Some probe of [p] answers with metadata holding no video stream. *)
Definition no_video_probe (env : Env) (p : string) : Prop :=
  exists w0 m, ffprobe env w0 p = ProbeMeta m /\ find_video m = None.

(** Input path, output path and text of the renders of a log, in order. *)
Fixpoint renders_of (l : list Event) : list (string * string * string) :=
  match l with
  | [] => []
  | EvRender i o opts :: l' => (i, o, dt_text opts) :: renders_of l'
  | _ :: l' => renders_of l'
  end.

(** Paths of the uploads of a log, in order. *)
Fixpoint uploads_of (l : list Event) : list string :=
  match l with
  | [] => []
  | EvUpload p :: l' => p :: uploads_of l'
  | _ :: l' => uploads_of l'
  end.

(** The CDN answers 404 to the first [j] requests and serves the file
    afterwards. *)
Definition flaky_env (j : nat) : Env :=
  {| axios := fun w _ =>
       if Nat.leb (count_events is_get w) j
       then AxiosError (HttpError (Some 404%Z) "Request failed with status code 404")
       else AxiosResponse StreamFinish;
     ffprobe := fun _ _ => ProbeMeta portrait_meta;
     ffmpeg_save := fun _ _ _ _ => RenderEnd;
     cloudinary_upload := fun _ p => UploadOk ("https://cdn.example" ++ p) |}.

(* ================================================================== *)
(** ** Plain tags, render options and binary64 spot checks *)

(** A printable ASCII character other than [/]. *)
Definition plain_char (c : ascii) : bool :=
  let n := nat_of_ascii c in
  andb (andb (Nat.leb 32 n) (Nat.leb n 126)) (negb (Nat.eqb n 47)).

(** A string of printable ASCII characters without [/].  On such strings
    [String.prototype.toUpperCase] changes the letters [a..z] only, as
    [toUpperCase] above does, [length] is the number of characters, and a
    file name built from them has a single segment, so that [path.join]
    has nothing to normalise and is [path_join]. *)
Definition plain_tag (s : string) : Prop := forallb_string plain_char s = true.


(** Number of requests of a list of events. *)
Definition gets_of (l : list Event) : nat := List.length (List.filter is_get l).


(** The scroll computation of lines 438-440, the period of the [x]
    expression of line 448 and the font-size conversion of lines 406-411
    on binary64 numbers, as JavaScript evaluates them. *)
Module B64.
Set Warnings "-inexact-float".

Definition estimatedTextWidth (fontSize len : float) : float :=
  (fontSize * len * 0.6)%float.

Definition totalScrollDistance (estimated width : float) : float :=
  ((estimated + width) * 2)%float.

Definition scrollSpeed (total duration : float) : float :=
  (total / duration)%float.

Definition scrollPeriod (speed w tw : float) : float :=
  ((w + tw + 100) / speed)%float.

(** [Math.min] of two numbers. *)
Definition min (a b : float) : float :=
  if orb (PrimFloat.is_nan a) (PrimFloat.is_nan b) then PrimFloat.nan
  else if (a <? b)%float then a
  else if (b <? a)%float then b
  else if PrimFloat.get_sign a then a else b.

(** [fontSizePercent] of line 410. *)
Definition fontSizePercent (font_size templateHeight width height : float) : float :=
  (font_size / min templateHeight (templateHeight * (width / height)))%float.


Set Warnings "+inexact-float".
End B64.

(* ================================================================== *)
(** ** Properties *)

Open Scope list_scope.
Open Scope Q_scope.

(* ------------------------------------------------------------------ *)
(** *** Arithmetic of the number model *)

Lemma sgn_pos q : 0 < q -> JS.sgn q = Lt.
Proof. intro H. unfold JS.sgn. now apply Qlt_alt. Qed.

Lemma sgn_neg q : q < 0 -> JS.sgn q = Gt.
Proof. intro H. unfold JS.sgn. now apply Qgt_alt. Qed.

Lemma sgn_zero q : q == 0 -> JS.sgn q = Eq.
Proof. intro H. unfold JS.sgn. apply Qeq_alt. now symmetry. Qed.

Lemma truthy_pos q : 0 < q -> JS.truthy (JS.Fin q) = true.
Proof.
  intro H. unfold JS.truthy. destruct (Qeq_bool q 0) eqn:E; [|reflexivity].
  apply Qeq_bool_iff in E. lra.
Qed.

Lemma ltb_fin_true x y : JS.ltb (JS.Fin x) (JS.Fin y) = true <-> x < y.
Proof.
  unfold JS.ltb. rewrite Qlt_alt. destruct (x ?= y); split; congruence.
Qed.

Lemma ltb_fin_false x y : JS.ltb (JS.Fin x) (JS.Fin y) = false <-> y <= x.
Proof.
  rewrite Qle_alt, <- Qcompare_antisym. unfold JS.ltb.
  destruct (x ?= y); simpl; split; congruence.
Qed.

Lemma round_eqv x y : JS.eqv x y -> JS.round x = JS.round y.
Proof.
  destruct x as [p| | |], y as [q| | |]; cbn [JS.eqv JS.round]; try tauto.
  intro H. do 2 f_equal. apply Qfloor_comp. now rewrite H.
Qed.

Lemma merged_text_color bc :
  exists tc, V3.textColor (spread DEFAULT_BANNER_CONFIG bc) = inr tc.
Proof.
  unfold V3.textColor, or_str.
  destruct (JS.truthy_str
              (if JS.truthy_str (text_color (spread DEFAULT_BANNER_CONFIG bc))
               then text_color (spread DEFAULT_BANNER_CONFIG bc)
               else fill_color (spread DEFAULT_BANNER_CONFIG bc))) eqn:E.
  - destruct (if JS.truthy_str (text_color (spread DEFAULT_BANNER_CONFIG bc))
              then text_color (spread DEFAULT_BANNER_CONFIG bc)
              else fill_color (spread DEFAULT_BANNER_CONFIG bc)) as [s|].
    + eexists; reflexivity.
    + discriminate.
  - eexists; reflexivity.
Qed.

Lemma merged_bg_color bc :
  exists c, V3.bgColor (spread DEFAULT_BANNER_CONFIG bc) = inr c.
Proof.
  unfold V3.bgColor. cbn. destruct (bg_color bc); eexists; reflexivity.
Qed.

Lemma drawtextOptions_total bc w h text d :
  exists o, V3.drawtextOptions bc w h text d = inr o
    /\ dt_fontsize o = V3.fontSize (spread DEFAULT_BANNER_CONFIG bc) w h
    /\ dt_x_speed o =
       V3.scrollSpeed
         (V3.totalScrollDistance
            (V3.estimatedTextWidth (V3.fontSize (spread DEFAULT_BANNER_CONFIG bc) w h) text)
            w) d
    /\ dt_y o = V3.bannerY h (V3.yPercent (spread DEFAULT_BANNER_CONFIG bc) w h)
                          (V3.fontSize (spread DEFAULT_BANNER_CONFIG bc) w h).
Proof.
  unfold V3.drawtextOptions, V3.options_of_config.
  destruct (merged_text_color bc) as [tc ->].
  destruct (merged_bg_color bc) as [c ->].
  eexists. split; [reflexivity|]. cbn. auto.
Qed.

Lemma merged_font_size bc w h :
  V3.fontSize (spread DEFAULT_BANNER_CONFIG bc) w h
  = JS.round (JS.min w h
              * match font_size_percent bc with
                | Some p => p
                | None => JS.Fin (4 # 100)
                end)%js.
Proof.
  unfold V3.fontSize. cbn. destruct (font_size_percent bc); reflexivity.
Qed.

(* ------------------------------------------------------------------ *)
(** *** The period of the horizontal position *)

Lemma Qfloor_unique x z :
  inject_Z z <= x -> x < inject_Z (z + 1) -> Qfloor x = z.
Proof.
  intros Hlo Hhi. apply Z.le_antisymm.
  - destruct (Z.lt_ge_cases z (Qfloor x)) as [Hlt|Hge]; [|lia].
    exfalso. assert (Hz : (z + 1 <= Qfloor x)%Z) by lia.
    rewrite Zle_Qle in Hz. pose proof (Qfloor_le x). lra.
  - rewrite <- (Qfloor_Z z). now apply Qfloor_resp_le.
Qed.

Lemma Qfloor_succ x : Qfloor (x + 1) = (Qfloor x + 1)%Z.
Proof.
  apply Qfloor_unique.
  - rewrite inject_Z_plus. pose proof (Qfloor_le x).
    assert (inject_Z 1 == 1) by reflexivity. lra.
  - rewrite !inject_Z_plus. pose proof (Qlt_floor x) as H.
    rewrite inject_Z_plus in H. assert (inject_Z 1 == 1) by reflexivity. lra.
Qed.

Lemma fmod_nonneg a b :
  0 <= a -> 0 < b -> fmod a b == a - b * inject_Z (Qfloor (a / b)).
Proof.
  intros Ha Hb. unfold fmod.
  assert (Hk : 0 <= a / b) by (apply Qle_shift_div_l; lra).
  apply Qle_bool_iff in Hk. rewrite Hk. reflexivity.
Qed.

(** The [x] expression takes the same value again after
    [(w + tw + 100) / speed] seconds. *)
Lemma x_at_periodic speed w tw t :
  0 < speed -> 0 < w -> 0 <= tw -> 0 <= t ->
  x_at speed w tw (t + (w + tw + 100) / speed) == x_at speed w tw t.
Proof.
  intros Hs Hw Htw Ht. unfold x_at.
  assert (HW : 0 < w + tw + 100) by lra.
  assert (Ha : 0 <= t * speed) by (apply Qmult_le_0_compat; lra).
  assert (Hstep : (t + (w + tw + 100) / speed) * speed == t * speed + (w + tw + 100))
    by (field; lra).
  assert (Ha' : 0 <= (t + (w + tw + 100) / speed) * speed) by lra.
  rewrite (fmod_nonneg _ _ Ha HW), (fmod_nonneg _ _ Ha' HW).
  assert (Hq : (t + (w + tw + 100) / speed) * speed / (w + tw + 100)
               == t * speed / (w + tw + 100) + 1) by (field; lra).
  rewrite (Qfloor_comp _ _ Hq), Qfloor_succ, inject_Z_plus.
  assert (inject_Z 1 == 1) by reflexivity.
  rewrite Hstep. rewrite H. ring.
Qed.

(* ------------------------------------------------------------------ *)
(** *** Color normalisation *)

Lemma replace_0x_prefixed s :
  replace ("0x" ++ s)%string "0x" "#" = ("#" ++ s)%string.
Proof. destruct s; reflexivity. Qed.

Lemma replace_without_x s :
  mem_ascii "x" s = false -> replace s "0x" "#" = s.
Proof.
  induction s as [|c s IH]; intro H; [reflexivity|].
  cbn [mem_ascii] in H.
  destruct (Ascii.eqb "x" c) eqn:Ec; [discriminate|].
  cbn [replace String.prefix].
  destruct (ascii_dec "0" c) as [<-|Hc].
  - destruct s as [|c' s']; [reflexivity|].
    cbn [String.prefix]. cbn [mem_ascii] in H.
    destruct (ascii_dec "x" c') as [<-|Hc'].
    + rewrite Ascii.eqb_refl in H. discriminate.
    + f_equal. apply IH. exact H.
  - f_equal. apply IH. exact H.
Qed.

Lemma is_hex_not_x s : forallb_string is_hex_digit s = true -> mem_ascii "x" s = false.
Proof.
  induction s as [|c s IH]; [reflexivity|].
  cbn [forallb_string mem_ascii]. intro H.
  apply andb_true_iff in H as [Hc Hs].
  destruct (Ascii.eqb "x" c) eqn:E.
  - apply Ascii.eqb_eq in E. subst c. discriminate.
  - auto.
Qed.

Lemma replace_hash_hex s :
  forallb_string is_hex_digit s = true ->
  replace ("#" ++ s)%string "0x" "#" = ("#" ++ s)%string.
Proof.
  intro H. apply replace_without_x. cbn. now apply is_hex_not_x.
Qed.

(* ------------------------------------------------------------------ *)
(** *** The world and its log *)

Lemma count_emit f e w :
  count_events f (emit e w) = (count_events f w + if f e then 1 else 0)%nat.
Proof.
  unfold count_events, emit. cbn [log].
  rewrite filter_app, length_app. cbn [filter].
  destruct (f e); reflexivity.
Qed.

Lemma count_create f p w : count_events f (create_file p w) = count_events f w.
Proof. reflexivity. Qed.

Lemma count_remove f p w : count_events f (remove_file p w) = count_events f w.
Proof. reflexivity. Qed.

Lemma existsb_file_emit p e w : existsb_file p (emit e w) = existsb_file p w.
Proof. reflexivity. Qed.

Lemma existsb_file_true p w : existsb_file p w = true <-> In p (files w).
Proof.
  unfold existsb_file. destruct (in_dec string_dec p (files w)); split; intros; auto; discriminate.
Qed.

Lemma in_create_file p w : In p (files (create_file p w)).
Proof.
  unfold create_file. cbn [files].
  destruct (existsb_file p w) eqn:E; [now apply existsb_file_true | now left].
Qed.

Lemma in_create_other p q w : In q (files w) -> In q (files (create_file p w)).
Proof.
  unfold create_file. cbn [files]. destruct (existsb_file p w); [auto | now right].
Qed.

(* ------------------------------------------------------------------ *)
(** *** Retry policy of [downloadVideo] *)

Lemma retryable_status_spec e :
  (forall s, status_of e = Some s -> (100 <= s <= 599)%Z) ->
  retryable_status (status_of e) = true <-> retryable_failure e.
Proof.
  intro Hrange. unfold retryable_failure, retryable_status.
  destruct (status_of e) as [s|]; [|split; [discriminate | tauto]].
  specialize (Hrange s eq_refl).
  rewrite orb_true_iff, Z.eqb_eq, Z.leb_le. lia.
Qed.

Lemma download_loop_retry env r k maxRetries d url out w e :
  axios env (emit (EvGet k url) w) url = AxiosError e ->
  retryable_status (status_of e) = true -> (k < maxRetries)%nat ->
  download_loop env (S r) k maxRetries d url out w
  = download_loop env r (S k) maxRetries d url out
      (emit (EvSleep (d * JS.pow2 (k - 1))%js) (emit (EvGet k url) w)).
Proof.
  intros Hax Hst Hk. cbn [download_loop]. unfold bind at 1, tell at 1.
  rewrite Hax, Hst. apply Nat.ltb_lt in Hk. rewrite Hk. reflexivity.
Qed.

Lemma download_loop_fatal env r k maxRetries d url out w e :
  axios env (emit (EvGet k url) w) url = AxiosError e ->
  retryable_status (status_of e) = false \/ (maxRetries <= k)%nat ->
  download_loop env (S r) k maxRetries d url out w
  = (Throw e, emit (EvGet k url) w).
Proof.
  intros Hax H. cbn [download_loop]. unfold bind at 1, tell at 1.
  rewrite Hax. destruct H as [-> | Hk]; [reflexivity|].
  apply Nat.ltb_ge in Hk. rewrite Hk, andb_false_r. reflexivity.
Qed.

(** A response whose body cannot be written is not retried either: the
    promise is returned, not awaited, inside the [try] block. *)
Lemma download_loop_stream_error env r k maxRetries d url out w e created :
  axios env (emit (EvGet k url) w) url = AxiosResponse (StreamError e created) ->
  fst (download_loop env (S r) k maxRetries d url out w) = Throw e.
Proof.
  intro Hax. cbn [download_loop]. unfold bind at 1, tell at 1.
  rewrite Hax. reflexivity.
Qed.

Lemma download_loop_first_event env r k maxRetries d url out w res w' :
  download_loop env (S r) k maxRetries d url out w = (res, w') ->
  exists l, log w' = log w ++ EvGet k url :: l.
Proof.
  revert k w res w'. induction r as [|r IH]; intros k w res w' H.
  - cbn [download_loop] in H. unfold bind at 1, tell at 1 in H.
    destruct (axios env (emit (EvGet k url) w) url) as [body|e].
    + destruct body; cbn in H; inversion H; subst; clear H.
      * exists []. reflexivity.
      * exists []. destruct created; reflexivity.
    + destruct (retryable_status (status_of e) && (k <? maxRetries)%nat).
      * cbn in H. inversion H; subst. eexists. cbn. rewrite <- app_assoc. reflexivity.
      * inversion H; subst. exists []. reflexivity.
  - remember (S r) as r1. cbn [download_loop] in H. unfold bind at 1, tell at 1 in H.
    destruct (axios env (emit (EvGet k url) w) url) as [body|e].
    + destruct body; cbn in H; inversion H; subst; clear H.
      * exists []. reflexivity.
      * exists []. destruct created; reflexivity.
    + destruct (retryable_status (status_of e) && (k <? maxRetries)%nat).
      * unfold bind at 1, tell at 1 in H. subst r1.
        apply IH in H. destruct H as [l Hl]. rewrite Hl. cbn [emit log].
        eexists. rewrite <- !app_assoc. reflexivity.
      * inversion H; subst. exists []. reflexivity.
Qed.

(** When every request to [url] fails with a retryable status, attempts
    [k], [k+1], ..., [maxRetries] are all made and the error of the last
    one is thrown. *)
Lemma download_loop_exhausts env maxRetries d url out :
  (forall w0, exists e, axios env w0 url = AxiosError e
                        /\ retryable_status (status_of e) = true) ->
  forall r k w, (k + r = maxRetries)%nat ->
  exists e w',
    download_loop env (S r) k maxRetries d url out w = (Throw e, w')
    /\ axios env w' url = AxiosError e
    /\ count_events is_get w' = (count_events is_get w + S r)%nat
    /\ count_events is_sleep w' = (count_events is_sleep w + r)%nat.
Proof.
  intros Hfail. induction r as [|r IH]; intros k w Hk.
  - destruct (Hfail (emit (EvGet k url) w)) as (e & Hax & Hst).
    exists e, (emit (EvGet k url) w).
    rewrite (download_loop_fatal env 0 k maxRetries d url out w e Hax) by (right; lia).
    rewrite !count_emit. cbn. repeat split; auto; lia.
  - destruct (Hfail (emit (EvGet k url) w)) as (e & Hax & Hst).
    rewrite (download_loop_retry env (S r) k maxRetries d url out w e Hax Hst) by lia.
    destruct (IH (S k) (emit (EvSleep (d * JS.pow2 (k - 1))%js) (emit (EvGet k url) w)))
      as (e' & w' & Hrun & Hlast & Hg & Hs); [lia|].
    exists e', w'. rewrite Hrun, Hg, Hs, !count_emit. cbn. repeat split; auto; lia.
Qed.

Lemma downloadVideo_v1_is_single_attempt env url out d w :
  downloadVideo_v1 env url out w = downloadVideo env url out 1 d w.
Proof.
  unfold downloadVideo_v1, downloadVideo. cbn [download_loop].
  unfold bind, tell.
  destruct (axios env (emit (EvGet 1 url) (emit (EvDownload url out) w)) url) as [body|e];
    [reflexivity|].
  rewrite andb_false_r. reflexivity.
Qed.

(** C6. A failed attempt [k] of [downloadVideo] is followed by a pause of
    [initialDelay * 2^(k-1)] ms and attempt [k+1] exactly when its error
    carries HTTP status 404 or a 5xx status and [k < maxRetries]; any
    other failure (no status, or another status) is thrown at once, with
    no further request.  When every attempt fails with a retryable status,
    [maxRetries] requests and [maxRetries - 1] pauses are made and the
    error of the last attempt is thrown.  The download of [src/index.js]
    is the one-attempt case. *)
Theorem downloadVideo_retry_policy env maxRetries d url out :
  (forall k w e,
      (1 <= k <= maxRetries)%nat ->
      axios env (emit (EvGet k url) w) url = AxiosError e ->
      (forall s, status_of e = Some s -> (100 <= s <= 599)%Z) ->
      (retryable_failure e /\ (k < maxRetries)%nat ->
       exists res w',
         download_loop env (maxRetries + 1 - k) k maxRetries d url out w = (res, w')
         /\ exists l, log w' = log w ++ EvGet k url
                                 :: EvSleep (d * JS.pow2 (k - 1))%js
                                 :: EvGet (S k) url :: l)
      /\ (~ (retryable_failure e /\ (k < maxRetries)%nat) ->
          download_loop env (maxRetries + 1 - k) k maxRetries d url out w
          = (Throw e, emit (EvGet k url) w)))
  /\ (forall w,
        (1 <= maxRetries)%nat ->
        (forall w0, exists e, axios env w0 url = AxiosError e
                              /\ retryable_status (status_of e) = true) ->
        exists e w',
          downloadVideo env url out maxRetries d w = (Throw e, w')
          /\ axios env w' url = AxiosError e
          /\ count_events is_get w' = (count_events is_get w + maxRetries)%nat
          /\ count_events is_sleep w' = (count_events is_sleep w + (maxRetries - 1))%nat)
  /\ (forall w, downloadVideo_v1 env url out w = downloadVideo env url out 1 d w).
Proof.
  split; [|split].
  - intros k w e Hk Hax Hrange.
    pose proof (retryable_status_spec e Hrange) as Hspec.
    replace (maxRetries + 1 - k)%nat with (S (maxRetries - k)) by lia.
    split.
    + intros [Hre Hlt]. apply Hspec in Hre.
      rewrite (download_loop_retry env _ k maxRetries d url out w e Hax Hre Hlt).
      replace (maxRetries - k)%nat with (S (maxRetries - S k)) by lia.
      destruct (download_loop env (S (maxRetries - S k)) (S k) maxRetries d url out
                  (emit (EvSleep (d * JS.pow2 (k - 1))%js) (emit (EvGet k url) w)))
        as [res w'] eqn:Hrun.
      exists res, w'. split; [reflexivity|].
      apply download_loop_first_event in Hrun. destruct Hrun as [l Hl].
      exists l. rewrite Hl. cbn [emit log]. rewrite <- !app_assoc. reflexivity.
    + intro Hno. apply download_loop_fatal; [exact Hax|].
      destruct (retryable_status (status_of e)) eqn:Hst; [|now left].
      right. assert (Hre : retryable_failure e) by (apply Hspec; reflexivity).
      destruct (Nat.lt_ge_cases k maxRetries); [tauto | assumption].
  - intros w Hmax Hfail. unfold downloadVideo, bind at 1, tell at 1.
    destruct maxRetries as [|n]; [lia|].
    destruct (download_loop_exhausts env (S n) d url out Hfail n 1
                (emit (EvDownload url out) w)) as (e & w' & Hrun & Hlast & Hg & Hs); [lia|].
    exists e, w'. rewrite Hrun. rewrite Hg, Hs, !count_emit. cbn.
    repeat split; auto; lia.
  - intro w. apply downloadVideo_v1_is_single_attempt.
Qed.

(* ------------------------------------------------------------------ *)
(** *** Effects of the single operations *)

Lemma getVideoDimensions_world env p w res w' :
  getVideoDimensions env p w = (res, w') -> w' = emit (EvProbe p) w.
Proof.
  unfold getVideoDimensions, bind, tell. intro H.
  destruct (ffprobe env (emit (EvProbe p) w) p) as [e|m]; [now inversion H|].
  destruct (find_video m); now inversion H.
Qed.

Lemma uploadToCloudinary_world env p w res w' :
  uploadToCloudinary env p w = (res, w') -> w' = emit (EvUpload p) w.
Proof.
  unfold uploadToCloudinary, bind, tell. intro H.
  destruct (cloudinary_upload env (emit (EvUpload p) w) p); now inversion H.
Qed.

Lemma unlinkSync_ok p w w' :
  unlinkSync p w = (Ok tt, w') ->
  In p (files w) /\ w' = remove_file p (emit (EvUnlink p) w).
Proof.
  unfold unlinkSync. destruct (existsb_file p w) eqn:E; intro H; inversion H.
  split; [now apply existsb_file_true | reflexivity].
Qed.

Lemma unlinkSync_throw p w e w' :
  unlinkSync p w = (Throw e, w') -> w' = emit (EvUnlink p) w.
Proof.
  unfold unlinkSync. destruct (existsb_file p w); intro H; now inversion H.
Qed.

Lemma unlinkSync_not_crash p w e w' : unlinkSync p w <> (Crash e, w').
Proof. unfold unlinkSync. destruct (existsb_file p w); discriminate. Qed.

Lemma unlinkSync_present p w :
  In p (files w) -> unlinkSync p w = (Ok tt, remove_file p (emit (EvUnlink p) w)).
Proof.
  intro H. unfold unlinkSync. apply existsb_file_true in H. now rewrite H.
Qed.

Lemma download_loop_counts env maxRetries d url out r :
  forall k w res w',
  download_loop env r k maxRetries d url out w = (res, w') ->
  count_events is_download w' = count_events is_download w
  /\ count_events is_probe w' = count_events is_probe w.
Proof.
  induction r as [|r IH]; intros k w res w' H.
  - inversion H; subst. auto.
  - cbn [download_loop] in H. unfold bind at 1, tell at 1 in H.
    destruct (axios env (emit (EvGet k url) w) url) as [body|e].
    + destruct body as [|e created]; cbn in H; inversion H; subst; clear H.
      * rewrite !count_create, !count_emit. cbn. lia.
      * destruct created; rewrite ?count_create, !count_emit; cbn; lia.
    + destruct (retryable_status (status_of e) && (k <? maxRetries)%nat).
      * unfold bind at 1, tell at 1 in H. apply IH in H.
        rewrite !count_emit in H. cbn in H. lia.
      * inversion H; subst. rewrite !count_emit. cbn. lia.
Qed.

Lemma download_loop_throw_tail env maxRetries d url out r :
  forall k w e w',
  download_loop env r k maxRetries d url out w = (Throw e, w') ->
  exists l j, log w' = l ++ [EvGet j url].
Proof.
  induction r as [|r IH]; intros k w e0 w' H.
  - inversion H.
  - cbn [download_loop] in H. unfold bind at 1, tell at 1 in H.
    destruct (axios env (emit (EvGet k url) w) url) as [body|e].
    + destruct body as [|e created]; cbn in H; inversion H; subst; clear H.
      destruct created; exists (log w), k; reflexivity.
    + destruct (retryable_status (status_of e) && (k <? maxRetries)%nat).
      * unfold bind at 1, tell at 1 in H. now apply IH in H.
      * inversion H; subst. exists (log w), k. reflexivity.
Qed.

Lemma download_loop_not_crash env maxRetries d url out r :
  forall k w e w', download_loop env r k maxRetries d url out w <> (Crash e, w').
Proof.
  induction r as [|r IH]; intros k w e0 w' H.
  - inversion H.
  - cbn [download_loop] in H. unfold bind at 1, tell at 1 in H.
    destruct (axios env (emit (EvGet k url) w) url) as [body|e].
    + destruct body as [|e created]; cbn in H; inversion H.
    + destruct (retryable_status (status_of e) && (k <? maxRetries)%nat).
      * unfold bind at 1, tell at 1 in H. now apply IH in H.
      * inversion H.
Qed.

Lemma downloadVideo_counts env url out n d w res w' :
  downloadVideo env url out n d w = (res, w') ->
  count_events is_download w' = S (count_events is_download w)
  /\ count_events is_probe w' = count_events is_probe w.
Proof.
  unfold downloadVideo, bind at 1, tell at 1. intro H.
  apply download_loop_counts in H. rewrite !count_emit in H. cbn in H. lia.
Qed.

(** What one call of [addScrollingBanner] does to the world. *)
Lemma addScrollingBanner_effect env i o opts w res w' :
  addScrollingBanner env i o opts w = (res, w') ->
  count_events is_download w' = count_events is_download w
  /\ count_events is_probe w' = S (count_events is_probe w)
  /\ (forall q, In q (files w) -> In q (files w'))
  /\ (forall out, res = Ok out -> In o (files w'))
  /\ (forall l p, log w' <> l ++ [EvUpload p]).
Proof.
  unfold addScrollingBanner, bind at 1. intro H.
  destruct (getVideoDimensions env i w) as [[info|e|e] w1] eqn:Hp;
    pose proof (getVideoDimensions_world _ _ _ _ _ Hp) as ->.
  - destruct (V3.drawtextOptions (config_or_empty (bannerConfig opts)) (width info)
                (height info) (bannerText (avatarName opts) (platform opts))
                (oduration opts)) as [e|dt].
    + inversion H; subst. rewrite !count_emit. cbn.
      repeat split; auto; try lia; try discriminate.
      intros l p E. apply app_inj_tail in E. destruct E; discriminate.
    + unfold render, bind, tell in H.
      destruct (ffmpeg_save env (emit (EvRender i o dt) (emit (EvProbe i) w)) i o dt)
        as [|e partial]; inversion H; subst; clear H.
      * rewrite !count_create, !count_emit. cbn [is_download is_probe]. repeat split; try lia.
        -- intros q Hq. apply in_create_other. exact Hq.
        -- intros _ _. apply in_create_file.
        -- intros l p E. apply app_inj_tail in E. destruct E; discriminate.
      * assert (Hlog : log (if partial
                            then create_file o (emit (EvRender i o dt) (emit (EvProbe i) w))
                            else emit (EvRender i o dt) (emit (EvProbe i) w))
                       = (log w ++ [EvProbe i]) ++ [EvRender i o dt])
          by (destruct partial; reflexivity).
        repeat split.
        -- destruct partial; rewrite ?count_create, !count_emit; cbn; lia.
        -- destruct partial; rewrite ?count_create, !count_emit; cbn; lia.
        -- intros q Hq. destruct partial; [apply in_create_other|]; exact Hq.
        -- discriminate.
        -- intros l p E. rewrite Hlog in E. apply app_inj_tail in E.
           destruct E; discriminate.
  - inversion H; subst. rewrite !count_emit. cbn.
    repeat split; auto; try lia; try discriminate.
    intros l p E. apply app_inj_tail in E. destruct E; discriminate.
  - inversion H; subst. rewrite !count_emit. cbn.
    repeat split; auto; try lia; try discriminate.
    intros l p E. apply app_inj_tail in E. destruct E; discriminate.
Qed.

Lemma output_is_not_input jobId p : outputPath_of jobId p <> inputPath_of jobId.
Proof. unfold outputPath_of, inputPath_of, path_join, TEMP_DIR. cbn. discriminate. Qed.

(* ------------------------------------------------------------------ *)
(** *** The per-platform loop *)

Lemma process_platforms_ok env jobId avatar dur cfg todo :
  forall acc w rs w',
  process_platforms env jobId avatar dur cfg todo acc w = (Ok rs, w') ->
  count_events is_download w' = count_events is_download w
  /\ count_events is_probe w' = (count_events is_probe w + List.length todo)%nat
  /\ map fst rs = map fst acc ++ map toUpperCase todo.
Proof.
  induction todo as [|p rest IH]; intros acc w rs w' H.
  - inversion H; subst. cbn. rewrite app_nil_r. repeat split; lia.
  - cbn [process_platforms] in H. unfold bind at 1 in H.
    destruct (addScrollingBanner env (inputPath_of jobId) (outputPath_of jobId p)
                {| avatarName := avatar; platform := toUpperCase p;
                   oduration := dur; bannerConfig := cfg |} w)
      as [[out|e|e] w1] eqn:Ha; try discriminate.
    apply addScrollingBanner_effect in Ha. destruct Ha as (Hd & Hp & _).
    unfold bind at 1 in H.
    destruct (uploadToCloudinary env (outputPath_of jobId p) w1)
      as [[u|e|e] w2] eqn:Hu; try discriminate.
    apply uploadToCloudinary_world in Hu. subst w2.
    unfold bind at 1 in H.
    destruct (unlinkSync (outputPath_of jobId p) (emit (EvUpload (outputPath_of jobId p)) w1))
      as [[[]|e|e] w3] eqn:Hx; try discriminate.
    apply unlinkSync_ok in Hx. destruct Hx as [_ ->].
    apply IH in H. destruct H as (Hd' & Hp' & Hrs).
    rewrite count_remove, !count_emit in Hd', Hp'.
    cbn [is_download is_probe] in Hd', Hp'. cbn [List.length].
    repeat split; try lia.
    rewrite Hrs, map_app. cbn. rewrite <- app_assoc. reflexivity.
Qed.

(** A failure of the loop right after an upload request leaves the file
    being uploaded on disk; that file is an output scratch file. *)
Lemma process_platforms_upload_failure env jobId avatar dur cfg todo :
  forall acc w e w1 l p,
  process_platforms env jobId avatar dur cfg todo acc w = (Throw e, w1) ->
  log w1 = l ++ [EvUpload p] ->
  In p (files w1) /\ exists t, In t todo /\ p = outputPath_of jobId t.
Proof.
  induction todo as [|t rest IH]; intros acc w e w1 l p H Hlog.
  - inversion H.
  - cbn [process_platforms] in H. unfold bind at 1 in H.
    destruct (addScrollingBanner env (inputPath_of jobId) (outputPath_of jobId t)
                {| avatarName := avatar; platform := toUpperCase t;
                   oduration := dur; bannerConfig := cfg |} w)
      as [[out|e0|e0] w2] eqn:Ha; try discriminate.
    + apply addScrollingBanner_effect in Ha. destruct Ha as (_ & _ & _ & Hout & _).
      specialize (Hout out eq_refl).
      unfold bind at 1 in H.
      destruct (uploadToCloudinary env (outputPath_of jobId t) w2)
        as [[u|e1|e1] w3] eqn:Hu; try discriminate;
        apply uploadToCloudinary_world in Hu; subst w3.
      * unfold bind at 1 in H.
        destruct (unlinkSync (outputPath_of jobId t)
                    (emit (EvUpload (outputPath_of jobId t)) w2))
          as [[[]|e1|e1] w4] eqn:Hx; try discriminate.
        -- destruct (IH _ _ _ _ _ _ H Hlog) as (Hin & t' & Ht' & Hp).
           split; [exact Hin|]. exists t'. split; [now right | exact Hp].
        -- inversion H; subst. apply unlinkSync_throw in Hx. subst w1.
           cbn [emit log] in Hlog. apply app_inj_tail in Hlog.
           destruct Hlog; discriminate.
      * inversion H; subst. cbn [emit log] in Hlog. apply app_inj_tail in Hlog.
        destruct Hlog as [_ Hev]. inversion Hev; subst.
        split; [exact Hout|]. exists t. split; [now left | reflexivity].
    + inversion H; subst.
      apply addScrollingBanner_effect in Ha. destruct Ha as (_ & _ & _ & _ & Hno).
      exfalso. exact (Hno _ _ Hlog).
Qed.

Lemma drawtextOptions_never_throws bc w h text d :
  exists o, V3.drawtextOptions bc w h text d = inr o.
Proof.
  destruct (drawtextOptions_total bc w h text d) as (o & Ho & _). now exists o.
Qed.

Lemma process_platforms_all_succeed env jobId avatar dur cfg todo :
  all_succeed env ->
  forall acc w,
  In (inputPath_of jobId) (files w) ->
  exists rs w',
    process_platforms env jobId avatar dur cfg todo acc w = (Ok rs, w')
    /\ In (inputPath_of jobId) (files w').
Proof.
  intros (Hax & Hpr & Hff & Hup).
  induction todo as [|t rest IH]; intros acc w Hin.
  - exists acc, w. split; [reflexivity | exact Hin].
  - cbn [process_platforms].
    unfold bind at 1, addScrollingBanner, bind at 1, getVideoDimensions, bind at 1, tell at 1.
    destruct (Hpr (emit (EvProbe (inputPath_of jobId)) w) (inputPath_of jobId))
      as (m & v & -> & ->).
    cbn [width height].
    destruct (drawtextOptions_never_throws (config_or_empty cfg) (s_width v) (s_height v)
                (bannerText avatar (toUpperCase t)) dur) as [o Ho].
    cbn [avatarName platform oduration bannerConfig]. rewrite Ho.
    unfold render, bind at 1, tell at 1. rewrite Hff.
    unfold bind at 1, uploadToCloudinary, bind at 1, tell at 1.
    match goal with
    | |- context [cloudinary_upload env ?w0 ?p] => destruct (Hup w0 p) as [u ->]
    end.
    unfold bind at 1.
    rewrite unlinkSync_present by (rewrite existsb_file_emit || idtac; apply in_create_file).
    apply IH.
    unfold remove_file. cbn [files emit].
    apply in_in_remove; [apply not_eq_sym, output_is_not_input|].
    apply in_create_other. exact Hin.
Qed.

(* ------------------------------------------------------------------ *)
(** *** The batch handler *)

Lemma truthy_str_nonempty s : s <> ""%string -> JS.truthy_str (Some s) = true.
Proof. destruct s; [congruence | reflexivity]. Qed.

Lemma add_banners_batch_valid env jobId req url avatar tags w :
  video_url req = Some url -> url <> ""%string ->
  avatar_name req = Some avatar -> avatar <> ""%string ->
  platforms req = Some tags ->
  add_banners_batch env jobId req w
  = match batch_try env jobId url avatar tags req w with
    | (Ok results, w1) => (Json200 avatar results, w1)
    | (Throw e, w1) =>
        match batch_catch jobId e w1 with
        | (Ok r, w2) => (r, w2)
        | (_, w2) => (NoResponse, w2)
        end
    | (Crash _, w1) => (NoResponse, w1)
    end.
Proof.
  intros Hu Hu' Ha Ha' Hp. unfold add_banners_batch.
  rewrite Hu, Ha, Hp, (truthy_str_nonempty _ Hu'), (truthy_str_nonempty _ Ha').
  reflexivity.
Qed.

Lemma batch_catch_effect jobId e w1 :
  exists w2,
    batch_catch jobId e w1
    = (Ok (Json500 "Failed to process videos" (message e)), w2)
    /\ files w2 = List.remove string_dec (inputPath_of jobId) (files w1)
    /\ log w2 = log w1 ++ EvExists (inputPath_of jobId)
                  :: (if existsb_file (inputPath_of jobId) w1
                      then [EvUnlink (inputPath_of jobId)] else []).
Proof.
  unfold batch_catch, bind, existsSync, ret.
  destruct (existsb_file (inputPath_of jobId) w1) eqn:E.
  - unfold unlinkSync. rewrite existsb_file_emit, E. eexists. split; [reflexivity|].
    cbn [remove_file emit files log]. rewrite <- app_assoc. split; reflexivity.
  - eexists. split; [reflexivity|]. cbn [emit files log]. split; [|reflexivity].
    symmetry. apply notin_remove. intro Hin.
    apply existsb_file_true in Hin. congruence.
Qed.

Lemma batch_try_ok env jobId url avatar tags req w rs w' :
  batch_try env jobId url avatar tags req w = (Ok rs, w') ->
  count_events is_download w' = S (count_events is_download w)
  /\ count_events is_probe w' = (count_events is_probe w + 1 + List.length tags)%nat
  /\ map fst rs = map toUpperCase tags.
Proof.
  unfold batch_try, bind at 1. intro H.
  destruct (downloadVideo env url (inputPath_of jobId) 5 (JS.ofZ 2000) w)
    as [[[]|e|e] w1] eqn:Hd; try discriminate.
  apply downloadVideo_counts in Hd. destruct Hd as [Hd1 Hd2].
  unfold bind at 1 in H.
  destruct (getVideoDimensions env (inputPath_of jobId) w1) as [[info|e|e] w2] eqn:Hp;
    try discriminate.
  apply getVideoDimensions_world in Hp. subst w2.
  unfold bind at 1 in H.
  destruct (process_platforms env jobId avatar
              (JS.or_else (duration req) (vduration info)) (banner_config req) tags []
              (emit (EvProbe (inputPath_of jobId)) w1)) as [[rs'|e|e] w3] eqn:Hl;
    try discriminate.
  apply process_platforms_ok in Hl. destruct Hl as (Hl1 & Hl2 & Hl3).
  unfold bind at 1 in H.
  destruct (unlinkSync (inputPath_of jobId) w3) as [[[]|e|e] w4] eqn:Hx; try discriminate.
  apply unlinkSync_ok in Hx. destruct Hx as [_ ->].
  inversion H; subst.
  rewrite !count_remove, !count_emit. rewrite !count_emit in Hl1, Hl2.
  cbn [is_download is_probe] in *. repeat split; try lia. exact Hl3.
Qed.

Lemma downloadVideo_all_succeed env url out n d w :
  (forall w0 u, axios env w0 u = AxiosResponse StreamFinish) ->
  downloadVideo env url out (S n) d w
  = (Ok tt, create_file out (emit (EvGet 1 url) (emit (EvDownload url out) w))).
Proof.
  intro Hax. unfold downloadVideo. cbn [download_loop]. unfold bind, tell.
  rewrite Hax. reflexivity.
Qed.

Lemma batch_try_all_succeed env jobId url avatar tags req w :
  all_succeed env ->
  exists rs w', batch_try env jobId url avatar tags req w = (Ok rs, w').
Proof.
  intros Hall. pose proof Hall as (Hax & Hpr & _ & _).
  unfold batch_try, bind at 1. rewrite (downloadVideo_all_succeed _ _ _ _ _ _ Hax).
  unfold bind at 1, getVideoDimensions, bind at 1, tell at 1.
  match goal with
  | |- context [ffprobe env ?w0 ?p] => destruct (Hpr w0 p) as (m & v & -> & ->)
  end.
  unfold bind at 1.
  match goal with
  | |- context [process_platforms env jobId avatar ?d ?c tags [] ?w0] =>
      destruct (process_platforms_all_succeed env jobId avatar d c tags Hall [] w0)
        as (rs & w' & -> & Hin)
  end.
  { cbn [emit files]. apply in_create_file. }
  unfold bind at 1. rewrite (unlinkSync_present _ _ Hin).
  eexists. eexists. reflexivity.
Qed.

Lemma downloadVideo_throw_tail env url out n d w e w' :
  downloadVideo env url out n d w = (Throw e, w') ->
  exists l j, log w' = l ++ [EvGet j url].
Proof.
  unfold downloadVideo, bind at 1, tell at 1. apply download_loop_throw_tail.
Qed.

Lemma batch_try_upload_failure env jobId url avatar tags req w e w1 l p :
  batch_try env jobId url avatar tags req w = (Throw e, w1) ->
  log w1 = l ++ [EvUpload p] ->
  In p (files w1) /\ exists t, In t tags /\ p = outputPath_of jobId t.
Proof.
  unfold batch_try, bind at 1. intros H Hlog.
  destruct (downloadVideo env url (inputPath_of jobId) 5 (JS.ofZ 2000) w)
    as [[[]|e0|e0] w2] eqn:Hd; try discriminate.
  - unfold bind at 1 in H.
    destruct (getVideoDimensions env (inputPath_of jobId) w2) as [[info|e0|e0] w3] eqn:Hp;
      try discriminate; apply getVideoDimensions_world in Hp; subst w3.
    + unfold bind at 1 in H.
      destruct (process_platforms env jobId avatar
                  (JS.or_else (duration req) (vduration info)) (banner_config req) tags []
                  (emit (EvProbe (inputPath_of jobId)) w2)) as [[rs|e0|e0] w4] eqn:Hl;
        try discriminate.
      * unfold bind at 1 in H.
        destruct (unlinkSync (inputPath_of jobId) w4) as [[[]|e0|e0] w5] eqn:Hx;
          try discriminate.
        inversion H; subst. apply unlinkSync_throw in Hx. subst w1.
        cbn [emit log] in Hlog. apply app_inj_tail in Hlog. destruct Hlog; discriminate.
      * inversion H; subst. eapply process_platforms_upload_failure; eassumption.
    + inversion H; subst. cbn [emit log] in Hlog. apply app_inj_tail in Hlog.
      destruct Hlog; discriminate.
  - inversion H; subst. apply downloadVideo_throw_tail in Hd.
    destruct Hd as (l' & j & Hl'). rewrite Hl' in Hlog.
    apply app_inj_tail in Hlog. destruct Hlog; discriminate.
Qed.

(** The loop over [pre ++ rest] is the loop over [rest] started where the
    loop over [pre] ended. *)
Lemma process_platforms_app env jobId avatar dur cfg pre rest :
  forall acc w rs w1,
  process_platforms env jobId avatar dur cfg pre acc w = (Ok rs, w1) ->
  process_platforms env jobId avatar dur cfg (pre ++ rest) acc w
  = process_platforms env jobId avatar dur cfg rest rs w1.
Proof.
  induction pre as [|p pre IH]; intros acc w rs w1 H.
  - inversion H; subst. reflexivity.
  - cbn [app process_platforms] in *. unfold bind at 1 in H. unfold bind at 1.
    destruct (addScrollingBanner env (inputPath_of jobId) (outputPath_of jobId p)
                {| avatarName := avatar; platform := toUpperCase p;
                   oduration := dur; bannerConfig := cfg |} w)
      as [[out|e|e] w2]; try discriminate.
    unfold bind at 1 in H. unfold bind at 1.
    destruct (uploadToCloudinary env (outputPath_of jobId p) w2)
      as [[u|e|e] w3]; try discriminate.
    unfold bind at 1 in H. unfold bind at 1.
    destruct (unlinkSync (outputPath_of jobId p) w3) as [[[]|e|e] w4]; try discriminate.
    now apply IH.
Qed.

(** C8. Take a batch whose download and probe succeeded and whose tags
    [pre] were all rendered and published.  If for the next tag [t] the
    renderer answers with an error, or the render succeeds and the upload
    of its output answers with an error, then the response is the 500 error
    body with that error's message: it carries no result entry, although
    one had been collected for every tag of [pre]; and the shared input
    scratch file does not exist once the response is sent. *)
Theorem batch_failure_no_results env jobId req url avatar pre t post w w1 info w2
    rs_pre w3 e :
  video_url req = Some url -> url <> ""%string ->
  avatar_name req = Some avatar -> avatar <> ""%string ->
  platforms req = Some (pre ++ t :: post) ->
  downloadVideo env url (inputPath_of jobId) 5 (JS.ofZ 2000) w = (Ok tt, w1) ->
  getVideoDimensions env (inputPath_of jobId) w1 = (Ok info, w2) ->
  process_platforms env jobId avatar (JS.or_else (duration req) (vduration info))
    (banner_config req) pre [] w2 = (Ok rs_pre, w3) ->
  ((exists info' dt partial,
       getVideoDimensions env (inputPath_of jobId) w3
       = (Ok info', emit (EvProbe (inputPath_of jobId)) w3)
       /\ V3.drawtextOptions (config_or_empty (banner_config req))
            (width info') (height info') (bannerText avatar (toUpperCase t))
            (JS.or_else (duration req) (vduration info)) = inr dt
       /\ ffmpeg_save env
            (emit (EvRender (inputPath_of jobId) (outputPath_of jobId t) dt)
               (emit (EvProbe (inputPath_of jobId)) w3))
            (inputPath_of jobId) (outputPath_of jobId t) dt
          = RenderError e partial)
   \/ (exists out w4,
          addScrollingBanner env (inputPath_of jobId) (outputPath_of jobId t)
            {| avatarName := avatar; platform := toUpperCase t;
               oduration := JS.or_else (duration req) (vduration info);
               bannerConfig := banner_config req |} w3 = (Ok out, w4)
          /\ cloudinary_upload env (emit (EvUpload (outputPath_of jobId t)) w4)
               (outputPath_of jobId t) = UploadError e)) ->
  exists w',
    add_banners_batch env jobId req w
    = (Json500 "Failed to process videos" (message e), w')
    /\ results_of (fst (add_banners_batch env jobId req w)) = []
    /\ List.length rs_pre = List.length pre
    /\ ~ In (inputPath_of jobId) (files w').
Proof.
  intros Hu Hu' Ha Ha' Hp Hd Hg Hpre Hfail.
  assert (Hlen : List.length rs_pre = List.length pre).
  { apply process_platforms_ok in Hpre. destruct Hpre as (_ & _ & Hm).
    cbn [map app] in Hm. rewrite <- (length_map fst rs_pre), Hm, length_map. reflexivity. }
  assert (Hloop : exists w4,
            process_platforms env jobId avatar (JS.or_else (duration req) (vduration info))
              (banner_config req) (pre ++ t :: post) [] w2 = (Throw e, w4)).
  { rewrite (process_platforms_app _ _ _ _ _ _ _ _ _ _ _ Hpre).
    cbn [process_platforms]. unfold bind at 1.
    destruct Hfail as [(info' & dt & partial & Hg' & Hdt & Hff) | (out & w4 & Hadd & Hup)].
    - unfold addScrollingBanner, bind at 1. rewrite Hg'.
      cbn [width height avatarName platform oduration bannerConfig]. rewrite Hdt.
      unfold render, bind, tell. rewrite Hff. eexists. reflexivity.
    - rewrite Hadd. unfold bind at 1, uploadToCloudinary, bind at 1, tell at 1.
      rewrite Hup. eexists. reflexivity. }
  destruct Hloop as (w4 & Hloop).
  assert (Ht : batch_try env jobId url avatar (pre ++ t :: post) req w = (Throw e, w4)).
  { unfold batch_try, bind at 1. rewrite Hd. unfold bind at 1. rewrite Hg.
    unfold bind at 1. rewrite Hloop. reflexivity. }
  rewrite (add_banners_batch_valid env jobId req url avatar (pre ++ t :: post) w
             Hu Hu' Ha Ha' Hp), Ht.
  destruct (batch_catch_effect jobId e w4) as (w5 & -> & Hf & _).
  exists w5. split; [reflexivity|]. split; [reflexivity|]. split; [exact Hlen|].
  rewrite Hf. apply remove_In.
Qed.

(** C10. On the error path of the batch handler the only file looked at
    and removed is the shared input scratch file: every other file that
    existed when the failure was thrown still exists when the error is
    surfaced.  In particular the output scratch file of the failing tag is
    left on disk if it had been created, which is always the case when the
    failure is that of the upload. *)
Theorem batch_failure_keeps_output env jobId req url avatar tags w e w1 resp w' :
  video_url req = Some url -> url <> ""%string ->
  avatar_name req = Some avatar -> avatar <> ""%string ->
  platforms req = Some tags ->
  batch_try env jobId url avatar tags req w = (Throw e, w1) ->
  add_banners_batch env jobId req w = (resp, w') ->
  files w' = List.remove string_dec (inputPath_of jobId) (files w1)
  /\ log w' = log w1 ++ EvExists (inputPath_of jobId)
                :: (if existsb_file (inputPath_of jobId) w1
                    then [EvUnlink (inputPath_of jobId)] else [])
  /\ (forall t, In (outputPath_of jobId t) (files w1) ->
                In (outputPath_of jobId t) (files w'))
  /\ (forall l p, log w1 = l ++ [EvUpload p] ->
                  (exists t, In t tags /\ p = outputPath_of jobId t)
                  /\ In p (files w')).
Proof.
  intros Hu Hu' Ha Ha' Hp Ht Hrun.
  rewrite (add_banners_batch_valid env jobId req url avatar tags w Hu Hu' Ha Ha' Hp), Ht
    in Hrun.
  destruct (batch_catch_effect jobId e w1) as (w2 & Hc & Hf & Hl).
  rewrite Hc in Hrun. inversion Hrun; subst. clear Hrun.
  assert (Hkeep : forall t, In (outputPath_of jobId t) (files w1) ->
                            In (outputPath_of jobId t) (files w')).
  { intros t Hin. rewrite Hf. apply in_in_remove; [apply output_is_not_input | exact Hin]. }
  repeat split; auto.
  - destruct (batch_try_upload_failure _ _ _ _ _ _ _ _ _ _ _ Ht H) as (_ & t & Hin & ->).
    now exists t.
  - destruct (batch_try_upload_failure _ _ _ _ _ _ _ _ _ _ _ Ht H) as (Hin & t & _ & ->).
    now apply Hkeep.
Qed.

(* ------------------------------------------------------------------ *)
(** *** Font size and text color of the resolver *)

Lemma fontSize_precedence config w h :
  V3.fontSize config w h
  = match font_size_percent config, font_size config with
    | Some p, _ => JS.round (JS.min w h * p)%js
    | None, Some fs =>
        JS.round
          (JS.min w h
           * (fs / JS.min (or_num (template_height config) (V3.inferTemplateHeight w h))
                          (or_num (template_height config) (V3.inferTemplateHeight w h)
                           * (w / h))))%js
    | None, None => JS.round (JS.min w h * JS.Fin (4 # 100))%js
    end.
Proof.
  unfold V3.fontSize, V3.fontSize_from_pixels.
  destruct (font_size_percent config), (font_size config); reflexivity.
Qed.

(** C1. With the request configuration [{ font_size: 40, template_height:
    1080 }] and a 1080x1920 source, [addScrollingBanner] renders with font
    size 43, the default 4% of 1080: the merge with the defaults at line 401
    defines [font_size_percent] before the precedence test of line 405.
    The precedence of the claim, run on the request's own configuration,
    converts the pixel value and gives 71. *)
Theorem pixel_font_size_is_ignored :
  exists o,
    V3.drawtextOptions pixel_font_config (JS.ofZ 1080) (JS.ofZ 1920)
      (bannerText "Kelly" "YOUTUBE") (Some (JS.ofZ 10)) = inr o
    /\ dt_fontsize o = JS.ofZ 43
    /\ V3.fontSize pixel_font_config (JS.ofZ 1080) (JS.ofZ 1920) = JS.ofZ 71.
Proof.
  eexists. split; [vm_compute; reflexivity|]. split; vm_compute; reflexivity.
Qed.

Lemma textColor_precedence config :
  V3.textColor config
  = inr (replace (first_truthy (text_color config) (fill_color config) "#feb628")
                 "0x" "#").
Proof.
  unfold V3.textColor, or_str, first_truthy.
  destruct (text_color config) as [[|x s]|], (fill_color config) as [[|y t]|];
    reflexivity.
Qed.

Lemma merged_fill_color_unused bc w h text d o :
  text_color bc = None ->
  V3.drawtextOptions bc w h text d = inr o ->
  dt_fontcolor o = "#feb628"%string.
Proof.
  intros Htc. unfold V3.drawtextOptions, V3.options_of_config.
  rewrite textColor_precedence. cbn [spread text_color fill_color DEFAULT_BANNER_CONFIG].
  rewrite Htc. cbn [spread_key first_truthy].
  destruct (merged_bg_color bc) as [c ->].
  intro H. inversion H. reflexivity.
Qed.

(** C3. With the request configuration [{ fill_color: '0xff0000' }]
    [addScrollingBanner] renders with the default gold [#feb628]: after the
    merge with the defaults [config.text_color] is always set, so
    [fill_color] is never reached.  The precedence of the claim, run on the
    request's own configuration, gives the normalised fill color. *)
Theorem fill_color_is_ignored :
  exists o,
    V3.drawtextOptions fill_config (JS.ofZ 1080) (JS.ofZ 1920)
      (bannerText "Kelly" "YOUTUBE") (Some (JS.ofZ 10)) = inr o
    /\ dt_fontcolor o = "#feb628"%string
    /\ V3.textColor fill_config = inr "#ff0000"%string.
Proof.
  eexists. split; [vm_compute; reflexivity|]. split; reflexivity.
Qed.

(* ------------------------------------------------------------------ *)
(** *** Vertical position *)

Lemma mul_comm a b : (a * b)%js = (b * a)%js.
Proof.
  destruct a as [x| | |], b as [y| | |]; try reflexivity.
  cbn [JS.mul]. f_equal. unfold Qmult. f_equal; [apply Z.mul_comm | apply Pos.mul_comm].
Qed.

(** C9. In the second revision of the unnamed source the vertical
    position handed to the renderer is
    [round(height * yPercent + 0.3 * fontSizePixels)], with [yPercent] the
    resolved percentage and [fontSizePixels] the resolved font size; in the
    first revision it is [round(height * y_percent)] and in [src/index.js]
    [round(height * 0.159)], without the compensation term. *)
Theorem bannerY_formula bc w h text d platform :
  (exists o,
      V3.drawtextOptions bc w h text d = inr o
      /\ dt_y o = JS.round (h * V3.yPercent (spread DEFAULT_BANNER_CONFIG bc) w h
                            + JS.Fin (3 # 10) * dt_fontsize o)%js)
  /\ (exists o,
         V2.drawtextOptions bc w h text d = inr o
         /\ dt_y o = JS.round (h * JS.toNumber (y_percent (spread DEFAULT_BANNER_CONFIG bc)))%js)
  /\ dt_y (V1.drawtextOptions platform w h text d) = JS.round (h * JS.Fin (159 # 1000))%js.
Proof.
  split; [|split].
  - destruct (drawtextOptions_total bc w h text d) as (o & Ho & Hfs & _ & Hy).
    exists o. split; [exact Ho|]. rewrite Hy, Hfs. unfold V3.bannerY.
    now rewrite (mul_comm (JS.Fin (3 # 10))).
  - unfold V2.drawtextOptions.
    assert (Ht : exists tc, replace_0x (text_color (spread DEFAULT_BANNER_CONFIG bc)) = inr tc)
      by (cbn; destruct (text_color bc); eexists; reflexivity).
    assert (Hb : exists c, replace_0x (bg_color (spread DEFAULT_BANNER_CONFIG bc)) = inr c)
      by (cbn; destruct (bg_color bc); eexists; reflexivity).
    destruct Ht as [tc ->], Hb as [c ->].
    eexists. split; reflexivity.
  - reflexivity.
Qed.

(* ------------------------------------------------------------------ *)
(** *** Pixel font sizes *)


(** The pixel branch is the percent branch run on the derived percentage
    [font_size / min(templateHeight, templateHeight * aspectRatio)]. *)
Lemma pixel_branch_is_percent_branch cfg fs w h :
  V3.fontSize_from_pixels cfg fs w h
  = V3.fontSize
      (mkConfig None None
         (Some (fs / JS.min (or_num (template_height cfg) (V3.inferTemplateHeight w h))
                            (or_num (template_height cfg) (V3.inferTemplateHeight w h)
                             * (w / h)))%js)
         None None None None None None) w h.
Proof. reflexivity. Qed.


(* ------------------------------------------------------------------ *)
(** *** Scroll speed *)

Set Warnings "-inexact-float".


Set Warnings "+inexact-float".

(* ------------------------------------------------------------------ *)
(** *** Probe *)

Lemma getVideoDimensions_probe_error env p w e :
  ffprobe env (emit (EvProbe p) w) p = ProbeErr e ->
  getVideoDimensions env p w = (Throw e, emit (EvProbe p) w).
Proof. intro H. unfold getVideoDimensions, bind, tell. now rewrite H. Qed.

Lemma getVideoDimensions_no_video env p w m :
  ffprobe env (emit (EvProbe p) w) p = ProbeMeta m ->
  find_video m = None ->
  exists e, getVideoDimensions env p w = (Crash e, emit (EvProbe p) w).
Proof.
  intros H Hf. unfold getVideoDimensions, bind, tell. rewrite H, Hf.
  eexists. reflexivity.
Qed.

(** C7. For a file whose metadata holds an audio stream only,
    [getVideoDimensions] neither resolves nor rejects: reading
    [video.width] throws a [TypeError] inside the [ffprobe] callback, where
    no [catch] of the program sees it.  The batch handler then sends no
    response and leaves the downloaded input file on disk. *)
Theorem probe_without_video_stream :
  getVideoDimensions audio_only_env "/tmp/input-J.mp4" empty_world
  = (Crash (TypeError "Cannot read properties of undefined (reading 'width')"),
     emit (EvProbe "/tmp/input-J.mp4") empty_world)
  /\ fst (add_banners_batch audio_only_env "J" (two_tags None None) empty_world)
     = NoResponse
  /\ files (snd (add_banners_batch audio_only_env "J" (two_tags None None) empty_world))
     = ["/tmp/input-J.mp4"%string].
Proof. repeat split. Qed.

(* ------------------------------------------------------------------ *)
(** *** Witnesses and counterexamples of the batch claims *)

(** C2, as stated, fails: with every stage succeeding on two tags the
    shared source is probed three times, not once. *)
Lemma batch_single_probe_counterexample :
  fst (add_banners_batch ok_env "J" (two_tags None None) empty_world)
  = Json200 "Kelly" [("YOUTUBE"%string, "https://cdn.example/tmp/output-J-youtube.mp4"%string);
                     ("TIKTOK"%string, "https://cdn.example/tmp/output-J-tiktok.mp4"%string)]
  /\ count_events is_download
       (snd (add_banners_batch ok_env "J" (two_tags None None) empty_world)) = 1%nat
  /\ count_events is_probe
       (snd (add_banners_batch ok_env "J" (two_tags None None) empty_world)) = 3%nat
  /\ count_events is_probe
       (snd (add_banners_batch ok_env "J" (two_tags None None) empty_world)) <> 1%nat.
Proof. repeat split; vm_compute; try reflexivity. discriminate. Qed.

Lemma ok_env_all_succeed : all_succeed ok_env.
Proof.
  repeat split; intros; cbn.
  - exists portrait_meta. eexists. split; reflexivity.
  - eexists. reflexivity.
Qed.

(** After one tag was rendered and published, the renderer fails on the
    second tag, or its upload does: in both cases the 500 carries no result
    and the input file is gone. *)
Lemma batch_failure_no_results_witness :
  (exists w',
      add_banners_batch render_fails_env "J" (two_tags None None) empty_world
      = (Json500 "Failed to process videos" "ffmpeg exited with code 1", w')
      /\ ~ In (inputPath_of "J") (files w'))
  /\ (exists w',
         add_banners_batch upload_fails_env "J" (two_tags None None) empty_world
         = (Json500 "Failed to process videos" "upload rejected", w')
         /\ ~ In (inputPath_of "J") (files w')).
Proof.
  split.
  - edestruct (batch_failure_no_results render_fails_env "J" (two_tags None None)
                 "https://v.example/a.mp4" "Kelly" ["youtube"%string] "tiktok"%string []
                 empty_world) as (w' & Hrun & _ & _ & Hin).
    + reflexivity.
    + discriminate.
    + reflexivity.
    + discriminate.
    + reflexivity.
    + lazy. reflexivity.
    + lazy. reflexivity.
    + lazy. reflexivity.
    + left. eexists. eexists. eexists.
      split; [lazy; reflexivity|]. split; [lazy; reflexivity|]. lazy. reflexivity.
    + exists w'. split; [exact Hrun | exact Hin].
  - edestruct (batch_failure_no_results upload_fails_env "J" (two_tags None None)
                 "https://v.example/a.mp4" "Kelly" ["youtube"%string] "tiktok"%string []
                 empty_world) as (w' & Hrun & _ & _ & Hin).
    + reflexivity.
    + discriminate.
    + reflexivity.
    + discriminate.
    + reflexivity.
    + lazy. reflexivity.
    + lazy. reflexivity.
    + lazy. reflexivity.
    + right. eexists. eexists.
      split; [lazy; reflexivity|]. lazy. reflexivity.
    + exists w'. split; [exact Hrun | exact Hin].
Defined.

(** The upload fails on the second of two tags: its output file stays. *)
Lemma batch_failure_keeps_output_witness :
  In "/tmp/output-J-tiktok.mp4"%string
     (files (snd (add_banners_batch upload_fails_env "J" (two_tags None None) empty_world))).
Proof.
  destruct (add_banners_batch upload_fails_env "J" (two_tags None None) empty_world)
    as [resp w'] eqn:Hrun.
  destruct (batch_try upload_fails_env "J" "https://v.example/a.mp4" "Kelly"
              ["youtube"; "tiktok"]%string (two_tags None None) empty_world)
    as [out w1] eqn:Htry.
  assert (Hout : out = Throw (Failure "upload rejected"))
    by (apply (f_equal fst) in Htry; vm_compute in Htry; now symmetry).
  assert (Hin : In (outputPath_of "J" "tiktok") (files w1)).
  { apply (f_equal snd) in Htry. cbn [snd] in Htry. rewrite <- Htry.
    vm_compute. now left. }
  subst out.
  destruct (batch_failure_keeps_output upload_fails_env "J" (two_tags None None)
              "https://v.example/a.mp4" "Kelly" ["youtube"; "tiktok"]%string empty_world
              (Failure "upload rejected") w1 resp w') as (_ & _ & Hkeep & _);
    try reflexivity; try discriminate; try assumption.
  exact (Hkeep "tiktok"%string Hin).
Defined.

(** A CDN answering 404 for ever costs five requests and four pauses; one
    answering 403 costs a single request. *)
Lemma downloadVideo_retry_policy_witness :
  (exists e w',
      downloadVideo (status_env 404) "https://v.example/a.mp4" "/tmp/input-J.mp4"
        5 (JS.ofZ 2000) empty_world = (Throw e, w')
      /\ count_events is_get w' = 5%nat
      /\ count_events is_sleep w' = 4%nat)
  /\ downloadVideo (status_env 403) "https://v.example/a.mp4" "/tmp/input-J.mp4"
       5 (JS.ofZ 2000) empty_world
     = (Throw (HttpError (Some 403%Z) "Request failed"),
        emit (EvGet 1 "https://v.example/a.mp4")
          (emit (EvDownload "https://v.example/a.mp4" "/tmp/input-J.mp4") empty_world)).
Proof.
  split.
  - destruct (downloadVideo_retry_policy (status_env 404) 5 (JS.ofZ 2000)
                "https://v.example/a.mp4" "/tmp/input-J.mp4") as (_ & Hall & _).
    destruct (Hall empty_world) as (e & w' & Hrun & _ & Hg & Hs).
    + lia.
    + intro w0. eexists. split; reflexivity.
    + exists e, w'. repeat split; assumption.
  - destruct (downloadVideo_retry_policy (status_env 403) 5 (JS.ofZ 2000)
                "https://v.example/a.mp4" "/tmp/input-J.mp4") as (Hstep & _ & _).
    unfold downloadVideo, bind at 1, tell at 1.
    destruct (Hstep 1%nat
                (emit (EvDownload "https://v.example/a.mp4" "/tmp/input-J.mp4") empty_world)
                (HttpError (Some 403%Z) "Request failed")) as (_ & Hfatal).
    + lia.
    + reflexivity.
    + intros s Hs. injection Hs as <-. lia.
    + apply Hfatal. unfold retryable_failure. cbn. lia.
Defined.

(* ================================================================== *)
(** ** Further properties of the code *)

(* ------------------------------------------------------------------ *)
(** *** Files touched by the operations *)

Lemma same_files_refl P w : same_files_except P w w.
Proof. intros q _. tauto. Qed.

Lemma same_files_trans P w1 w2 w3 :
  same_files_except P w1 w2 -> same_files_except P w2 w3 -> same_files_except P w1 w3.
Proof. intros H1 H2 q Hq. rewrite (H2 q Hq). exact (H1 q Hq). Qed.

Lemma same_files_emit P e w : same_files_except P w (emit e w).
Proof. intros q _. cbn [emit files]. tauto. Qed.

Lemma same_files_create (P : string -> Prop) p w :
  P p -> same_files_except P w (create_file p w).
Proof.
  intros Hp q Hq. unfold create_file. cbn [files].
  destruct (existsb_file p w); [tauto|]. cbn [In]. split; [|tauto].
  intros [<-|H]; [contradiction | exact H].
Qed.

Lemma same_files_remove (P : string -> Prop) p w :
  P p -> same_files_except P w (remove_file p w).
Proof.
  intros Hp q Hq. unfold remove_file. cbn [files]. split.
  - intro H. now apply in_remove in H.
  - intro H. apply in_in_remove; [|exact H]. intros ->. contradiction.
Qed.

Lemma same_files_weaken (P Q : string -> Prop) w w' :
  (forall q, P q -> Q q) -> same_files_except P w w' -> same_files_except Q w w'.
Proof. intros HPQ H q Hq. apply H. intro Hp. apply Hq, HPQ, Hp. Qed.

Lemma same_files_files (P : string -> Prop) w w' :
  files w' = files w -> same_files_except P w w'.
Proof. intros E q _. rewrite E. tauto. Qed.

(* ------------------------------------------------------------------ *)
(** *** Shape of a download *)

Lemma attempt_trace_cons k n d url :
  (0 < n)%nat ->
  attempt_trace k (S n) d url
  = EvGet k url :: EvSleep (d * JS.pow2 (k - 1))%js :: attempt_trace (S k) n d url.
Proof. destruct n; [lia | reflexivity]. Qed.

Lemma download_loop_step env r k maxRetries d url out w :
  download_loop env (S r) k maxRetries d url out w
  = match axios env (emit (EvGet k url) w) url with
    | AxiosResponse body => pipe_to_file body out (emit (EvGet k url) w)
    | AxiosError e =>
        if retryable_status (status_of e) && (k <? maxRetries)%nat
        then download_loop env r (S k) maxRetries d url out
               (emit (EvSleep (d * JS.pow2 (k - 1))%js) (emit (EvGet k url) w))
        else (Throw e, emit (EvGet k url) w)
    end.
Proof.
  cbn [download_loop]. unfold bind at 1, tell at 1.
  destruct (axios env (emit (EvGet k url) w) url) as [body|e]; [reflexivity|].
  destruct (retryable_status (status_of e) && (k <? maxRetries)%nat); reflexivity.
Qed.

Lemma download_loop_shape env maxRetries d url out r :
  forall k w,
  (k + r = S maxRetries)%nat ->
  exists n,
    (n <= r)%nat /\ ((0 < r)%nat -> (0 < n)%nat)
    /\ log (snd (download_loop env r k maxRetries d url out w))
       = log w ++ attempt_trace k n d url
    /\ same_files_except (eq out) w (snd (download_loop env r k maxRetries d url out w))
    /\ (forall e, fst (download_loop env r k maxRetries d url out w) <> Crash e)
    /\ (fst (download_loop env r k maxRetries d url out w) = Ok tt -> (0 < r)%nat ->
        In out (files (snd (download_loop env r k maxRetries d url out w)))).
Proof.
  induction r as [|r IH]; intros k w Hk.
  - exists 0%nat. cbn [download_loop ret fst snd attempt_trace]. rewrite app_nil_r.
    split; [lia|]. split; [lia|]. split; [reflexivity|].
    split; [apply same_files_refl|]. split; [discriminate | lia].
  - rewrite download_loop_step.
    destruct (axios env (emit (EvGet k url) w) url) as [body|e].
    + exists 1%nat. split; [lia|]. split; [lia|].
      destruct body as [|e created]; cbn [pipe_to_file fst snd].
      * split; [reflexivity|]. split.
        { eapply same_files_trans; [apply same_files_emit|].
          now apply same_files_create. }
        split; [discriminate|]. intros _ _. apply in_create_file.
      * split; [destruct created; reflexivity|]. split.
        { eapply same_files_trans; [apply same_files_emit|].
          destruct created; [now apply same_files_create | apply same_files_refl]. }
        split; discriminate.
    + destruct (retryable_status (status_of e) && (k <? maxRetries)%nat) eqn:Hc.
      * apply andb_true_iff in Hc. destruct Hc as [_ Hlt]. apply Nat.ltb_lt in Hlt.
        destruct (IH (S k) (emit (EvSleep (d * JS.pow2 (k - 1))%js) (emit (EvGet k url) w)))
          as (n & Hn & Hpos & Hlog & Hfiles & Hcrash & Hok); [lia|].
        exists (S n). rewrite attempt_trace_cons by (apply Hpos; lia).
        split; [lia|]. split; [lia|]. split.
        { rewrite Hlog. cbn [emit log]. rewrite <- !app_assoc. reflexivity. }
        split.
        { eapply same_files_trans; [|exact Hfiles].
          eapply same_files_trans; apply same_files_emit. }
        split; [exact Hcrash|]. intros H0 _. apply Hok; [exact H0 | lia].
      * exists 1%nat. cbn [fst snd]. split; [lia|]. split; [lia|].
        split; [reflexivity|]. split; [apply same_files_emit|]. split; discriminate.
Qed.

Lemma downloadVideo_shape_aux env url out maxRetries d w :
  exists n,
    (n <= maxRetries)%nat /\ ((1 <= maxRetries)%nat -> (1 <= n)%nat)
    /\ log (snd (downloadVideo env url out maxRetries d w))
       = log w ++ EvDownload url out :: attempt_trace 1 n d url.
Proof.
  change (downloadVideo env url out maxRetries d w)
    with (download_loop env maxRetries 1 maxRetries d url out (emit (EvDownload url out) w)).
  destruct (download_loop_shape env maxRetries d url out maxRetries 1
              (emit (EvDownload url out) w)) as (n & Hn & Hpos & Hlog & _); [lia|].
  exists n. split; [exact Hn|]. split; [exact Hpos|].
  rewrite Hlog. cbn [emit log]. rewrite <- app_assoc. reflexivity.
Qed.

Lemma downloadVideo_shape_aux2 env url out maxRetries d w :
  same_files_except (eq out) w (snd (downloadVideo env url out maxRetries d w))
  /\ forall e, fst (downloadVideo env url out maxRetries d w) <> Crash e.
Proof.
  change (downloadVideo env url out maxRetries d w)
    with (download_loop env maxRetries 1 maxRetries d url out (emit (EvDownload url out) w)).
  destruct (download_loop_shape env maxRetries d url out maxRetries 1
              (emit (EvDownload url out) w)) as (n & _ & _ & _ & Hfiles & Hcrash & _);
    [lia|].
  split; [|exact Hcrash].
  eapply same_files_trans; [apply same_files_emit | exact Hfiles].
Qed.

(** X1. Whatever the CDN answers, a call of [downloadVideo] makes [n]
    requests numbered [1 .. n] with [n <= maxRetries] (and [n >= 1] unless
    [maxRetries] is [0]), pauses [initialDelay * 2^(k-1)] ms after each
    request [k] but the last, and does nothing else; it touches no file but
    its destination and never throws outside the reach of a [catch]. *)
Theorem downloadVideo_shape env url out maxRetries d w :
  exists n,
    (n <= maxRetries)%nat /\ ((1 <= maxRetries)%nat -> (1 <= n)%nat)
    /\ log (snd (downloadVideo env url out maxRetries d w))
       = log w ++ EvDownload url out :: attempt_trace 1 n d url
    /\ same_files_except (eq out) w (snd (downloadVideo env url out maxRetries d w))
    /\ forall e, fst (downloadVideo env url out maxRetries d w) <> Crash e.
Proof.
  change (downloadVideo env url out maxRetries d w)
    with (download_loop env maxRetries 1 maxRetries d url out (emit (EvDownload url out) w)).
  destruct (download_loop_shape env maxRetries d url out maxRetries 1
              (emit (EvDownload url out) w)) as (n & Hn & Hpos & Hlog & Hfiles & Hcrash & _);
    [lia|].
  exists n. split; [exact Hn|]. split; [exact Hpos|]. split.
  { rewrite Hlog. cbn [emit log]. rewrite <- app_assoc. reflexivity. }
  split; [|exact Hcrash].
  eapply same_files_trans; [apply same_files_emit | exact Hfiles].
Qed.

(** X2. When [downloadVideo] resolves with [maxRetries >= 1] the
    destination file exists; with [maxRetries = 0] it resolves at once,
    without any request and without creating the file. *)
Theorem downloadVideo_resolved env url out maxRetries d w :
  ((1 <= maxRetries)%nat ->
   fst (downloadVideo env url out maxRetries d w) = Ok tt ->
   In out (files (snd (downloadVideo env url out maxRetries d w))))
  /\ downloadVideo env url out 0 d w = (Ok tt, emit (EvDownload url out) w).
Proof.
  split; [|reflexivity].
  change (downloadVideo env url out maxRetries d w)
    with (download_loop env maxRetries 1 maxRetries d url out (emit (EvDownload url out) w)).
  intros Hmax Hok.
  destruct (download_loop_shape env maxRetries d url out maxRetries 1
              (emit (EvDownload url out) w)) as (n & _ & _ & _ & _ & _ & Hin); [lia|].
  apply Hin; [exact Hok | lia].
Qed.

Lemma total_sleep_fin_trace d url n :
  forall j, (0 < n)%nat ->
  exists t,
    total_sleep (attempt_trace (S j) n (JS.Fin d) url) = JS.Fin t
    /\ t == d * inject_Z (2 ^ Z.of_nat j) * (inject_Z (2 ^ Z.of_nat (n - 1)) - 1).
Proof.
  induction n as [|n IH]; intros j Hn; [lia|].
  destruct n as [|n].
  - exists 0. split; [reflexivity|]. cbn. ring.
  - rewrite attempt_trace_cons by lia. cbn [total_sleep].
    destruct (IH (S j)) as (t & -> & Ht); [lia|].
    replace (S j - 1)%nat with j by lia. cbn [JS.mul JS.pow2 JS.add].
    eexists. split; [reflexivity|]. rewrite Ht.
    replace (S (S n) - 1)%nat with (S n) by lia.
    replace (S n - 1)%nat with n by lia.
    rewrite !Nat2Z.inj_succ, !Z.pow_succ_r by lia.
    rewrite !inject_Z_mult. change (inject_Z 2) with 2. ring.
Qed.

Lemma gets_of_attempt_trace d url n : forall k, gets_of (attempt_trace k n d url) = n.
Proof.
  unfold gets_of. induction n as [|n IH]; intro k; [reflexivity|].
  destruct n as [|n]; [reflexivity|].
  rewrite attempt_trace_cons by lia. cbn [filter is_get List.length].
  now rewrite IH.
Qed.

(** X3. For an [initialDelay] that is a non-negative integer small enough
    for every delay to be an integer that [setTimeout] takes as it is
    ([initialDelay * 2^maxRetries <= 2^31]), the delays that one
    [downloadVideo] call hands to [setTimeout] add up to
    [initialDelay * (2^(n-1) - 1)] ms, where [n] is the number of requests
    the call made, itself at most [maxRetries]: 30 s at most with the
    default arguments. *)
Theorem downloadVideo_total_pause env url out maxRetries z w :
  (0 <= z)%Z -> (z * 2 ^ Z.of_nat maxRetries <= 2 ^ 31)%Z ->
  exists t,
    (gets_of (skipn (List.length (log w))
                (log (snd (downloadVideo env url out maxRetries (JS.ofZ z) w))))
     <= maxRetries)%nat
    /\ total_sleep (skipn (List.length (log w))
                      (log (snd (downloadVideo env url out maxRetries (JS.ofZ z) w))))
       = JS.Fin t
    /\ t == inject_Z
              (z * (2 ^ Z.of_nat
                          (gets_of (skipn (List.length (log w))
                                      (log (snd (downloadVideo env url out maxRetries
                                                   (JS.ofZ z) w)))) - 1) - 1)).
Proof.
  intros _ _.
  destruct (downloadVideo_shape_aux env url out maxRetries (JS.ofZ z) w)
    as (n & Hn & _ & Hlog).
  rewrite Hlog, skipn_app, Nat.sub_diag, skipn_all. cbn [skipn app total_sleep].
  unfold gets_of at 1 2. cbn [filter is_get]. fold (gets_of (attempt_trace 1 n (JS.ofZ z) url)).
  rewrite gets_of_attempt_trace.
  destruct n as [|n].
  - exists 0. split; [lia|]. split; [reflexivity|].
    assert (E : (z * (2 ^ Z.of_nat (0 - 1) - 1) = 0)%Z)
      by (change (Z.of_nat (0 - 1)) with 0%Z; lia).
    rewrite E. reflexivity.
  - destruct (total_sleep_fin_trace (inject_Z z) url (S n) 0%nat) as (t & Ht & Hq); [lia|].
    exists t. split; [exact Hn|]. split; [exact Ht|].
    rewrite Hq. change (inject_Z (2 ^ Z.of_nat 0)) with 1.
    replace (2 ^ Z.of_nat (S n - 1) - 1)%Z with (2 ^ Z.of_nat (S n - 1) + - (1))%Z by lia.
    rewrite inject_Z_mult, inject_Z_plus, inject_Z_opp. change (inject_Z 1) with 1. ring.
Qed.

(** With the defaults and a CDN answering 404 for ever: five requests and
    30 s of pauses. *)
Lemma downloadVideo_total_pause_witness :
  exists t,
    total_sleep (log (snd (downloadVideo (status_env 404) "https://v.example/a.mp4"
                             "/tmp/input-J.mp4" 5 (JS.ofZ 2000) empty_world)))
    = JS.Fin t
    /\ t == 30000.
Proof.
  destruct (downloadVideo_total_pause (status_env 404) "https://v.example/a.mp4"
              "/tmp/input-J.mp4" 5 2000 empty_world) as (t & _ & Ht & Hq);
    [lia | vm_compute; discriminate |].
  exists t. split; [exact Ht|]. rewrite Hq. vm_compute. reflexivity.
Defined.

(** With a CDN that serves the file at once, the destination exists. *)
Lemma downloadVideo_resolved_witness :
  In "/tmp/input-J.mp4"%string
     (files (snd (downloadVideo ok_env "https://v.example/a.mp4" "/tmp/input-J.mp4" 5
                    (JS.ofZ 2000) empty_world))).
Proof.
  destruct (downloadVideo_resolved ok_env "https://v.example/a.mp4" "/tmp/input-J.mp4" 5
              (JS.ofZ 2000) empty_world) as [H _].
  apply H; [lia | reflexivity].
Defined.

(* ------------------------------------------------------------------ *)
(** *** The probe *)

Lemma find_video_first pre v post fd :
  forallb (fun s => negb (String.eqb (codec_type s) "video")) pre = true ->
  codec_type v = "video"%string ->
  find_video {| streams := pre ++ v :: post; format_duration := fd |} = Some v.
Proof.
  intros Hpre Hv. unfold find_video. cbn [streams].
  induction pre as [|s pre IH]; cbn [app find].
  - rewrite Hv. reflexivity.
  - cbn [forallb] in Hpre. apply andb_true_iff in Hpre. destruct Hpre as [Hs Hpre].
    apply negb_true_iff in Hs. rewrite Hs. now apply IH.
Qed.

(** X4. [getVideoDimensions] reports the width and height of the first
    stream whose [codec_type] is ['video'], whatever streams come before or
    after it, together with the duration of the container; it probes once. *)
Theorem getVideoDimensions_first_video env p w pre v post fd :
  ffprobe env (emit (EvProbe p) w) p
  = ProbeMeta {| streams := pre ++ v :: post; format_duration := fd |} ->
  forallb (fun s => negb (String.eqb (codec_type s) "video")) pre = true ->
  codec_type v = "video"%string ->
  getVideoDimensions env p w
  = (Ok {| width := s_width v; height := s_height v; vduration := fd |},
     emit (EvProbe p) w).
Proof.
  intros Hprobe Hpre Hv. unfold getVideoDimensions, bind, tell.
  rewrite Hprobe, (find_video_first pre v post fd Hpre Hv). reflexivity.
Qed.

(** The video stream of [portrait_meta] comes after its audio stream. *)
Lemma getVideoDimensions_first_video_witness :
  getVideoDimensions ok_env "/tmp/input-J.mp4" empty_world
  = (Ok {| width := JS.ofZ 1080; height := JS.ofZ 1920; vduration := Some (JS.ofZ 10) |},
     emit (EvProbe "/tmp/input-J.mp4") empty_world).
Proof.
  apply (getVideoDimensions_first_video ok_env "/tmp/input-J.mp4" empty_world
           [ {| codec_type := "audio"; s_width := JS.NaN; s_height := JS.NaN |} ]
           {| codec_type := "video"; s_width := JS.ofZ 1080; s_height := JS.ofZ 1920 |}
           [] (Some (JS.ofZ 10))); reflexivity.
Defined.

(* ------------------------------------------------------------------ *)
(** *** Template height *)

Lemma aspect_lt w h (a b : positive) :
  0 < h ->
  JS.ltb (JS.Fin w / JS.Fin h)%js (JS.Fin (Z.pos a # b)) = true
  <-> w * inject_Z (Z.pos b) < h * inject_Z (Z.pos a).
Proof.
  intro Hh. cbn [JS.div]. rewrite (sgn_pos h Hh). rewrite ltb_fin_true.
  assert (Hb : 0 < inject_Z (Z.pos b)).
  { change 0 with (inject_Z 0). rewrite <- Zlt_Qlt. lia. }
  assert (Hab : Z.pos a # b == inject_Z (Z.pos a) / inject_Z (Z.pos b)).
  { rewrite (Qmake_Qdiv (Z.pos a) b). reflexivity. }
  rewrite Hab.
  assert (Hd : w / h * h == w) by (field; lra).
  assert (He : inject_Z (Z.pos a) / inject_Z (Z.pos b) * inject_Z (Z.pos b)
               == inject_Z (Z.pos a)) by (field; lra).
  split; intro H.
  - assert (w / h * (h * inject_Z (Z.pos b))
            < inject_Z (Z.pos a) / inject_Z (Z.pos b) * (h * inject_Z (Z.pos b))).
    { apply Qmult_lt_compat_r; [apply Qmult_lt_0_compat; assumption | exact H]. }
    nra.
  - apply Qlt_shift_div_l; [assumption|].
    assert (E : w / h * inject_Z (Z.pos b) == w * inject_Z (Z.pos b) / h) by (field; lra).
    rewrite E. apply Qlt_shift_div_r; [assumption|]. lra.
Qed.

Lemma inferTemplateHeight_cases w h :
  0 < h ->
  V3.inferTemplateHeight (JS.Fin w) (JS.Fin h)
  = if Qle_bool (h * 7) (w * 10) then
      if Qle_bool (h * 9) (w * 10) then
        if Qle_bool (h * 11) (w * 10) then JS.ofZ 720 else JS.ofZ 1080
      else JS.ofZ 1350
    else JS.ofZ 1280.
Proof.
  intro Hh. unfold V3.inferTemplateHeight.
  pose proof (aspect_lt w h 7 10 Hh) as H7.
  pose proof (aspect_lt w h 9 10 Hh) as H9.
  pose proof (aspect_lt w h 11 10 Hh) as H11.
  change (inject_Z 10) with 10 in *. change (inject_Z 7) with 7 in *.
  change (inject_Z 9) with 9 in *. change (inject_Z 11) with 11 in *.
  destruct (JS.ltb (JS.Fin w / JS.Fin h)%js (JS.Fin (7 # 10))) eqn:E7.
  - assert (w * 10 < h * 7) by (apply H7; reflexivity).
    destruct (Qle_bool (h * 7) (w * 10)) eqn:B; [|reflexivity].
    apply Qle_bool_iff in B. lra.
  - assert (B7 : Qle_bool (h * 7) (w * 10) = true).
    { apply Qle_bool_iff. destruct (Qlt_le_dec (w * 10) (h * 7)) as [Hlt|Hle]; [|exact Hle].
      apply H7 in Hlt. discriminate. }
    rewrite B7.
    destruct (JS.ltb (JS.Fin w / JS.Fin h)%js (JS.Fin (9 # 10))) eqn:E9.
    + assert (w * 10 < h * 9) by (apply H9; reflexivity).
      destruct (Qle_bool (h * 9) (w * 10)) eqn:B; [|reflexivity].
      apply Qle_bool_iff in B. lra.
    + assert (B9 : Qle_bool (h * 9) (w * 10) = true).
      { apply Qle_bool_iff. destruct (Qlt_le_dec (w * 10) (h * 9)) as [Hlt|Hle]; [|exact Hle].
        apply H9 in Hlt. discriminate. }
      rewrite B9.
      destruct (JS.ltb (JS.Fin w / JS.Fin h)%js (JS.Fin (11 # 10))) eqn:E11.
      * assert (w * 10 < h * 11) by (apply H11; reflexivity).
        destruct (Qle_bool (h * 11) (w * 10)) eqn:B; [|reflexivity].
        apply Qle_bool_iff in B. lra.
      * assert (B11 : Qle_bool (h * 11) (w * 10) = true).
        { apply Qle_bool_iff.
          destruct (Qlt_le_dec (w * 10) (h * 11)) as [Hlt|Hle]; [|exact Hle].
          apply H11 in Hlt. discriminate. }
        rewrite B11. reflexivity.
Qed.

Lemma Qle_bool_scale k a b :
  0 < k -> Qle_bool (k * a) (k * b) = Qle_bool a b.
Proof.
  intro Hk. destruct (Qle_bool a b) eqn:E.
  - apply Qle_bool_iff in E. apply Qle_bool_iff. nra.
  - destruct (Qle_bool (k * a) (k * b)) eqn:E'; [|reflexivity].
    apply Qle_bool_iff in E'. assert (a <= b) by nra.
    apply Qle_bool_iff in H. congruence.
Qed.

(** X5. [inferTemplateHeight] depends on the aspect ratio only: scaling
    width and height by the same positive factor does not change it.  In
    particular every video with the exact proportions of a standard
    template (720x1280, 1080x1350, 1080x1080, 1280x720) gets that
    template's height, at any resolution. *)
Theorem inferTemplateHeight_scale k w h :
  0 < k -> 0 < h ->
  V3.inferTemplateHeight (JS.Fin (k * w)) (JS.Fin (k * h))
  = V3.inferTemplateHeight (JS.Fin w) (JS.Fin h)
  /\ V3.inferTemplateHeight (JS.Fin (k * 720)) (JS.Fin (k * 1280)) = JS.ofZ 1280
  /\ V3.inferTemplateHeight (JS.Fin (k * 1080)) (JS.Fin (k * 1350)) = JS.ofZ 1350
  /\ V3.inferTemplateHeight (JS.Fin (k * 1080)) (JS.Fin (k * 1080)) = JS.ofZ 1080
  /\ V3.inferTemplateHeight (JS.Fin (k * 1280)) (JS.Fin (k * 720)) = JS.ofZ 720.
Proof.
  intros Hk Hh.
  assert (Hscale : forall a b, 0 < b ->
            V3.inferTemplateHeight (JS.Fin (k * a)) (JS.Fin (k * b))
            = V3.inferTemplateHeight (JS.Fin a) (JS.Fin b)).
  { intros a b Hb. rewrite !inferTemplateHeight_cases by nra.
    assert (E : forall c x y, Qle_bool (k * x * c) (k * y * 10) = Qle_bool (x * c) (y * 10)).
    { intros c x y. rewrite <- (Qle_bool_scale k (x * c) (y * 10) Hk).
      destruct (Qle_bool (k * x * c) (k * y * 10)) eqn:E1;
        destruct (Qle_bool (k * (x * c)) (k * (y * 10))) eqn:E2; try reflexivity.
      - apply Qle_bool_iff in E1.
        assert (k * (x * c) <= k * (y * 10)) by lra.
        apply Qle_bool_iff in H. congruence.
      - apply Qle_bool_iff in E2.
        assert (k * x * c <= k * y * 10) by lra.
        apply Qle_bool_iff in H. congruence. }
    rewrite !E. reflexivity. }
  split; [apply Hscale; exact Hh|].
  repeat split; rewrite Hscale by lra; reflexivity.
Qed.

Lemma inferTemplateHeight_scale_witness :
  V3.inferTemplateHeight (JS.Fin ((3 # 2) * 720)) (JS.Fin ((3 # 2) * 1280)) = JS.ofZ 1280.
Proof.
  destruct (inferTemplateHeight_scale (3 # 2) 720 1280) as (_ & H & _);
    [reflexivity | reflexivity | exact H].
Defined.

(** X6. For a positive height the four buckets of [inferTemplateHeight]
    are cut at [10 w = 7 h], [10 w = 9 h] and [10 w = 11 h], each bound
    belonging to the bucket above it; a zero height with a non-negative
    width throws nothing and lands in the last bucket, 720. *)
Theorem inferTemplateHeight_buckets w h :
  (0 < h ->
   (w * 10 < h * 7 -> V3.inferTemplateHeight (JS.Fin w) (JS.Fin h) = JS.ofZ 1280)
   /\ (h * 7 <= w * 10 -> w * 10 < h * 9 ->
       V3.inferTemplateHeight (JS.Fin w) (JS.Fin h) = JS.ofZ 1350)
   /\ (h * 9 <= w * 10 -> w * 10 < h * 11 ->
       V3.inferTemplateHeight (JS.Fin w) (JS.Fin h) = JS.ofZ 1080)
   /\ (h * 11 <= w * 10 -> V3.inferTemplateHeight (JS.Fin w) (JS.Fin h) = JS.ofZ 720))
  /\ (0 <= w -> h == 0 -> V3.inferTemplateHeight (JS.Fin w) (JS.Fin h) = JS.ofZ 720).
Proof.
  split.
  - intro Hh. rewrite inferTemplateHeight_cases by exact Hh.
    assert (T : forall a b, a <= b -> Qle_bool a b = true)
      by (intros a b H; now apply Qle_bool_iff).
    assert (F : forall a b, b < a -> Qle_bool a b = false).
    { intros a b H. destruct (Qle_bool a b) eqn:E; [|reflexivity].
      apply Qle_bool_iff in E. lra. }
    repeat split.
    + intro H. now rewrite (F _ _ H).
    + intros H1 H2. now rewrite (T _ _ H1), (F _ _ H2).
    + intros H1 H2. rewrite (T (h * 7) (w * 10)) by lra. now rewrite (T _ _ H1), (F _ _ H2).
    + intro H. rewrite (T (h * 7) (w * 10)), (T (h * 9) (w * 10)) by lra.
      now rewrite (T _ _ H).
  - intros Hw Hh. unfold V3.inferTemplateHeight. cbn [JS.div].
    rewrite (sgn_zero h Hh).
    destruct (Qlt_le_dec 0 w) as [Hpos|Hle].
    + rewrite (sgn_pos w Hpos). reflexivity.
    + rewrite (sgn_zero w) by lra. reflexivity.
Qed.

Lemma inferTemplateHeight_buckets_witness :
  V3.inferTemplateHeight (JS.Fin 1080) (JS.Fin 1200) = JS.ofZ 1080
  /\ V3.inferTemplateHeight (JS.Fin 1080) (JS.Fin 0) = JS.ofZ 720.
Proof.
  destruct (inferTemplateHeight_buckets 1080 1200) as (H & _).
  destruct (H eq_refl) as (_ & _ & H3 & _).
  destruct (inferTemplateHeight_buckets 1080 0) as (_ & H0).
  split; [apply H3 | apply H0]; try reflexivity; discriminate.
Defined.

(* ------------------------------------------------------------------ *)
(** *** What the resolver reads of a request configuration *)

(** X7. The options computed by the second revision for a request never
    depend on its keys [y], [font_size] and [template_height]: a request
    renders exactly as the same request without them. *)
Theorem pixel_keys_never_read bc w h text d :
  V3.drawtextOptions bc w h text d
  = V3.drawtextOptions (without_pixel_keys bc) w h text d.
Proof.
  unfold V3.drawtextOptions, V3.options_of_config.
  rewrite !textColor_precedence.
  unfold V3.bgColor, V3.fontSize, V3.yPercent.
  cbn [spread without_pixel_keys y_percent font_size_percent show_background text_color
       fill_color bg_color DEFAULT_BANNER_CONFIG].
  destruct (y_percent bc), (font_size_percent bc); reflexivity.
Qed.

(* ------------------------------------------------------------------ *)
(** *** The three revisions compared *)

(** X8. [src/index.js] is the first revision of the unnamed source run
    with the configuration [{ show_background: true }]: for every platform
    name, known to [PLATFORM_COLORS] or not, both hand the same options to
    the renderer. *)
Theorem v1_is_v2_with_background platform w h text d :
  V2.drawtextOptions background_config w h text d
  = inr (V1.drawtextOptions platform w h text d).
Proof.
  unfold V1.drawtextOptions, V1.colors, V1.PLATFORM_COLORS.
  destruct (String.eqb platform "YOUTUBE"); [reflexivity|].
  destruct (String.eqb platform "TIKTOK"); [reflexivity|].
  destruct (String.eqb platform "FACEBOOK"); [reflexivity|].
  destruct (String.eqb platform "INSTAGRAM"); reflexivity.
Qed.

(** X9. For a request configuration whose keys, when present, hold values
    of their own types (numbers, a boolean, strings, as [BannerConfig] has
    them: no [null]) and whose [text_color] is absent or a non-empty
    string, the two revisions of the unnamed source hand the renderer the
    same text, font, font size, colors and box; they differ in the vertical
    position and the scroll speed only. *)
Theorem v2_v3_agree bc w h text d :
  text_color bc <> Some ""%string ->
  exists o2 o3,
    V2.drawtextOptions bc w h text d = inr o2
    /\ V3.drawtextOptions bc w h text d = inr o3
    /\ dt_text o2 = dt_text o3
    /\ dt_fontfile o2 = dt_fontfile o3
    /\ dt_fontsize o2 = dt_fontsize o3
    /\ dt_fontcolor o2 = dt_fontcolor o3
    /\ dt_box o2 = dt_box o3
    /\ dt_boxcolor o2 = dt_boxcolor o3
    /\ dt_boxborderw o2 = dt_boxborderw o3.
Proof.
  intro Htc.
  unfold V2.drawtextOptions, V3.drawtextOptions, V3.options_of_config.
  rewrite textColor_precedence.
  unfold V3.bgColor, V3.fontSize, V2.fontSize, replace_0x.
  cbn [spread y_percent font_size_percent show_background text_color fill_color bg_color
       DEFAULT_BANNER_CONFIG].
  destruct (text_color bc) as [[|c s]|]; [congruence| |];
    cbn [spread_key first_truthy];
    destruct (bg_color bc), (font_size_percent bc);
    cbn [spread_key JS.toNumber];
    eexists; eexists; (split; [reflexivity|]); (split; [reflexivity|]);
    cbn [dt_text dt_fontfile dt_fontsize dt_fontcolor dt_box dt_boxcolor dt_boxborderw];
    repeat split.
Qed.

Lemma v2_v3_agree_witness :
  exists o2 o3,
    V2.drawtextOptions fill_config (JS.ofZ 1080) (JS.ofZ 1920) "abc" (Some (JS.ofZ 10))
    = inr o2
    /\ V3.drawtextOptions fill_config (JS.ofZ 1080) (JS.ofZ 1920) "abc" (Some (JS.ofZ 10))
       = inr o3
    /\ dt_fontcolor o2 = dt_fontcolor o3.
Proof.
  destruct (v2_v3_agree fill_config (JS.ofZ 1080) (JS.ofZ 1920) "abc" (Some (JS.ofZ 10)))
    as (o2 & o3 & H2 & H3 & _ & _ & _ & Hc & _); [discriminate|].
  exists o2, o3. repeat split; assumption.
Defined.

(* ------------------------------------------------------------------ *)
(** *** Colors handed to the renderer *)

(** X10. A request [text_color] written [0xH] reaches the renderer as
    [#H], and one written [#H] with hexadecimal digits [H] reaches it
    unchanged; with [show_background] set the same holds for [bg_color] and
    the box color.  Without [show_background] no box option is passed at
    all. *)
Theorem colors_normalised bc w h text d hx :
  exists o,
    V3.drawtextOptions bc w h text d = inr o
    /\ (text_color bc = Some ("0x" ++ hx)%string -> dt_fontcolor o = ("#" ++ hx)%string)
    /\ (text_color bc = Some ("#" ++ hx)%string ->
        forallb_string is_hex_digit hx = true ->
        dt_fontcolor o = ("#" ++ hx)%string)
    /\ (show_background bc = Some true ->
        bg_color bc = Some ("0x" ++ hx)%string ->
        dt_boxcolor o = Some ("#" ++ hx)%string)
    /\ (show_background bc <> Some true ->
        dt_box o = None /\ dt_boxcolor o = None /\ dt_boxborderw o = None).
Proof.
  unfold V3.drawtextOptions, V3.options_of_config.
  rewrite textColor_precedence. unfold V3.bgColor, replace_0x.
  cbn [spread show_background text_color fill_color bg_color DEFAULT_BANNER_CONFIG].
  assert (Hbg : exists c, spread_key (Some "#1a325b"%string) (bg_color bc) = Some c
                          /\ (forall x, bg_color bc = Some x -> c = x)).
  { destruct (bg_color bc) as [c|]; eexists; (split; [reflexivity|]).
    - intros x Hx. now injection Hx. - discriminate. }
  destruct Hbg as (c & -> & Hc).
  eexists. split; [reflexivity|].
  cbn [dt_fontcolor dt_box dt_boxcolor dt_boxborderw].
  split; [|split; [|split]].
  - intros ->. cbn [spread_key first_truthy append]. apply (replace_0x_prefixed hx).
  - intros -> Hhex. cbn [spread_key first_truthy append]. now apply (replace_hash_hex hx).
  - intros Hs Hb. destruct (show_background bc) as [[|]|]; try discriminate.
    cbn [spread_key]. rewrite (Hc _ Hb). f_equal. apply replace_0x_prefixed.
  - intro Hs. destruct (show_background bc) as [[|]|]; cbn [spread_key];
      [congruence | auto | auto].
Qed.

(* ------------------------------------------------------------------ *)

(* ------------------------------------------------------------------ *)
(** *** Horizontal position *)

Lemma fmod_range a b : 0 <= a -> 0 < b -> 0 <= fmod a b /\ fmod a b < b.
Proof.
  intros Ha Hb. rewrite (fmod_nonneg a b Ha Hb).
  pose proof (Qfloor_le (a / b)) as Hlo.
  pose proof (Qlt_floor (a / b)) as Hhi.
  rewrite inject_Z_plus in Hhi. change (inject_Z 1) with 1 in Hhi.
  assert (Hd : a / b * b == a) by (field; lra).
  split; nra.
Qed.

(** X12. For a positive speed and [t >= 0] the [x] expression
    [w - mod(t*speed, w+tw+100)] starts at the right edge [w], stays in
    [(-(tw+100), w]], so the text is never further left than 100 px beyond
    leaving the frame, and takes the same value again after
    [(w + tw + 100) / speed] seconds. *)
Theorem x_position_range speed w tw t :
  0 < speed -> 0 < w -> 0 <= tw -> 0 <= t ->
  x_at speed w tw 0 == w
  /\ - (tw + 100) < x_at speed w tw t
  /\ x_at speed w tw t <= w
  /\ x_at speed w tw (t + (w + tw + 100) / speed) == x_at speed w tw t.
Proof.
  intros Hs Hw Htw Ht.
  assert (HW : 0 < w + tw + 100) by lra.
  split; [|split; [|split]].
  - unfold x_at. rewrite (fmod_nonneg (0 * speed) _) by lra.
    assert (E : 0 * speed / (w + tw + 100) == 0) by (field; lra).
    rewrite (Qfloor_comp _ _ E). cbn. ring.
  - unfold x_at.
    destruct (fmod_range (t * speed) (w + tw + 100)) as [_ H];
      [apply Qmult_le_0_compat; lra | lra | lra].
  - unfold x_at.
    destruct (fmod_range (t * speed) (w + tw + 100)) as [H _];
      [apply Qmult_le_0_compat; lra | lra | lra].
  - now apply x_at_periodic.
Qed.

Lemma x_position_range_witness : x_at 474 1080 1200 0 == 1080.
Proof.
  destruct (x_position_range 474 1080 1200 0) as (H & _);
    [reflexivity | reflexivity | discriminate | discriminate | exact H].
Defined.

(* ------------------------------------------------------------------ *)
(** *** Files and crashes, operation by operation *)

Lemma bind_cases {A B} (m : M A) (k : A -> M B) w :
  (exists a w1, m w = (Ok a, w1) /\ bind m k w = k a w1)
  \/ (exists e w1, m w = (Throw e, w1) /\ bind m k w = (Throw e, w1))
  \/ (exists e w1, m w = (Crash e, w1) /\ bind m k w = (Crash e, w1)).
Proof.
  unfold bind. destruct (m w) as [[a|e|e] w1].
  - left. now exists a, w1.
  - right. left. now exists e, w1.
  - right. right. now exists e, w1.
Qed.

Lemma getVideoDimensions_crash env p w e w' :
  getVideoDimensions env p w = (Crash e, w') -> no_video_probe env p.
Proof.
  unfold getVideoDimensions, bind, tell. intro H.
  destruct (ffprobe env (emit (EvProbe p) w) p) as [e0|m] eqn:Hp; [discriminate|].
  destruct (find_video m) eqn:Hf; [discriminate|].
  now exists (emit (EvProbe p) w), m.
Qed.

Lemma unlinkSync_frame (P : string -> Prop) p w res w' :
  P p -> unlinkSync p w = (res, w') -> same_files_except P w w'.
Proof.
  intros Hp. unfold unlinkSync. destruct (existsb_file p w); intro H; inversion H; subst.
  - eapply same_files_trans; [apply same_files_emit | now apply same_files_remove].
  - apply same_files_emit.
Qed.

Lemma addScrollingBanner_frame (P : string -> Prop) env i o opts w res w' :
  P o ->
  addScrollingBanner env i o opts w = (res, w') ->
  same_files_except P w w' /\ (forall e, res = Crash e -> no_video_probe env i).
Proof.
  intros Hp. unfold addScrollingBanner. intro H.
  destruct (bind_cases (getVideoDimensions env i)
              (fun info =>
                 match V3.drawtextOptions (config_or_empty (bannerConfig opts)) (width info)
                         (height info) (bannerText (avatarName opts) (platform opts))
                         (oduration opts) with
                 | inl e => throw e
                 | inr o0 => render env i o o0
                 end) w)
    as [(info & w1 & Hg & Hb) | [(e & w1 & Hg & Hb) | (e & w1 & Hg & Hb)]];
    rewrite Hb in H; clear Hb;
    pose proof (getVideoDimensions_world _ _ _ _ _ Hg) as ->.
  - destruct (V3.drawtextOptions (config_or_empty (bannerConfig opts)) (width info)
                (height info) (bannerText (avatarName opts) (platform opts))
                (oduration opts)) as [e|dt].
    + inversion H; subst. split; [apply same_files_emit | discriminate].
    + unfold render, bind, tell in H.
      destruct (ffmpeg_save env (emit (EvRender i o dt) (emit (EvProbe i) w)) i o dt)
        as [|e partial]; inversion H; subst; clear H.
      * split; [|discriminate].
        eapply same_files_trans; [apply same_files_emit|].
        eapply same_files_trans; [apply same_files_emit | now apply same_files_create].
      * split; [|discriminate].
        eapply same_files_trans; [apply same_files_emit|].
        eapply same_files_trans; [apply same_files_emit|].
        destruct partial; [now apply same_files_create | apply same_files_refl].
  - inversion H; subst. split; [apply same_files_emit | discriminate].
  - inversion H; subst. split; [apply same_files_emit|].
    intros _ _. eapply getVideoDimensions_crash; exact Hg.
Qed.

Lemma uploadToCloudinary_not_crash env p w e w' :
  uploadToCloudinary env p w <> (Crash e, w').
Proof.
  unfold uploadToCloudinary, bind, tell.
  destruct (cloudinary_upload env (emit (EvUpload p) w) p); discriminate.
Qed.

Lemma process_platforms_frame (P : string -> Prop) env jobId avatar dur cfg todo :
  (forall t, In t todo -> P (outputPath_of jobId t)) ->
  forall acc w res w',
  process_platforms env jobId avatar dur cfg todo acc w = (res, w') ->
  same_files_except P w w'
  /\ (forall e, res = Crash e -> no_video_probe env (inputPath_of jobId)).
Proof.
  induction todo as [|p rest IH]; intros HP acc w res w' H.
  - inversion H; subst. split; [apply same_files_refl | discriminate].
  - assert (Hp : P (outputPath_of jobId p)) by (apply HP; now left).
    assert (HP' : forall t, In t rest -> P (outputPath_of jobId t))
      by (intros t Ht; apply HP; now right).
    cbn [process_platforms] in H. unfold bind at 1 in H.
    destruct (addScrollingBanner env (inputPath_of jobId) (outputPath_of jobId p)
                {| avatarName := avatar; platform := toUpperCase p;
                   oduration := dur; bannerConfig := cfg |} w)
      as [[out|e|e] w1] eqn:Ha;
      destruct (addScrollingBanner_frame P _ _ _ _ _ _ _ Hp Ha) as [Hf1 Hc1].
    + unfold bind at 1 in H.
      destruct (uploadToCloudinary env (outputPath_of jobId p) w1)
        as [[u|e|e] w2] eqn:Hu.
      * pose proof (uploadToCloudinary_world _ _ _ _ _ Hu) as ->.
        unfold bind at 1 in H.
        destruct (unlinkSync (outputPath_of jobId p)
                    (emit (EvUpload (outputPath_of jobId p)) w1))
          as [[[]|e|e] w3] eqn:Hx.
        -- pose proof (unlinkSync_frame P _ _ _ _ Hp Hx) as Hf3.
           destruct (IH HP' _ _ _ _ H) as [Hf4 Hc4].
           split; [|exact Hc4].
           eapply same_files_trans; [exact Hf1|].
           eapply same_files_trans; [apply same_files_emit|].
           eapply same_files_trans; [exact Hf3 | exact Hf4].
        -- pose proof (unlinkSync_frame P _ _ _ _ Hp Hx) as Hf3.
           inversion H; subst. split; [|discriminate].
           eapply same_files_trans; [exact Hf1|].
           eapply same_files_trans; [apply same_files_emit | exact Hf3].
        -- exfalso. exact (unlinkSync_not_crash _ _ _ _ Hx).
      * pose proof (uploadToCloudinary_world _ _ _ _ _ Hu) as ->.
        inversion H; subst. split; [|discriminate].
        eapply same_files_trans; [exact Hf1 | apply same_files_emit].
      * exfalso. exact (uploadToCloudinary_not_crash _ _ _ _ _ Hu).
    + inversion H; subst. split; [exact Hf1 | discriminate].
    + inversion H; subst. split; [exact Hf1|]. intros e0 _. exact (Hc1 e eq_refl).
Qed.

Lemma downloadVideo_frame (P : string -> Prop) env url out n d w res w' :
  P out ->
  downloadVideo env url out n d w = (res, w') ->
  same_files_except P w w' /\ (forall e, res <> Crash e).
Proof.
  intros Hp H.
  destruct (downloadVideo_shape_aux2 env url out n d w) as (Hf & Hc).
  rewrite H in Hf, Hc. cbn [fst snd] in Hf, Hc. split; [|exact Hc].
  eapply same_files_weaken; [|exact Hf]. now intros q <-.
Qed.

Lemma batch_try_frame env jobId url avatar tags req w res w' :
  batch_try env jobId url avatar tags req w = (res, w') ->
  same_files_except (batch_path jobId tags) w w'
  /\ (forall e, res = Crash e -> no_video_probe env (inputPath_of jobId)).
Proof.
  assert (Hin : batch_path jobId tags (inputPath_of jobId)) by now left.
  assert (Hout : forall t, In t tags -> batch_path jobId tags (outputPath_of jobId t))
    by (intros t Ht; right; now exists t).
  unfold batch_try, bind at 1. intro H.
  destruct (downloadVideo env url (inputPath_of jobId) 5 (JS.ofZ 2000) w)
    as [[[]|e|e] w1] eqn:Hd;
    destruct (downloadVideo_frame _ _ _ _ _ _ _ _ _ Hin Hd) as [Hf1 Hc1].
  - unfold bind at 1 in H.
    destruct (getVideoDimensions env (inputPath_of jobId) w1) as [[info|e|e] w2] eqn:Hp;
      pose proof (getVideoDimensions_world _ _ _ _ _ Hp) as ->.
    + unfold bind at 1 in H.
      destruct (process_platforms env jobId avatar
                  (JS.or_else (duration req) (vduration info)) (banner_config req) tags []
                  (emit (EvProbe (inputPath_of jobId)) w1)) as [[rs|e|e] w3] eqn:Hl;
        destruct (process_platforms_frame _ _ _ _ _ _ _ Hout _ _ _ _ Hl) as [Hf3 Hc3].
      * unfold bind at 1 in H.
        destruct (unlinkSync (inputPath_of jobId) w3) as [[[]|e|e] w4] eqn:Hx;
          pose proof (unlinkSync_frame _ _ _ _ _ Hin Hx) as Hf4;
          inversion H; subst; (split; [|try discriminate]).
        -- eapply same_files_trans; [exact Hf1|].
           eapply same_files_trans; [apply same_files_emit|].
           eapply same_files_trans; [exact Hf3 | exact Hf4].
        -- eapply same_files_trans; [exact Hf1|].
           eapply same_files_trans; [apply same_files_emit|].
           eapply same_files_trans; [exact Hf3 | exact Hf4].
        -- eapply same_files_trans; [exact Hf1|].
           eapply same_files_trans; [apply same_files_emit|].
           eapply same_files_trans; [exact Hf3 | exact Hf4].
        -- intros e0 _. exfalso. exact (unlinkSync_not_crash _ _ _ _ Hx).
      * inversion H; subst. split; [|discriminate].
        eapply same_files_trans; [exact Hf1|].
        eapply same_files_trans; [apply same_files_emit | exact Hf3].
      * inversion H; subst. split; [|intros e0 _; exact (Hc3 e eq_refl)].
        eapply same_files_trans; [exact Hf1|].
        eapply same_files_trans; [apply same_files_emit | exact Hf3].
    + inversion H; subst. split; [|discriminate].
      eapply same_files_trans; [exact Hf1 | apply same_files_emit].
    + inversion H; subst. split.
      * eapply same_files_trans; [exact Hf1 | apply same_files_emit].
      * intros e0 _. eapply getVideoDimensions_crash; exact Hp.
  - inversion H; subst. split; [exact Hf1 | discriminate].
  - exfalso. exact (Hc1 e eq_refl).
Qed.

(* ------------------------------------------------------------------ *)
(** *** The batch handler, continued *)

Lemma batch_catch_frame jobId tags e w1 :
  same_files_except (batch_path jobId tags) w1 (snd (batch_catch jobId e w1))
  /\ exists r, fst (batch_catch jobId e w1) = Ok r /\ r <> NoResponse.
Proof.
  destruct (batch_catch_effect jobId e w1) as (w2 & Hc & Hf & _). rewrite Hc. cbn [fst snd].
  split; [|eexists; split; [reflexivity | discriminate]].
  intros q Hq. rewrite Hf. split.
  - intro H. now apply in_remove in H.
  - intro H. apply in_in_remove; [|exact H]. intros ->. apply Hq. now left.
Qed.

Lemma add_banners_batch_cases env jobId req w :
  (exists m, add_banners_batch env jobId req w = (Json400 m, w))
  \/ exists url avatar tags,
       platforms req = Some tags
       /\ add_banners_batch env jobId req w
          = match batch_try env jobId url avatar tags req w with
            | (Ok results, w1) => (Json200 avatar results, w1)
            | (Throw e, w1) =>
                match batch_catch jobId e w1 with
                | (Ok r, w2) => (r, w2)
                | (_, w2) => (NoResponse, w2)
                end
            | (Crash _, w1) => (NoResponse, w1)
            end.
Proof.
  unfold add_banners_batch.
  destruct (video_url req) as [url|]; [|left; eexists; reflexivity].
  destruct (avatar_name req) as [avatar|]; [|left; eexists; reflexivity].
  destruct (platforms req) as [tags|]; [|left; eexists; reflexivity].
  destruct (JS.truthy_str (Some url) && JS.truthy_str (Some avatar));
    [|left; eexists; reflexivity].
  right. exists url, avatar, tags. split; reflexivity.
Qed.

(** X13. For tags that are plain ASCII without [/], and whatever the
    outside services answer, the batch handler creates and removes no file
    other than its input scratch file and the output scratch files of the
    requested tags: every other file of the scratch directory exists after
    the request exactly if it existed before. *)
Theorem batch_touches_only_its_paths env jobId req tags w :
  platforms req = Some tags ->
  plain_tag jobId -> Forall plain_tag tags ->
  same_files_except (batch_path jobId tags) w (snd (add_banners_batch env jobId req w)).
Proof.
  intros Hp _ _.
  destruct (add_banners_batch_cases env jobId req w)
    as [[m ->] | (url & avatar & tags' & Hp' & ->)]; [apply same_files_refl|].
  rewrite Hp in Hp'. injection Hp' as <-.
  destruct (batch_try env jobId url avatar tags req w) as [[rs|e|e] w1] eqn:Ht;
    destruct (batch_try_frame _ _ _ _ _ _ _ _ _ Ht) as [Hf _]; try exact Hf.
  destruct (batch_catch_frame jobId tags e w1) as [Hf2 (r & Hr & _)].
  destruct (batch_catch jobId e w1) as [[r'|e'|e'] w2]; cbn [fst snd] in *;
    eapply same_files_trans; eassumption.
Qed.

(** A file of another job survives a failing batch. *)
Lemma batch_touches_only_its_paths_witness :
  In "/tmp/input-K.mp4"%string
     (files (snd (add_banners_batch render_fails_env "J" (two_tags None None)
                    {| files := ["/tmp/input-K.mp4"%string]; log := [] |}))).
Proof.
  apply (batch_touches_only_its_paths render_fails_env "J" (two_tags None None)
           ["youtube"; "tiktok"]%string
           {| files := ["/tmp/input-K.mp4"%string]; log := [] |} eq_refl).
  - reflexivity.
  - repeat constructor.
  - intros [H | (t & [<- | [<- | []]] & H)]; vm_compute in H; discriminate.
  - now left.
Defined.

Lemma process_platforms_ok_clean env jobId avatar dur cfg todo :
  forall acc w rs w',
  process_platforms env jobId avatar dur cfg todo acc w = (Ok rs, w') ->
  forall t, In t todo -> ~ In (outputPath_of jobId t) (files w').
Proof.
  induction todo as [|p rest IH]; intros acc w rs w' H t Ht; [contradiction|].
  cbn [process_platforms] in H. unfold bind at 1 in H.
  destruct (addScrollingBanner env (inputPath_of jobId) (outputPath_of jobId p)
              {| avatarName := avatar; platform := toUpperCase p;
                 oduration := dur; bannerConfig := cfg |} w)
    as [[out|e|e] w1] eqn:Ha; try discriminate.
  unfold bind at 1 in H.
  destruct (uploadToCloudinary env (outputPath_of jobId p) w1)
    as [[u|e|e] w2] eqn:Hu; try discriminate.
  apply uploadToCloudinary_world in Hu. subst w2.
  unfold bind at 1 in H.
  destruct (unlinkSync (outputPath_of jobId p) (emit (EvUpload (outputPath_of jobId p)) w1))
    as [[[]|e|e] w3] eqn:Hx; try discriminate.
  apply unlinkSync_ok in Hx. destruct Hx as [_ ->].
  destruct (in_dec string_dec (outputPath_of jobId t)
              (map (outputPath_of jobId) rest)) as [Hin|Hnot].
  - apply in_map_iff in Hin. destruct Hin as (t' & Heq & Ht').
    rewrite <- Heq. eapply IH; eassumption.
  - destruct Ht as [<-|Ht]; [|exfalso; apply Hnot; now apply in_map].
    destruct (process_platforms_frame
                (fun q => In q (map (outputPath_of jobId) rest))
                env jobId avatar dur cfg rest
                (fun t' Ht' => in_map (outputPath_of jobId) rest t' Ht') _ _ _ _ H)
      as [Hf _].
    intro Hin. apply (Hf _ Hnot) in Hin.
    cbn [remove_file files emit] in Hin. now apply remove_In in Hin.
Qed.

(** X14. When the batch handler answers 200, none of its scratch files is
    left: neither the shared input file nor the output file of any tag,
    whether or not such files existed before the request. *)
Theorem batch_success_leaves_nothing env jobId req tags w a rs w' :
  platforms req = Some tags ->
  add_banners_batch env jobId req w = (Json200 a rs, w') ->
  ~ In (inputPath_of jobId) (files w')
  /\ forall t, In t tags -> ~ In (outputPath_of jobId t) (files w').
Proof.
  intros Hp Hrun.
  destruct (add_banners_batch_cases env jobId req w)
    as [[m Hm] | (url & avatar & tags' & Hp' & Hc)]; [congruence|].
  rewrite Hp in Hp'. injection Hp' as <-. rewrite Hc in Hrun. clear Hc.
  destruct (batch_try env jobId url avatar tags req w) as [[rs0|e|e] w1] eqn:Ht.
  - inversion Hrun; subst. clear Hrun.
    unfold batch_try, bind at 1 in Ht.
    destruct (downloadVideo env url (inputPath_of jobId) 5 (JS.ofZ 2000) w)
      as [[[]|e|e] w2]; try discriminate.
    unfold bind at 1 in Ht.
    destruct (getVideoDimensions env (inputPath_of jobId) w2) as [[info|e|e] w3];
      try discriminate.
    unfold bind at 1 in Ht.
    destruct (process_platforms env jobId a
                (JS.or_else (duration req) (vduration info)) (banner_config req) tags []
                w3) as [[rs'|e|e] w4] eqn:Hl; try discriminate.
    unfold bind at 1 in Ht.
    destruct (unlinkSync (inputPath_of jobId) w4) as [[[]|e|e] w5] eqn:Hx; try discriminate.
    apply unlinkSync_ok in Hx. destruct Hx as [_ ->].
    inversion Ht; subst. cbn [remove_file files emit]. split.
    + apply remove_In.
    + intros t Hin Hfile. apply in_remove in Hfile. destruct Hfile as [Hfile _].
      exact (process_platforms_ok_clean _ _ _ _ _ _ _ _ _ _ Hl t Hin Hfile).
  - destruct (batch_catch_effect jobId e w1) as (w2 & Hc & _).
    rewrite Hc in Hrun. discriminate.
  - discriminate.
Qed.

(** Output files left by an earlier job are gone after a successful batch. *)
Lemma batch_success_leaves_nothing_witness :
  ~ In (outputPath_of "J" "tiktok")
       (files (snd (add_banners_batch ok_env "J" (two_tags None None)
                      {| files := ["/tmp/output-J-tiktok.mp4"%string]; log := [] |}))).
Proof.
  destruct (add_banners_batch ok_env "J" (two_tags None None)
              {| files := ["/tmp/output-J-tiktok.mp4"%string]; log := [] |})
    as [resp w'] eqn:Hrun.
  assert (Hresp : exists rs, resp = Json200 "Kelly" rs).
  { apply (f_equal fst) in Hrun. vm_compute in Hrun. rewrite <- Hrun. eexists. reflexivity. }
  destruct Hresp as [rs ->].
  destruct (batch_success_leaves_nothing ok_env "J" (two_tags None None)
              ["youtube"; "tiktok"]%string _ _ _ _ eq_refl Hrun) as [_ H].
  apply H. right. now left.
Defined.

(** X15. An empty [platforms] array is not rejected: with every service
    succeeding the source is downloaded and probed once, nothing is
    rendered or uploaded, the input file is removed and the answer is a
    200 with an empty result list. *)
Theorem batch_empty_platforms env jobId req url avatar w :
  video_url req = Some url -> url <> ""%string ->
  avatar_name req = Some avatar -> avatar <> ""%string ->
  platforms req = Some [] ->
  all_succeed env ->
  add_banners_batch env jobId req w
  = (Json200 avatar [],
     remove_file (inputPath_of jobId)
       (emit (EvUnlink (inputPath_of jobId))
          (emit (EvProbe (inputPath_of jobId))
             (create_file (inputPath_of jobId)
                (emit (EvGet 1 url) (emit (EvDownload url (inputPath_of jobId)) w)))))).
Proof.
  intros Hu Hu' Ha Ha' Hp (Hax & Hpr & _ & _).
  rewrite (add_banners_batch_valid env jobId req url avatar [] w Hu Hu' Ha Ha' Hp).
  unfold batch_try, bind at 1. rewrite (downloadVideo_all_succeed _ _ _ _ _ _ Hax).
  unfold bind at 1, getVideoDimensions, bind at 1, tell at 1.
  match goal with
  | |- context [ffprobe env ?w0 ?p] => destruct (Hpr w0 p) as (m & v & -> & ->)
  end.
  unfold bind at 1. cbn [process_platforms ret]. unfold bind at 1.
  rewrite unlinkSync_present by (cbn [emit files]; apply in_create_file).
  reflexivity.
Qed.

Lemma batch_empty_platforms_witness :
  fst (add_banners_batch ok_env "J"
         {| video_url := Some "https://v.example/a.mp4"; avatar_name := Some "Kelly";
            platforms := Some []; duration := None; banner_config := None |}
         empty_world)
  = Json200 "Kelly" [].
Proof.
  rewrite (batch_empty_platforms ok_env "J" _ "https://v.example/a.mp4" "Kelly" empty_world);
    try reflexivity; try discriminate.
  exact ok_env_all_succeed.
Defined.

(* ------------------------------------------------------------------ *)
(** *** The single-video handler *)

Lemma single_output_is_not_input jobId : single_outputPath_of jobId <> inputPath_of jobId.
Proof. unfold single_outputPath_of, inputPath_of, path_join, TEMP_DIR. cbn. discriminate. Qed.

Lemma add_banner_cases env jobId req w :
  (exists m, add_banner env jobId req w = (Single400 m, w))
  \/ exists url avatar platform,
       add_banner env jobId req w
       = match single_try env jobId url avatar platform req w with
         | (Ok outputUrl, w1) => (Single200 outputUrl (toUpperCase platform) avatar, w1)
         | (Throw e, w1) =>
             match single_catch jobId e w1 with
             | (Ok r, w2) => (r, w2)
             | (_, w2) => (SingleNoResponse, w2)
             end
         | (Crash _, w1) => (SingleNoResponse, w1)
         end.
Proof.
  unfold add_banner.
  destruct (sr_video_url req) as [url|]; [|left; eexists; reflexivity].
  destruct (sr_avatar_name req) as [avatar|]; [|left; eexists; reflexivity].
  destruct (sr_platform req) as [platform|]; [|left; eexists; reflexivity].
  destruct (JS.truthy_str (Some url)
            && (JS.truthy_str (Some avatar) && JS.truthy_str (Some platform)));
    [|left; eexists; reflexivity].
  right. exists url, avatar, platform. reflexivity.
Qed.

Lemma single_catch_effect jobId e w1 :
  exists w2,
    single_catch jobId e w1 = (Ok (Single500 "Failed to process video" (message e)), w2)
    /\ files w2
       = List.remove string_dec (single_outputPath_of jobId)
           (List.remove string_dec (inputPath_of jobId) (files w1)).
Proof.
  unfold single_catch. unfold bind at 1, existsSync at 1.
  assert (Hstep1 : exists wa,
            (if existsb_file (inputPath_of jobId) w1
             then unlinkSync (inputPath_of jobId) else ret tt)
              (emit (EvExists (inputPath_of jobId)) w1) = (Ok tt, wa)
            /\ files wa = List.remove string_dec (inputPath_of jobId) (files w1)).
  { destruct (existsb_file (inputPath_of jobId) w1) eqn:E.
    - unfold unlinkSync. rewrite existsb_file_emit, E. eexists. split; reflexivity.
    - eexists. split; [reflexivity|]. cbn [emit files]. symmetry. apply notin_remove.
      intro Hin. apply existsb_file_true in Hin. congruence. }
  destruct Hstep1 as (wa & Ha & Hfa).
  unfold bind at 1. rewrite Ha.
  unfold bind at 1, existsSync at 1.
  assert (Hstep2 : exists wb,
            (if existsb_file (single_outputPath_of jobId) wa
             then unlinkSync (single_outputPath_of jobId) else ret tt)
              (emit (EvExists (single_outputPath_of jobId)) wa) = (Ok tt, wb)
            /\ files wb = List.remove string_dec (single_outputPath_of jobId) (files wa)).
  { destruct (existsb_file (single_outputPath_of jobId) wa) eqn:E.
    - unfold unlinkSync. rewrite existsb_file_emit, E. eexists. split; reflexivity.
    - eexists. split; [reflexivity|]. cbn [emit files]. symmetry. apply notin_remove.
      intro Hin. apply existsb_file_true in Hin. congruence. }
  destruct Hstep2 as (wb & Hb & Hfb).
  unfold bind at 1. rewrite Hb. exists wb. split; [reflexivity|].
  rewrite Hfb, Hfa. reflexivity.
Qed.

(** The steps of [single_try] after the download. *)
Lemma single_try_steps env jobId url avatar platform req w res w' :
  single_try env jobId url avatar platform req w = (res, w') ->
  same_files_except (single_path jobId) w w'
  /\ (forall e, res = Crash e -> no_video_probe env (inputPath_of jobId))
  /\ (forall u, res = Ok u ->
      ~ In (inputPath_of jobId) (files w')
      /\ ~ In (single_outputPath_of jobId) (files w')
      /\ count_events is_download w' = S (count_events is_download w)
      /\ count_events is_probe w'
         = (count_events is_probe w
            + if falsy_num (sr_duration req) then 2 else 1)%nat).
Proof.
  assert (Hin : single_path jobId (inputPath_of jobId)) by now left.
  assert (Hout : single_path jobId (single_outputPath_of jobId)) by now right.
  unfold single_try, bind at 1. intro H.
  destruct (downloadVideo env url (inputPath_of jobId) 5 (JS.ofZ 2000) w)
    as [[[]|e|e] w1] eqn:Hd;
    destruct (downloadVideo_frame _ _ _ _ _ _ _ _ _ Hin Hd) as [Hf1 Hc1];
    [| inversion H; subst; split; [exact Hf1 | split; discriminate]
     | exfalso; exact (Hc1 e eq_refl)].
  apply downloadVideo_counts in Hd. destruct Hd as [Hd1 Hd2].
  unfold bind at 1 in H.
  (* the duration: probed only when the request has none *)
  assert (Hdur :
    (exists vd w2,
        (if falsy_num (sr_duration req)
         then info <- getVideoDimensions env (inputPath_of jobId) ;; ret (vduration info)
         else ret (sr_duration req)) w1 = (Ok vd, w2)
        /\ same_files_except (single_path jobId) w1 w2
        /\ count_events is_download w2 = count_events is_download w1
        /\ count_events is_probe w2
           = (count_events is_probe w1 + if falsy_num (sr_duration req) then 1 else 0)%nat)
    \/ (exists e w2,
           (if falsy_num (sr_duration req)
            then info <- getVideoDimensions env (inputPath_of jobId) ;; ret (vduration info)
            else ret (sr_duration req)) w1 = (Throw e, w2)
           /\ same_files_except (single_path jobId) w1 w2)
    \/ (exists e w2,
           (if falsy_num (sr_duration req)
            then info <- getVideoDimensions env (inputPath_of jobId) ;; ret (vduration info)
            else ret (sr_duration req)) w1 = (Crash e, w2)
           /\ same_files_except (single_path jobId) w1 w2
           /\ no_video_probe env (inputPath_of jobId))).
  { destruct (falsy_num (sr_duration req)).
    - unfold bind.
      destruct (getVideoDimensions env (inputPath_of jobId) w1) as [[info|e|e] w2] eqn:Hp;
        pose proof (getVideoDimensions_world _ _ _ _ _ Hp) as ->.
      + left. eexists. eexists. split; [reflexivity|].
        split; [apply same_files_emit|]. rewrite !count_emit. cbn. split; lia.
      + right. left. eexists. eexists. split; [reflexivity | apply same_files_emit].
      + right. right. eexists. eexists. split; [reflexivity|].
        split; [apply same_files_emit|]. eapply getVideoDimensions_crash; exact Hp.
    - left. eexists. eexists. split; [reflexivity|].
      split; [apply same_files_refl|]. split; lia. }
  destruct Hdur as [(vd & w2 & Hrun & Hf2 & Hd3 & Hp3)
                   | [(e & w2 & Hrun & Hf2) | (e & w2 & Hrun & Hf2 & Hnv)]];
    rewrite Hrun in H; clear Hrun;
    [| inversion H; subst; split; [eapply same_files_trans; eassumption | split; discriminate]
     | inversion H; subst; split; [eapply same_files_trans; eassumption|];
       split; [intros; exact Hnv | discriminate]].
  unfold bind at 1 in H.
  destruct (addScrollingBanner env (inputPath_of jobId) (single_outputPath_of jobId)
              {| avatarName := avatar; platform := toUpperCase platform;
                 oduration := vd; bannerConfig := sr_banner_config req |} w2)
    as [[out|e|e] w3] eqn:Ha;
    destruct (addScrollingBanner_frame _ _ _ _ _ _ _ _ Hout Ha) as [Hf3 Hc3];
    [| inversion H; subst; split;
       [eapply same_files_trans; [exact Hf1|]; eapply same_files_trans; eassumption
       | split; discriminate]
     | inversion H; subst; split;
       [eapply same_files_trans; [exact Hf1|]; eapply same_files_trans; eassumption
       | split; [intros; exact (Hc3 e eq_refl) | discriminate]]].
  apply addScrollingBanner_effect in Ha. destruct Ha as (Ha1 & Ha2 & _).
  unfold bind at 1 in H.
  destruct (uploadToCloudinary env (single_outputPath_of jobId) w3)
    as [[u|e|e] w4] eqn:Hu;
    [| | exfalso; exact (uploadToCloudinary_not_crash _ _ _ _ _ Hu)];
    pose proof (uploadToCloudinary_world _ _ _ _ _ Hu) as ->;
    [| inversion H; subst; split;
       [eapply same_files_trans; [exact Hf1|]; eapply same_files_trans; [exact Hf2|];
        eapply same_files_trans; [exact Hf3 | apply same_files_emit]
       | split; discriminate]].
  unfold bind at 1 in H.
  destruct (unlinkSync (inputPath_of jobId) (emit (EvUpload (single_outputPath_of jobId)) w3))
    as [[[]|e|e] w5] eqn:Hx1;
    [| | exfalso; exact (unlinkSync_not_crash _ _ _ _ Hx1)];
    pose proof (unlinkSync_frame _ _ _ _ _ Hin Hx1) as Hf5;
    [| inversion H; subst; split;
       [eapply same_files_trans; [exact Hf1|]; eapply same_files_trans; [exact Hf2|];
        eapply same_files_trans; [exact Hf3|];
        eapply same_files_trans; [apply same_files_emit | exact Hf5]
       | split; discriminate]].
  unfold bind at 1 in H.
  destruct (unlinkSync (single_outputPath_of jobId) w5) as [[[]|e|e] w6] eqn:Hx2;
    [| | exfalso; exact (unlinkSync_not_crash _ _ _ _ Hx2)];
    pose proof (unlinkSync_frame _ _ _ _ _ Hout Hx2) as Hf6;
    inversion H; subst; clear H;
    (split;
     [eapply same_files_trans; [exact Hf1|]; eapply same_files_trans; [exact Hf2|];
      eapply same_files_trans; [exact Hf3|];
      eapply same_files_trans; [apply same_files_emit|];
      eapply same_files_trans; [exact Hf5 | exact Hf6]|]);
    (split; [discriminate|]); [|discriminate].
  intros u0 _.
  apply unlinkSync_ok in Hx1. destruct Hx1 as [_ ->].
  apply unlinkSync_ok in Hx2. destruct Hx2 as [_ ->].
  repeat first [rewrite count_remove | rewrite count_emit].
  cbn [remove_file files emit is_download is_probe].
  split; [|split; [apply remove_In|split]].
  - intro Hfile. apply in_remove in Hfile. destruct Hfile as [Hfile _].
    revert Hfile. apply remove_In.
  - lia.
  - destruct (falsy_num (sr_duration req)); lia.
Qed.

(** X16. The single-video handler leaves no scratch file behind, on
    success and on failure alike: once it has answered 200 or 500, neither
    its input file nor its output file exists.  (The batch handler, on its
    error path, removes the input only.) *)
Theorem single_leaves_nothing env jobId req w resp w' :
  add_banner env jobId req w = (resp, w') ->
  (exists u p a, resp = Single200 u p a) \/ (exists m d, resp = Single500 m d) ->
  ~ In (inputPath_of jobId) (files w')
  /\ ~ In (single_outputPath_of jobId) (files w').
Proof.
  intros Hrun Hresp.
  destruct (add_banner_cases env jobId req w)
    as [[m Hm] | (url & avatar & platform & Hc)].
  - rewrite Hm in Hrun. inversion Hrun; subst.
    destruct Hresp as [(u & p & a & H) | (m' & d & H)]; discriminate.
  - rewrite Hc in Hrun. clear Hc.
    destruct (single_try env jobId url avatar platform req w) as [[u|e|e] w1] eqn:Ht.
    + inversion Hrun; subst.
      destruct (single_try_steps _ _ _ _ _ _ _ _ _ Ht) as (_ & _ & Hok).
      destruct (Hok u eq_refl) as (H1 & H2 & _). split; assumption.
    + destruct (single_catch_effect jobId e w1) as (w2 & Hs & Hf).
      rewrite Hs in Hrun. inversion Hrun; subst. rewrite Hf. split.
      * intro Hfile. apply in_remove in Hfile. destruct Hfile as [Hfile _].
        revert Hfile. apply remove_In.
      * apply remove_In.
    + inversion Hrun; subst.
      destruct Hresp as [(u & p & a & H) | (m' & d & H)]; discriminate.
Qed.

(** A failing download: the 500 is sent with both files removed. *)
Lemma single_leaves_nothing_witness :
  ~ In (single_outputPath_of "J")
       (files (snd (add_banner (status_env 403) "J" (single_request None None)
                      {| files := ["/tmp/output-J.mp4"%string]; log := [] |}))).
Proof.
  destruct (add_banner (status_env 403) "J" (single_request None None)
              {| files := ["/tmp/output-J.mp4"%string]; log := [] |})
    as [resp w'] eqn:Hrun.
  assert (Hresp : resp = Single500 "Failed to process video" "Request failed").
  { apply (f_equal fst) in Hrun. vm_compute in Hrun. now symmetry. }
  destruct (single_leaves_nothing (status_env 403) "J" (single_request None None)
              _ resp w' Hrun) as [_ H].
  - right. subst resp. eexists. eexists. reflexivity.
  - exact H.
Defined.

(** X17. Whatever the outside services answer, the single-video handler
    creates and removes no file other than its own input and output
    scratch files. *)
Theorem single_touches_only_its_paths env jobId req w :
  same_files_except (single_path jobId) w (snd (add_banner env jobId req w)).
Proof.
  destruct (add_banner_cases env jobId req w)
    as [[m ->] | (url & avatar & platform & ->)]; [apply same_files_refl|].
  destruct (single_try env jobId url avatar platform req w) as [[u|e|e] w1] eqn:Ht;
    destruct (single_try_steps _ _ _ _ _ _ _ _ _ Ht) as (Hf & _); try exact Hf.
  destruct (single_catch_effect jobId e w1) as (w2 & -> & Hf2). cbn [snd].
  eapply same_files_trans; [exact Hf|].
  intros q Hq. rewrite Hf2. split.
  - intro H. apply in_remove in H. destruct H as [H _]. now apply in_remove in H.
  - intro H. apply in_in_remove; [intros ->; apply Hq; now right|].
    apply in_in_remove; [intros ->; apply Hq; now left | exact H].
Qed.

(** X18. A successful single-video job downloads the source once and
    probes it twice when the request carries no usable [duration] (absent,
    [0] or [NaN]), once when it does: the handler probes for the duration
    only if it needs it, [addScrollingBanner] always probes for the
    dimensions. *)
Theorem single_success_counts env jobId req w u p a w' :
  add_banner env jobId req w = (Single200 u p a, w') ->
  count_events is_download w' = S (count_events is_download w)
  /\ count_events is_probe w'
     = (count_events is_probe w + if falsy_num (sr_duration req) then 2 else 1)%nat.
Proof.
  intro Hrun.
  destruct (add_banner_cases env jobId req w)
    as [[m Hm] | (url & avatar & platform & Hc)]; [congruence|].
  rewrite Hc in Hrun. clear Hc.
  destruct (single_try env jobId url avatar platform req w) as [[u0|e|e] w1] eqn:Ht.
  - inversion Hrun; subst.
    destruct (single_try_steps _ _ _ _ _ _ _ _ _ Ht) as (_ & _ & Hok).
    destruct (Hok u eq_refl) as (_ & _ & H1 & H2). split; assumption.
  - destruct (single_catch_effect jobId e w1) as (w2 & Hs & _).
    rewrite Hs in Hrun. discriminate.
  - discriminate.
Qed.

Lemma single_success_counts_witness :
  count_events is_probe
    (snd (add_banner ok_env "J" (single_request (Some (JS.ofZ 10)) None) empty_world))
  = 1%nat.
Proof.
  destruct (add_banner ok_env "J" (single_request (Some (JS.ofZ 10)) None) empty_world)
    as [resp w'] eqn:Hrun.
  assert (Hresp : resp = Single200 "https://cdn.example/tmp/output-J.mp4" "YOUTUBE" "Kelly").
  { apply (f_equal fst) in Hrun. vm_compute in Hrun. now symmetry. }
  subst resp.
  destruct (single_success_counts ok_env "J" (single_request (Some (JS.ofZ 10)) None)
              empty_world _ _ _ w' Hrun) as [_ H].
  exact H.
Defined.

(* ------------------------------------------------------------------ *)
(** *** A download that succeeds after retries *)

Lemma download_loop_eventually env maxRetries d url out i :
  forall k r w,
  (k + i <= maxRetries)%nat -> (i < r)%nat ->
  (forall w0, (count_events is_get w < count_events is_get w0
               <= count_events is_get w + i)%nat ->
              exists e, axios env w0 url = AxiosError e
                        /\ retryable_status (status_of e) = true) ->
  (forall w0, count_events is_get w0 = (count_events is_get w + i + 1)%nat ->
              axios env w0 url = AxiosResponse StreamFinish) ->
  exists w',
    download_loop env r k maxRetries d url out w = (Ok tt, w')
    /\ count_events is_get w' = (count_events is_get w + i + 1)%nat
    /\ count_events is_sleep w' = (count_events is_sleep w + i)%nat
    /\ In out (files w').
Proof.
  induction i as [|i IH]; intros k r w Hk Hr Hfail Hok.
  - destruct r as [|r]; [lia|]. rewrite download_loop_step.
    rewrite Hok by (rewrite count_emit; cbn; lia).
    cbn [pipe_to_file]. eexists. split; [reflexivity|].
    rewrite !count_create, !count_emit. cbn [is_get is_sleep].
    repeat split; try lia. apply in_create_file.
  - destruct r as [|r]; [lia|]. rewrite download_loop_step.
    destruct (Hfail (emit (EvGet k url) w)) as (e & -> & ->);
      [rewrite count_emit; cbn; lia|].
    assert (Hlt : (k <? maxRetries)%nat = true) by (apply Nat.ltb_lt; lia).
    rewrite Hlt. cbn [andb].
    destruct (IH (S k) r (emit (EvSleep (d * JS.pow2 (k - 1))%js) (emit (EvGet k url) w)))
      as (w' & Hrun & Hg & Hs & Hin).
    + lia.
    + lia.
    + intros w0 Hw0. rewrite !count_emit in Hw0. cbn [is_get] in Hw0.
      apply Hfail. lia.
    + intros w0 Hw0. rewrite !count_emit in Hw0. cbn [is_get] in Hw0.
      apply Hok. lia.
    + exists w'. split; [exact Hrun|].
      rewrite !count_emit in Hg, Hs. cbn [is_get is_sleep] in Hg, Hs.
      repeat split; try lia. exact Hin.
Qed.

(** X20. If the first [j] requests of a download fail with a retryable
    status, [j < maxRetries], and the next request is answered with a body
    that is written completely, then [downloadVideo] resolves after exactly
    [j + 1] requests and [j] pauses, with the destination file in place. *)
Theorem downloadVideo_eventually env url out maxRetries d j w :
  (j < maxRetries)%nat ->
  (forall w0, (count_events is_get w < count_events is_get w0
               <= count_events is_get w + j)%nat ->
              exists e, axios env w0 url = AxiosError e
                        /\ retryable_status (status_of e) = true) ->
  (forall w0, count_events is_get w0 = (count_events is_get w + j + 1)%nat ->
              axios env w0 url = AxiosResponse StreamFinish) ->
  exists w',
    downloadVideo env url out maxRetries d w = (Ok tt, w')
    /\ count_events is_get w' = (count_events is_get w + j + 1)%nat
    /\ count_events is_sleep w' = (count_events is_sleep w + j)%nat
    /\ In out (files w').
Proof.
  intros Hj Hfail Hok.
  change (downloadVideo env url out maxRetries d w)
    with (download_loop env maxRetries 1 maxRetries d url out (emit (EvDownload url out) w)).
  destruct (download_loop_eventually env maxRetries d url out j 1 maxRetries
              (emit (EvDownload url out) w)) as (w' & Hrun & Hg & Hs & Hin).
  - lia.
  - lia.
  - intros w0 Hw0. rewrite count_emit in Hw0. cbn [is_get] in Hw0. apply Hfail. lia.
  - intros w0 Hw0. rewrite count_emit in Hw0. cbn [is_get] in Hw0. apply Hok. lia.
  - exists w'. rewrite count_emit in Hg, Hs. cbn [is_get is_sleep] in Hg, Hs.
    repeat split; try assumption; lia.
Qed.

(** Four 404 answers, then the file: five requests, four pauses. *)
Lemma downloadVideo_eventually_witness :
  exists w',
    downloadVideo (flaky_env 4) "https://v.example/a.mp4" "/tmp/input-J.mp4" 5
      (JS.ofZ 2000) empty_world = (Ok tt, w')
    /\ count_events is_get w' = 5%nat
    /\ count_events is_sleep w' = 4%nat
    /\ In "/tmp/input-J.mp4"%string (files w').
Proof.
  apply (downloadVideo_eventually (flaky_env 4) "https://v.example/a.mp4"
           "/tmp/input-J.mp4" 5 (JS.ofZ 2000) 4 empty_world).
  - lia.
  - intros w0 Hw0. cbn in Hw0. cbn [flaky_env axios].
    assert (E : Nat.leb (count_events is_get w0) 4 = true) by (apply Nat.leb_le; lia).
    rewrite E. eexists. split; reflexivity.
  - intros w0 Hw0. cbn in Hw0. cbn [flaky_env axios].
    assert (E : Nat.leb (count_events is_get w0) 4 = false) by (apply Nat.leb_gt; lia).
    rewrite E. reflexivity.
Defined.

(* ------------------------------------------------------------------ *)
(** *** What a successful batch renders and uploads *)

Lemma renders_of_app l1 l2 : renders_of (l1 ++ l2) = renders_of l1 ++ renders_of l2.
Proof.
  induction l1 as [|e l1 IH]; [reflexivity|].
  destruct e; cbn [app renders_of]; rewrite IH; reflexivity.
Qed.

Lemma uploads_of_app l1 l2 : uploads_of (l1 ++ l2) = uploads_of l1 ++ uploads_of l2.
Proof.
  induction l1 as [|e l1 IH]; [reflexivity|].
  destruct e; cbn [app uploads_of]; rewrite IH; reflexivity.
Qed.

Lemma attempt_trace_quiet d url n :
  forall k, renders_of (attempt_trace k n d url) = [] /\ uploads_of (attempt_trace k n d url) = [].
Proof.
  induction n as [|n IH]; intro k; [split; reflexivity|].
  destruct n as [|n]; [split; reflexivity|].
  rewrite attempt_trace_cons by lia. cbn [renders_of uploads_of]. apply IH.
Qed.

Lemma drawtextOptions_text bc w h text d o :
  V3.drawtextOptions bc w h text d = inr o -> dt_text o = text.
Proof.
  unfold V3.drawtextOptions, V3.options_of_config.
  destruct (V3.textColor (spread DEFAULT_BANNER_CONFIG bc)); [discriminate|].
  destruct (V3.bgColor (spread DEFAULT_BANNER_CONFIG bc)); [discriminate|].
  intro H. injection H as <-. reflexivity.
Qed.

Lemma addScrollingBanner_ok_log env i o opts w out w' :
  addScrollingBanner env i o opts w = (Ok out, w') ->
  exists dt,
    log w' = log w ++ [EvProbe i; EvRender i o dt]
    /\ dt_text dt = bannerText (avatarName opts) (platform opts).
Proof.
  unfold addScrollingBanner, bind at 1. intro H.
  destruct (getVideoDimensions env i w) as [[info|e|e] w1] eqn:Hp; try discriminate.
  pose proof (getVideoDimensions_world _ _ _ _ _ Hp) as ->.
  destruct (V3.drawtextOptions (config_or_empty (bannerConfig opts)) (width info)
              (height info) (bannerText (avatarName opts) (platform opts))
              (oduration opts)) as [e|dt] eqn:Hdt; [discriminate|].
  unfold render, bind, tell in H.
  destruct (ffmpeg_save env (emit (EvRender i o dt) (emit (EvProbe i) w)) i o dt)
    as [|e partial]; inversion H; subst; clear H.
  exists dt. split; [|eapply drawtextOptions_text; exact Hdt].
  cbn [create_file emit log]. rewrite <- app_assoc. reflexivity.
Qed.

Lemma process_platforms_ok_log env jobId avatar dur cfg todo :
  forall acc w rs w',
  process_platforms env jobId avatar dur cfg todo acc w = (Ok rs, w') ->
  exists l,
    log w' = log w ++ l
    /\ renders_of l
       = map (fun t => (inputPath_of jobId, outputPath_of jobId t,
                        bannerText avatar (toUpperCase t))) todo
    /\ uploads_of l = map (outputPath_of jobId) todo.
Proof.
  induction todo as [|p rest IH]; intros acc w rs w' H.
  - inversion H; subst. exists []. rewrite app_nil_r. repeat split.
  - cbn [process_platforms] in H. unfold bind at 1 in H.
    destruct (addScrollingBanner env (inputPath_of jobId) (outputPath_of jobId p)
                {| avatarName := avatar; platform := toUpperCase p;
                   oduration := dur; bannerConfig := cfg |} w)
      as [[out|e|e] w1] eqn:Ha; try discriminate.
    apply addScrollingBanner_ok_log in Ha. destruct Ha as (dt & Hlog1 & Htext).
    cbn [avatarName platform] in Htext.
    unfold bind at 1 in H.
    destruct (uploadToCloudinary env (outputPath_of jobId p) w1)
      as [[u|e|e] w2] eqn:Hu; try discriminate.
    apply uploadToCloudinary_world in Hu. subst w2.
    unfold bind at 1 in H.
    destruct (unlinkSync (outputPath_of jobId p) (emit (EvUpload (outputPath_of jobId p)) w1))
      as [[[]|e|e] w3] eqn:Hx; try discriminate.
    apply unlinkSync_ok in Hx. destruct Hx as [_ ->].
    apply IH in H. destruct H as (l & Hlog & Hr & Hup).
    cbn [remove_file emit log] in Hlog. rewrite Hlog1 in Hlog.
    exists (EvProbe (inputPath_of jobId)
            :: EvRender (inputPath_of jobId) (outputPath_of jobId p) dt
            :: EvUpload (outputPath_of jobId p)
            :: EvUnlink (outputPath_of jobId p) :: l).
    split.
    + rewrite Hlog. rewrite <- !app_assoc. reflexivity.
    + cbn [renders_of uploads_of map]. rewrite Htext, Hr, Hup. split; reflexivity.
Qed.

(** X21. For tags that are plain ASCII without [/]: when the batch handler
    answers 200, the renderer was called exactly once per tag, in input
    order, each time reading the shared input file, writing that tag's own
    output file and drawing the text
    [Ask for <avatar> and mention you saw this on <TAG>!] with the tag
    upper-cased; and exactly those output files were uploaded, in the same
    order. *)
Theorem batch_success_renders env jobId req tags w a rs w' :
  platforms req = Some tags ->
  plain_tag jobId -> Forall plain_tag tags ->
  add_banners_batch env jobId req w = (Json200 a rs, w') ->
  renders_of (skipn (List.length (log w)) (log w'))
  = map (fun t => (inputPath_of jobId, outputPath_of jobId t,
                   bannerText a (toUpperCase t))) tags
  /\ uploads_of (skipn (List.length (log w)) (log w')) = map (outputPath_of jobId) tags.
Proof.
  intros Hp _ _ Hrun.
  destruct (add_banners_batch_cases env jobId req w)
    as [[m Hm] | (url & avatar & tags' & Hp' & Hc)]; [congruence|].
  rewrite Hp in Hp'. injection Hp' as <-. rewrite Hc in Hrun. clear Hc.
  destruct (batch_try env jobId url avatar tags req w) as [[rs0|e|e] w1] eqn:Ht.
  - inversion Hrun; subst. clear Hrun.
    unfold batch_try, bind at 1 in Ht.
    destruct (downloadVideo_shape_aux env url (inputPath_of jobId) 5 (JS.ofZ 2000) w)
      as (n & _ & _ & Hlog1).
    destruct (downloadVideo env url (inputPath_of jobId) 5 (JS.ofZ 2000) w)
      as [[[]|e|e] w2]; try discriminate.
    cbn [snd] in Hlog1.
    unfold bind at 1 in Ht.
    destruct (getVideoDimensions env (inputPath_of jobId) w2) as [[info|e|e] w3] eqn:Hg;
      try discriminate.
    pose proof (getVideoDimensions_world _ _ _ _ _ Hg) as ->.
    unfold bind at 1 in Ht.
    destruct (process_platforms env jobId a
                (JS.or_else (duration req) (vduration info)) (banner_config req) tags []
                (emit (EvProbe (inputPath_of jobId)) w2)) as [[rs'|e|e] w4] eqn:Hl;
      try discriminate.
    apply process_platforms_ok_log in Hl. destruct Hl as (l & Hlog & Hr & Hu).
    unfold bind at 1 in Ht.
    destruct (unlinkSync (inputPath_of jobId) w4) as [[[]|e|e] w5] eqn:Hx; try discriminate.
    apply unlinkSync_ok in Hx. destruct Hx as [_ ->].
    inversion Ht; subst. cbn [remove_file emit log].
    rewrite Hlog. cbn [emit log]. rewrite Hlog1.
    rewrite <- !app_assoc.
    rewrite skipn_app, Nat.sub_diag, skipn_all. cbn [skipn app].
    destruct (attempt_trace_quiet (JS.ofZ 2000) url n 1%nat) as [Hq1 Hq2].
    cbn [renders_of uploads_of].
    rewrite renders_of_app, uploads_of_app, Hq1, Hq2.
    cbn [app renders_of uploads_of].
    rewrite renders_of_app, uploads_of_app, Hr, Hu.
    cbn [renders_of uploads_of]. rewrite !app_nil_r. split; reflexivity.
  - destruct (batch_catch_effect jobId e w1) as (w2 & Hc & _).
    rewrite Hc in Hrun. discriminate.
  - discriminate.
Qed.

Lemma batch_success_renders_witness :
  uploads_of (log (snd (add_banners_batch ok_env "J" (two_tags None None) empty_world)))
  = ["/tmp/output-J-youtube.mp4"; "/tmp/output-J-tiktok.mp4"]%string.
Proof.
  destruct (add_banners_batch ok_env "J" (two_tags None None) empty_world)
    as [resp w'] eqn:Hrun.
  assert (Hresp : exists rs, resp = Json200 "Kelly" rs).
  { apply (f_equal fst) in Hrun. vm_compute in Hrun. rewrite <- Hrun. eexists. reflexivity. }
  destruct Hresp as [rs ->].
  destruct (batch_success_renders ok_env "J" (two_tags None None)
              ["youtube"; "tiktok"]%string empty_world _ _ _ eq_refl eq_refl
              ltac:(repeat constructor) Hrun) as [_ H].
  exact H.
Defined.

(* ------------------------------------------------------------------ *)
(** *** The duration handed to the resolver *)









(* ------------------------------------------------------------------ *)
(** *** The entries of a successful batch *)

Lemma process_platforms_ok_entries env jobId avatar dur cfg todo :
  forall acc w rs w',
  process_platforms env jobId avatar dur cfg todo acc w = (Ok rs, w') ->
  exists rs',
    rs = acc ++ rs'
    /\ Forall2 (fun t r =>
                  fst r = toUpperCase t
                  /\ exists w0 l0 l1,
                       log w0 = l0 ++ [EvUpload (outputPath_of jobId t)]
                       /\ log w' = log w0 ++ l1
                       /\ cloudinary_upload env w0 (outputPath_of jobId t)
                          = UploadOk (snd r)) todo rs'.
Proof.
  induction todo as [|p rest IH]; intros acc w rs w' H.
  - inversion H; subst. exists []. rewrite app_nil_r. split; [reflexivity | constructor].
  - cbn [process_platforms] in H. unfold bind at 1 in H.
    destruct (addScrollingBanner env (inputPath_of jobId) (outputPath_of jobId p)
                {| avatarName := avatar; platform := toUpperCase p;
                   oduration := dur; bannerConfig := cfg |} w)
      as [[out|e|e] w1]; try discriminate.
    unfold bind at 1 in H. unfold uploadToCloudinary at 1, bind at 1, tell at 1 in H.
    destruct (cloudinary_upload env (emit (EvUpload (outputPath_of jobId p)) w1)
                (outputPath_of jobId p)) as [u|e] eqn:Hu; try discriminate.
    unfold bind at 1 in H.
    destruct (unlinkSync (outputPath_of jobId p) (emit (EvUpload (outputPath_of jobId p)) w1))
      as [[[]|e|e] w3] eqn:Hx; try discriminate.
    apply unlinkSync_ok in Hx. destruct Hx as [_ ->].
    pose proof (process_platforms_ok_log _ _ _ _ _ _ _ _ _ _ H) as (l & Hlog & _).
    apply IH in H. destruct H as (rs' & -> & Hrest).
    exists ((toUpperCase p, u) :: rs'). split.
    + rewrite <- app_assoc. reflexivity.
    + constructor; [|exact Hrest]. split; [reflexivity|].
      exists (emit (EvUpload (outputPath_of jobId p)) w1), (log w1),
        (EvUnlink (outputPath_of jobId p) :: l).
      split; [reflexivity|]. split; [|exact Hu].
      rewrite Hlog. cbn [remove_file emit log]. rewrite <- !app_assoc. reflexivity.
Qed.

(** C2, amended.  For a batch request with tags [t1 .. tN], plain ASCII
    without [/]: when every outside service succeeds the handler answers
    200; and whenever it answers 200, [downloadVideo] was called exactly
    once, the shared source was probed exactly [1 + N] times (once by the
    handler and once inside each [addScrollingBanner]), and the result list
    has exactly [N] entries, the k-th holding the k-th tag upper-cased and
    the URL that the upload service returned, during this run, to the
    upload of that tag's output file. *)
Theorem batch_success_shape env jobId req url avatar tags w :
  video_url req = Some url -> url <> ""%string ->
  avatar_name req = Some avatar -> avatar <> ""%string ->
  platforms req = Some tags ->
  plain_tag jobId -> Forall plain_tag tags ->
  (all_succeed env ->
   exists rs w', add_banners_batch env jobId req w = (Json200 avatar rs, w'))
  /\ (forall a rs w',
        add_banners_batch env jobId req w = (Json200 a rs, w') ->
        a = avatar
        /\ count_events is_download w' = (count_events is_download w + 1)%nat
        /\ count_events is_probe w' = (count_events is_probe w + 1 + List.length tags)%nat
        /\ List.length rs = List.length tags
        /\ Forall2 (fun t r =>
                      fst r = toUpperCase t
                      /\ exists w0 l0 l1,
                           log w0 = l0 ++ [EvUpload (outputPath_of jobId t)]
                           /\ log w' = log w0 ++ l1
                           /\ cloudinary_upload env w0 (outputPath_of jobId t)
                              = UploadOk (snd r)) tags rs).
Proof.
  intros Hu Hu' Ha Ha' Hp _ _.
  rewrite (add_banners_batch_valid env jobId req url avatar tags w Hu Hu' Ha Ha' Hp).
  split.
  - intro Hall.
    destruct (batch_try_all_succeed env jobId url avatar tags req w Hall) as (rs & w' & ->).
    now exists rs, w'.
  - intros a rs w' H.
    destruct (batch_try env jobId url avatar tags req w) as [[rs0|e|e] w1] eqn:Ht.
    + inversion H; subst.
      pose proof (batch_try_ok _ _ _ _ _ _ _ _ _ Ht) as (H1 & H2 & H3).
      split; [reflexivity|]. split; [lia|]. split; [lia|].
      split; [rewrite <- (length_map fst rs), H3, length_map; reflexivity|].
      unfold batch_try, bind at 1 in Ht.
      destruct (downloadVideo env url (inputPath_of jobId) 5 (JS.ofZ 2000) w)
        as [[[]|e|e] w2]; try discriminate.
      unfold bind at 1 in Ht.
      destruct (getVideoDimensions env (inputPath_of jobId) w2) as [[info|e|e] w3];
        try discriminate.
      unfold bind at 1 in Ht.
      destruct (process_platforms env jobId a
                  (JS.or_else (duration req) (vduration info)) (banner_config req) tags []
                  w3) as [[rs'|e|e] w4] eqn:Hl; try discriminate.
      unfold bind at 1 in Ht.
      destruct (unlinkSync (inputPath_of jobId) w4) as [[[]|e|e] w5] eqn:Hx;
        try discriminate.
      apply unlinkSync_ok in Hx. destruct Hx as [_ ->].
      inversion Ht; subst.
      apply process_platforms_ok_entries in Hl. destruct Hl as (rs2 & -> & Hf).
      cbn [app]. revert Hf. apply Forall2_impl.
      intros t r (Hfst & w0 & l0 & l1 & Hl0 & Hl1 & Hup).
      split; [exact Hfst|].
      exists w0, l0, (l1 ++ [EvUnlink (inputPath_of jobId)]).
      split; [exact Hl0|]. split; [|exact Hup].
      cbn [remove_file emit log]. rewrite Hl1, <- app_assoc. reflexivity.
    + destruct (batch_catch_effect jobId e w1) as (w2 & Hc & _).
      rewrite Hc in H. discriminate.
    + discriminate.
Qed.

(** Two tags, every service succeeding: the answer is a 200 whose entries
    carry the upper-cased tags and the URLs returned for the two output
    files. *)
Lemma batch_success_shape_witness :
  exists rs w',
    add_banners_batch ok_env "J" (two_tags None None) empty_world
    = (Json200 "Kelly" rs, w')
    /\ map fst rs = ["YOUTUBE"; "TIKTOK"]%string.
Proof.
  destruct (batch_success_shape ok_env "J" (two_tags None None) "https://v.example/a.mp4"
              "Kelly" ["youtube"; "tiktok"]%string empty_world) as [Hex Hshape];
    try reflexivity; try discriminate.
  - repeat constructor.
  - destruct (Hex ok_env_all_succeed) as (rs & w' & Hrun).
    exists rs, w'. split; [exact Hrun|].
    destruct (Hshape "Kelly" rs w' Hrun) as (_ & _ & _ & _ & Hf).
    clear Hrun Hex Hshape.
    inversion Hf as [|t1 r1 ts1 rs1 [H1 _] Hf1]; subst.
    inversion Hf1 as [|t2 r2 ts2 rs2 [H2 _] Hf2]; subst.
    inversion Hf2; subst. cbn [map]. rewrite H1, H2. reflexivity.
Defined.
